(** * ShoggothAI streaming proxy: relay, history extraction, example store

    A shallow embedding of [run.py] and [shoggoth_utils.py] (with the part of
    [shoggoth_dspy.py] the request handler calls), and the properties of the
    streaming relay, the two history extractors and the bounded, persisted
    example store.

    Conventions.
    - A Python [str] is the list of its code points ([pystr]); a [bytes]
      object is a list of [Byte.byte].
    - A Python value that travels through JSON is a [pyval].
    - Code that raises returns a [result]; code with effects is a function
      of the [world] (the two modules' globals, the deque objects they name,
      the Redis service, and the trace of what the process did). *)

From Stdlib Require Import ZArith NArith List String Ascii Lia Bool DecimalString.
From Stdlib.Strings Require Import Byte.
From stdpp Require Import base option list gmap.


(** ** Strings and bytes *)

Definition pystr := list N.
Definition bytes := list Byte.byte.

(** A [str] literal with ASCII characters only. *)
Definition py (s : string) : pystr := map N_of_ascii (list_ascii_of_string s).

(** A [bytes] literal. *)
Definition pyb (s : string) : bytes := list_byte_of_string s.

Definition code (b : Byte.byte) : N := Byte.to_N b.

(** ** [bytes.decode("utf-8", errors="replace")]

    CPython's decoder: a malformed sequence becomes one U+FFFD and decoding
    resumes after the bytes the error covers (one byte for an invalid start
    byte, the bytes read so far for an invalid continuation byte, the rest of
    the input for a sequence cut off by the end of the data). *)

Local Open Scope N_scope.

Definition REPLACEMENT_CHARACTER : N := 0xFFFD.

Definition is_continuation_byte (b : Byte.byte) : bool :=
  (0x80 <=? code b) && (code b <? 0xC0).

Fixpoint utf8_decode_replace (s : bytes) : pystr :=
  match s with
  | [] => []
  | b1 :: r1 =>
    let ch := code b1 in
    if ch <? 0x80 then ch :: utf8_decode_replace r1
    else if ch <? 0xC2 then
      (* invalid start byte *)
      REPLACEMENT_CHARACTER :: utf8_decode_replace r1
    else if ch <? 0xE0 then
      (* \xC2\x80-\xDF\xBF -- 0080-07FF *)
      match r1 with
      | [] => [REPLACEMENT_CHARACTER]
      | b2 :: r2 =>
        if is_continuation_byte b2
        then (N.shiftl ch 6 + code b2 - (N.shiftl 0xC0 6 + 0x80))
               :: utf8_decode_replace r2
        else REPLACEMENT_CHARACTER :: utf8_decode_replace r1
      end
    else if ch <? 0xF0 then
      (* \xE0\xA0\x80-\xEF\xBF\xBF -- 0800-FFFF, surrogates excluded *)
      match r1 with
      | [] => [REPLACEMENT_CHARACTER]
      | b2 :: r2 =>
        if negb (is_continuation_byte b2)
           || (if code b2 <? 0xA0 then ch =? 0xE0 else ch =? 0xED)
        then REPLACEMENT_CHARACTER :: utf8_decode_replace r1
        else
          match r2 with
          | [] => [REPLACEMENT_CHARACTER]
          | b3 :: r3 =>
            if is_continuation_byte b3
            then (N.shiftl ch 12 + N.shiftl (code b2) 6 + code b3
                    - (N.shiftl 0xE0 12 + N.shiftl 0x80 6 + 0x80))
                   :: utf8_decode_replace r3
            else REPLACEMENT_CHARACTER :: utf8_decode_replace r2
          end
      end
    else if ch <? 0xF5 then
      (* \xF0\x90\x80\x80-\xF4\x8F\xBF\xBF -- 10000-10FFFF *)
      match r1 with
      | [] => [REPLACEMENT_CHARACTER]
      | b2 :: r2 =>
        if negb (is_continuation_byte b2)
           || (if code b2 <? 0x90 then ch =? 0xF0 else ch =? 0xF4)
        then REPLACEMENT_CHARACTER :: utf8_decode_replace r1
        else
          match r2 with
          | [] => [REPLACEMENT_CHARACTER]
          | b3 :: r3 =>
            if negb (is_continuation_byte b3)
            then REPLACEMENT_CHARACTER :: utf8_decode_replace r2
            else
              match r3 with
              | [] => [REPLACEMENT_CHARACTER]
              | b4 :: r4 =>
                if is_continuation_byte b4
                then (N.shiftl ch 18 + N.shiftl (code b2) 12
                        + N.shiftl (code b3) 6 + code b4
                        - (N.shiftl 0xF0 18 + N.shiftl 0x80 12
                           + N.shiftl 0x80 6 + 0x80))
                       :: utf8_decode_replace r4
                else REPLACEMENT_CHARACTER :: utf8_decode_replace r3
              end
          end
      end
    else
      (* invalid start byte \xF5-\xFF *)
      REPLACEMENT_CHARACTER :: utf8_decode_replace r1
  end.

(** [str.isspace] on one code point, as [str.strip()] uses it. *)
Definition py_isspace (c : N) : bool :=
  ((0x09 <=? c) && (c <=? 0x0D)) || ((0x1C <=? c) && (c <=? 0x20))
  || (c =? 0x85) || (c =? 0xA0) || (c =? 0x1680)
  || ((0x2000 <=? c) && (c <=? 0x200A))
  || (c =? 0x2028) || (c =? 0x2029) || (c =? 0x202F) || (c =? 0x205F)
  || (c =? 0x3000).

Local Close Scope N_scope.

Fixpoint py_lstrip (s : pystr) : pystr :=
  match s with
  | c :: r => if py_isspace c then py_lstrip r else s
  | [] => []
  end.

(** [s.strip()] *)
Definition py_strip (s : pystr) : pystr := rev (py_lstrip (rev (py_lstrip s))).

(** Truth value of a [str]: non-empty. *)
Definition str_truthy (s : pystr) : bool :=
  match s with [] => false | _ => true end.

(** [s[:n]] for [n >= 0] *)
Definition py_prefix (n : nat) (s : pystr) : pystr := take n s.

(** [str(n)] for a length. *)
Definition str_of_nat (n : nat) : pystr :=
  py (NilEmpty.string_of_uint (Nat.to_uint n)).

(** ** Python values

    The values JSON carries. A [dict] is the list of its items in insertion
    order, looked up by key; a [float] is its binary64 bit pattern. *)

Definition float64 := N.

#[warnings="-register-all"]
Inductive pyval :=
| PNone
| PBool (b : bool)
| PInt (z : Z)
| PFloat (f : float64)
| PStr (s : pystr)
| PList (xs : list pyval)
| PDict (items : list (pystr * pyval)).

(** ** Exceptions ([Exception] and its subclasses) *)

Inductive exn :=
| HTTPException (status_code : Z) (detail : pystr)
| KeyError (key : pystr)
| TypeError (msg : pystr)
| IndexError (msg : pystr)
| ValueError (msg : pystr)
| JSONDecodeError (msg : pystr)
| ValidationError (msg : pystr)
| ConnectionError (msg : pystr)
| OSError (msg : pystr).

(** [str(e)] *)
Definition exn_str (e : exn) : pystr :=
  match e with
  | HTTPException c d => str_of_nat (Z.to_nat c) ++ py ": " ++ d
  | KeyError k => py "'" ++ k ++ py "'"
  | TypeError m | IndexError m | ValueError m | JSONDecodeError m | ValidationError m
  | ConnectionError m | OSError m => m
  end.

Inductive result (A : Type) :=
| Ok (a : A)
| Raise (e : exn).
Arguments Ok {A} a.
Arguments Raise {A} e.

Definition result_bind {A B} (r : result A) (k : A -> result B) : result B :=
  match r with
  | Ok a => k a
  | Raise e => Raise e
  end.

(** A comprehension [[f(x) for x in xs]]: left to right, stops at the first
    exception. *)
Fixpoint comprehension {A B} (f : A -> result B) (xs : list A)
  : result (list B) :=
  match xs with
  | [] => Ok []
  | x :: r =>
    result_bind (f x) (fun y =>
    result_bind (comprehension f r) (fun ys => Ok (y :: ys)))
  end.

Fixpoint dict_get (items : list (pystr * pyval)) (key : pystr)
  : option pyval :=
  match items with
  | [] => None
  | (k, v) :: r => if bool_decide (k = key) then Some v else dict_get r key
  end.

(** [obj[key]] with a [str] key *)
Definition py_getitem (obj : pyval) (key : pystr) : result pyval :=
  match obj with
  | PDict items =>
    match dict_get items key with
    | Some v => Ok v
    | None => Raise (KeyError key)
    end
  | PStr _ => Raise (TypeError (py "string indices must be integers"))
  | PList _ => Raise (TypeError (py "list indices must be integers or slices, not str"))
  | _ => Raise (TypeError (py "object is not subscriptable"))
  end.

(** [for x in obj]: the items a [for] loop or comprehension visits. *)
Definition py_iter (obj : pyval) : result (list pyval) :=
  match obj with
  | PList xs => Ok xs
  | PDict items => Ok (map (fun kv => PStr (fst kv)) items)
  | PStr s => Ok (map (fun c => PStr [c]) s)
  | _ => Raise (TypeError (py "object is not iterable"))
  end.

(** [v == s] for a [str] literal [s] *)
Definition py_eq_str (v : pyval) (s : pystr) : bool :=
  match v with
  | PStr t => bool_decide (t = s)
  | _ => false
  end.

(** ** Data model *)

(** [run.Message] *)
Record Message := { role : pystr; content : pystr }.

(** [run.ChatCompletionRequest] *)
Record ChatCompletionRequest := {
  model : pystr;
  messages : list Message;
  stream : bool;
  temperature : float64;
  max_tokens : Z }.

(** [shoggoth_utils.ConversationExample]: two attributes, whatever they are
    given. *)
Record ConversationExample := {
  ce_messages : pyval;
  ce_response : pyval }.

Definition to_dict (self : ConversationExample) : pyval :=
  PDict [(py "messages", ce_messages self); (py "response", ce_response self)].

Definition from_dict (data : pyval) : result ConversationExample :=
  result_bind (py_getitem data (py "messages")) (fun m =>
  result_bind (py_getitem data (py "response")) (fun r =>
  Ok {| ce_messages := m; ce_response := r |})).

(** ** [collections.deque] with a [maxlen] *)

Record deque := { dq_items : list ConversationExample; dq_maxlen : nat }.

(** [deque(maxlen=n)] *)
Definition deque_empty (n : nat) : deque := {| dq_items := []; dq_maxlen := n |}.

(** [d.append(x)]: the item goes to the right end, and a deque longer than
    its [maxlen] drops its left end. *)
Definition deque_append (x : ConversationExample) (d : deque) : deque :=
  let items := dq_items d ++ [x] in
  {| dq_items := if dq_maxlen d <? length items then tail items else items;
     dq_maxlen := dq_maxlen d |}.

(** [d.extend(xs)], which is what a run of appends does. *)
Definition deque_extend (xs : list ConversationExample) (d : deque) : deque :=
  fold_left (fun d x => deque_append x d) xs d.

(** [deque(xs, maxlen=n)] *)
Definition deque_of (xs : list ConversationExample) (n : nat) : deque :=
  deque_extend xs (deque_empty n).

(** [conversation_examples = deque(maxlen=1000)] *)
Definition CAPACITY : nat := 1000.

(** ** History extraction *)

(** [run.extract_current_message_and_history] *)
Definition extract_current_message_and_history (msgs : list Message)
  : pystr * list Message :=
  match msgs with
  | [] => ([], [])
  | m0 :: _ =>
    let current_message := content (List.last msgs m0) in
    let history := take (length msgs - 1) msgs in
    (current_message, history)
  end.

(** The loop of [extract_current_message_and_history_from_messages]: [i]
    runs over [range(n - 1, -1, -1)], here with [n] indices still to visit.
    The result is [(current_message, history)] when the loop ends, which is
    [(None, [])] when it runs out without a [break]. *)
Fixpoint find_last_user (msgs : list pyval) (n : nat)
  : result (pyval * list pyval) :=
  match n with
  | O => Ok (PNone, [])
  | S i =>
    match msgs !! i with
    | None => Raise (IndexError (py "list index out of range"))
    | Some m =>
      result_bind (py_getitem m (py "role")) (fun r =>
      if py_eq_str r (py "user")
      then result_bind (py_getitem m (py "content")) (fun c =>
           Ok (c, take i msgs))
      else find_last_user msgs i)
    end
  end.

(** [shoggoth_utils.extract_current_message_and_history_from_messages] *)
Definition extract_current_message_and_history_from_messages
  (msgs : list pyval) : result (pyval * list pyval) :=
  match msgs with
  | [] => Ok (PStr [], [])
  | _ =>
    result_bind (find_last_user msgs (length msgs)) (fun found =>
    match found with
    | (PNone, _) => Ok (PStr [], msgs)
    | (current_message, history) => Ok (current_message, history)
    end)
  end.

(** [shoggoth_dspy.fastapi_messages_to_dspy_history]: the pairs at indices
    [(0,1), (2,3), ...] that are a user message followed by an assistant
    message. *)
Fixpoint fastapi_messages_to_dspy_history (msgs : list Message)
  : list (pystr * pystr) :=
  match msgs with
  | user_msg :: assistant_msg :: rest =>
    (if bool_decide (role user_msg = py "user")
        && bool_decide (role assistant_msg = py "assistant")
     then [(content user_msg, content assistant_msg)] else [])
    ++ fastapi_messages_to_dspy_history rest
  | _ => []
  end.

(** ** The world

    [heap] holds the deque objects; the two module globals that name the
    example store hold locations in it: [shoggoth_utils.conversation_examples]
    and the name [run.py] binds with
    [from shoggoth_utils import conversation_examples]. [run.redis] is the
    client or [None]. The Redis service, the JSONL file and the clock are the
    process's surroundings. *)

Inductive event :=
| EvPrint (text : pystr)
| EvUpstreamSend (url : pystr) (body : pyval)
| EvChatbot (current_message : pystr) (history : list (pystr * pystr))
| EvYield (chunk : bytes).

Record redis_service := {
  redis_data : gmap pystr pystr;
  redis_reachable : bool }.

Record world := {
  heap : list deque;
  utils_conversation_examples : nat;
  run_conversation_examples : nat;
  run_redis : bool;
  redis_server : redis_service;
  logfile : list pystr;
  logfile_writable : bool;
  clock : pystr;
  trace : list event }.

Definition set_heap (h : list deque) (w : world) : world :=
  {| heap := h;
     utils_conversation_examples := utils_conversation_examples w;
     run_conversation_examples := run_conversation_examples w;
     run_redis := run_redis w; redis_server := redis_server w;
     logfile := logfile w; logfile_writable := logfile_writable w;
     clock := clock w; trace := trace w |}.

Definition set_utils_conversation_examples (l : nat) (w : world) : world :=
  {| heap := heap w;
     utils_conversation_examples := l;
     run_conversation_examples := run_conversation_examples w;
     run_redis := run_redis w; redis_server := redis_server w;
     logfile := logfile w; logfile_writable := logfile_writable w;
     clock := clock w; trace := trace w |}.

Definition set_run_redis (b : bool) (w : world) : world :=
  {| heap := heap w;
     utils_conversation_examples := utils_conversation_examples w;
     run_conversation_examples := run_conversation_examples w;
     run_redis := b; redis_server := redis_server w;
     logfile := logfile w; logfile_writable := logfile_writable w;
     clock := clock w; trace := trace w |}.

Definition set_redis_server (r : redis_service) (w : world) : world :=
  {| heap := heap w;
     utils_conversation_examples := utils_conversation_examples w;
     run_conversation_examples := run_conversation_examples w;
     run_redis := run_redis w; redis_server := r;
     logfile := logfile w; logfile_writable := logfile_writable w;
     clock := clock w; trace := trace w |}.

Definition set_logfile (f : list pystr) (w : world) : world :=
  {| heap := heap w;
     utils_conversation_examples := utils_conversation_examples w;
     run_conversation_examples := run_conversation_examples w;
     run_redis := run_redis w; redis_server := redis_server w;
     logfile := f; logfile_writable := logfile_writable w;
     clock := clock w; trace := trace w |}.

Definition set_trace (t : list event) (w : world) : world :=
  {| heap := heap w;
     utils_conversation_examples := utils_conversation_examples w;
     run_conversation_examples := run_conversation_examples w;
     run_redis := run_redis w; redis_server := redis_server w;
     logfile := logfile w; logfile_writable := logfile_writable w;
     clock := clock w; trace := t |}.

(** The deque object at a location. *)
Definition deref (w : world) (l : nat) : deque :=
  default (deque_empty CAPACITY) (heap w !! l).

(** The example store as each module sees it. *)
Definition utils_store (w : world) : deque :=
  deref w (utils_conversation_examples w).
Definition run_store (w : world) : deque :=
  deref w (run_conversation_examples w).

(** A process that has just imported both modules: one empty deque, named
    by both globals; no Redis client yet. *)
Definition fresh_process (srv : redis_service) (log : list pystr)
  (writable : bool) (now : pystr) : world :=
  {| heap := [deque_empty CAPACITY];
     utils_conversation_examples := 0;
     run_conversation_examples := 0;
     run_redis := false; redis_server := srv;
     logfile := log; logfile_writable := writable;
     clock := now; trace := [] |}.

(** ** Computations: state and exceptions *)

Definition M (A : Type) : Type := world -> result A * world.

Definition ret {A} (a : A) : M A := fun w => (Ok a, w).

Definition bind {A B} (m : M A) (k : A -> M B) : M B :=
  fun w =>
    match m w with
    | (Ok a, w') => k a w'
    | (Raise e, w') => (Raise e, w')
    end.

Definition raise {A} (e : exn) : M A := fun w => (Raise e, w).

Definition lift {A} (r : result A) : M A := fun w => (r, w).

(** [try: body  except Exception as e: handler(e)] *)
Definition try_except {A} (body : M A) (handler : exn -> M A) : M A :=
  fun w =>
    match body w with
    | (Ok a, w') => (Ok a, w')
    | (Raise e, w') => handler e w'
    end.

Declare Scope prog_scope.
Delimit Scope prog_scope with prog.
Notation "'let*' x ':=' m 'in' k" := (bind m (fun x => k))
  (at level 10, x name, m at level 100, k at level 200) : prog_scope.
Notation "'let*' ' p ':=' m 'in' k" :=
  (bind m (fun x => match x with p => k end))
  (at level 10, p pattern, m at level 100, k at level 200) : prog_scope.
Notation "'run' m 'then' k" := (bind m (fun _ => k))
  (at level 10, m at level 100, k at level 200) : prog_scope.
Local Open Scope prog_scope.

Definition emit (e : event) : M unit :=
  fun w => (Ok tt, set_trace (trace w ++ [e]) w).

Definition print (text : pystr) : M unit := emit (EvPrint text).

Definition get_world : M world := fun w => (Ok w, w).

(** What the service holds under a key, and the service after a write. *)
Definition redis_lookup (srv : redis_service) (key : pystr) : option pystr :=
  redis_data srv !! key.

Definition redis_store (srv : redis_service) (key value : pystr)
  : redis_service :=
  {| redis_data := <[key := value]> (redis_data srv);
     redis_reachable := redis_reachable srv |}.

(** [await redis_client.get(key)], with [decode_responses=True] *)
Definition redis_get (key : pystr) : M (option pystr) :=
  fun w =>
    if redis_reachable (redis_server w)
    then (Ok (redis_lookup (redis_server w) key), w)
    else (Raise (ConnectionError (py "Error connecting to Redis")), w).

(** [await redis_client.set(key, value)] *)
Definition redis_set (key value : pystr) : M unit :=
  fun w =>
    if redis_reachable (redis_server w)
    then (Ok tt, set_redis_server (redis_store (redis_server w) key value) w)
    else (Raise (ConnectionError (py "Error connecting to Redis")), w).

(** [await redis.ping()] *)
Definition redis_ping : M unit :=
  fun w =>
    if redis_reachable (redis_server w) then (Ok tt, w)
    else (Raise (ConnectionError (py "Error connecting to Redis")), w).

Definition NL : pystr := [10%N].

(** ** The relay generator

    [upstream_response.aiter_bytes()]: the chunks the upstream sends, and the
    transport fault that ends the stream early, if any. *)
Record upstream_stream := {
  aiter_bytes : list bytes;
  aiter_fault : option exn }.

(** [generate_stream]: what one run of the generator yields, and the value
    it leaves in [full_response], the handler's local that it shares through
    [nonlocal]. The argument is that variable's value when the generator
    starts. *)
Fixpoint generate_stream (full_response : pystr) (chunks : list bytes)
  : list bytes * pystr :=
  match chunks with
  | [] => ([], full_response)
  | chunk :: rest =>
    let decoded := utf8_decode_replace chunk in
    let full_response := full_response ++ decoded in
    let '(yielded, final) := generate_stream full_response rest in
    (chunk :: yielded, final)
  end.

(** [StreamingResponse(generate_stream(), ...)]: a generator that has not
    started, closed over [full_response] and [upstream_response]. *)
Record StreamingResponse := {
  full_response_cell : pystr;
  upstream_response : upstream_stream }.

(** [fastapi.Request]: the query string as the dictionary [query_params.get]
    reads, and what [await request.json()] gives. *)
Record Request := {
  query_params : gmap pystr pystr;
  request_json : result pyval }.

(** [request.query_params.get(key)] *)
Definition query_get (request : Request) (key : pystr) : option pystr :=
  query_params request !! key.

Definition message_dict (msg : Message) : pyval :=
  PDict [(py "role", PStr (role msg)); (py "content", PStr (content msg))].

(** Truth value of something that is [None] or a [str]. *)
Definition opt_truthy (o : option pystr) : bool :=
  match o with
  | Some s => str_truthy s
  | None => false
  end.

Definition NO_RESPONSE : pystr := py "[No response from upstream]".
Definition DEFAULT_UPSTREAM : pystr := py "https://openrouter.ai/api/v1".

(** The first lines of [proxy_chat_completions]: the upstream base URL is
    the query parameter [p], or the default when [p] is absent; an empty
    one is refused. *)
Definition select_upstream (request : Request) : result pystr :=
  let upstream_url := default DEFAULT_UPSTREAM (query_get request (py "p")) in
  if negb (str_truthy upstream_url)
  then Raise (HTTPException 400 (py "Missing proxy 'p' parameter"))
  else Ok upstream_url.

Section Program.

(** What the program takes from outside the repository: the [json]
    module, pydantic's construction of a [ChatCompletionRequest] from the
    request body, the language model behind [shaggoth_chatbot], and the
    environment variable [EXAMPLE_STORAGE_KEY]. *)
Variable json_dumps : pyval -> result pystr.
Variable json_loads : pystr -> result pyval.
Variable ChatCompletionRequest_new : pyval -> result ChatCompletionRequest.
Variable shaggoth_chatbot : pystr -> list (pystr * pystr) -> result pystr.
Variable EXAMPLE_STORAGE_KEY : pystr.

(** *** shoggoth_utils.py *)

(** [deque(...)]: a new object. *)
Definition alloc (d : deque) : M nat :=
  fun w => (Ok (length (heap w)), set_heap (heap w ++ [d]) w).

(** [conversation_examples = ...] under [global conversation_examples] *)
Definition assign_utils_conversation_examples (l : nat) : M unit :=
  fun w => (Ok tt, set_utils_conversation_examples l w).

(** The [try] block of [load_redis_conversation_examples]. *)
Definition load_redis_conversation_examples_try : M unit :=
  let* raw := redis_get (EXAMPLE_STORAGE_KEY ++ py ":conversations") in
  if opt_truthy raw then
    let* examples_data := lift (json_loads (default [] raw)) in
    let* items := lift (py_iter examples_data) in
    let* examples := lift (comprehension from_dict items) in
    let* l := alloc (deque_of examples 1000) in
    run assign_utils_conversation_examples l then
    let* w := get_world in
    print (py "[Redis] Loaded "
           ++ str_of_nat (length (dq_items (utils_store w)))
           ++ py " conversation examples")
  else
    print (py "[Redis] No conversation examples found, starting fresh").

Definition load_redis_conversation_examples : M unit :=
  try_except load_redis_conversation_examples_try
    (fun e => print (py "Error loading conversation examples: " ++ exn_str e)).

Definition save_redis_conversation_examples : M unit :=
  try_except
    (let* w := get_world in
     let examples_data := PList (map to_dict (dq_items (utils_store w))) in
     let* text := lift (json_dumps examples_data) in
     run redis_set (EXAMPLE_STORAGE_KEY ++ py ":conversations") text then
     let* w := get_world in
     print (py "[Redis] Saved "
            ++ str_of_nat (length (dq_items (utils_store w)))
            ++ py " conversation examples"))
    (fun e => print (py "Error saving conversation examples: " ++ exn_str e)).

(** *** shoggoth_dspy.py *)

Definition generate_chatbot_response (current_message : pystr)
  (message_history : list Message) : M pystr :=
  try_except
    (let dspy_history := fastapi_messages_to_dspy_history message_history in
     run emit (EvChatbot current_message dspy_history) then
     lift (shaggoth_chatbot current_message dspy_history))
    (fun e =>
       run print (py "[ShaggothRL] Chatbot error: " ++ exn_str e) then
       ret (py "Error generating response: " ++ exn_str e)).

(** *** run.py *)

Definition write_jsonl_line (data : pyval) : M unit :=
  try_except
    (fun w =>
       if logfile_writable w then
         match json_dumps data with
         | Ok line => (Ok tt, set_logfile (logfile w ++ [line ++ NL]) w)
         | Raise e => (Raise e, w)
         end
       else (Raise (OSError (py "cannot open log file")), w))
    (fun e => print (py "[ERROR] Failed to write log line: " ++ exn_str e)).

(** A record [{"type": kind, "timestamp": now, "data": data}] *)
Definition write_record (kind : pystr) (data : pyval) : M unit :=
  let* w := get_world in
  write_jsonl_line
    (PDict [(py "type", PStr kind); (py "timestamp", PStr (clock w));
            (py "data", data)]).

Definition log_comprehensive_data (chat_request : ChatCompletionRequest)
  (full_response current_message : pystr) (message_history : list Message)
  (shaggoth_response : option pystr) (error : option exn) : M unit :=
  let* w := get_world in
  let processing_results :=
    (if opt_truthy shaggoth_response
     then [(py "shaggoth_response", PStr (default [] shaggoth_response))]
     else [])
    ++ match error with
       | Some e => [(py "error", PStr (exn_str e))]
       | None => []
       end
    ++ [(py "stored_examples_count",
         PInt (Z.of_nat (length (dq_items (run_store w)))))] in
  write_jsonl_line
    (PDict
       [(py "type", PStr (py "comprehensive_log"));
        (py "timestamp", PStr (clock w));
        (py "request_data",
         PDict [(py "model", PStr (model chat_request));
                (py "messages",
                 PList (map message_dict (messages chat_request)));
                (py "stream", PBool (stream chat_request));
                (py "temperature", PFloat (temperature chat_request));
                (py "max_tokens", PInt (max_tokens chat_request))]);
        (py "extracted_data",
         PDict [(py "current_message", PStr current_message);
                (py "message_history",
                 PList (map message_dict message_history))]);
        (py "upstream_response", PStr full_response);
        (py "processing_results", PDict processing_results)]).

(** [conversation_examples.append(x)] in [run.py]: on the object [run.py]'s
    own name is bound to. *)
Definition run_conversation_examples_append (x : ConversationExample)
  : M unit :=
  fun w =>
    let l := run_conversation_examples w in
    (Ok tt, set_heap (<[l := deque_append x (deref w l)]> (heap w)) w).

(** The [try] block: build the request and send it. [up] is what
    [await client.send(proxy_request, stream=True)] does: raise, or give
    the response whose body is still to be streamed. *)
Definition try_block (upstream_url : pystr) (raw_body : pyval)
  (up : result upstream_stream) : M upstream_stream :=
  run emit (EvUpstreamSend (upstream_url ++ py "/chat/completions") raw_body)
  then lift up.

(** The [except Exception as e] block; it ends in [raise]. *)
Definition except_block (chat_request : ChatCompletionRequest)
  (full_response current_message : pystr) (message_history : list Message)
  (e : exn) : M upstream_stream :=
  run write_record (py "error") (PStr (exn_str e)) then
  run log_comprehensive_data chat_request
        (if str_truthy full_response then full_response
         else py "[Error: No response received]")
        current_message message_history None (Some e) then
  raise (HTTPException 500 (exn_str e)).

(** The [finally] block. It gives back [full_response], which it may have
    reassigned. *)
Definition finally_block (chat_request : ChatCompletionRequest)
  (current_message : pystr) (message_history : list Message)
  (full_response : pystr) (processing_error : option exn) : M pystr :=
  (* Ensure we have some response content *)
  let full_response :=
    if negb (str_truthy (py_strip full_response)) then NO_RESPONSE
    else full_response in
  (* Log basic response *)
  run write_record (py "response") (PStr full_response) then
  (* Store conversation example with full context *)
  let* processing_error :=
    try_except
      (let conversation_example :=
         {| ce_messages := PList (map message_dict (messages chat_request));
            ce_response := PStr full_response |} in
       run run_conversation_examples_append conversation_example then
       ret processing_error)
      (fun e =>
         run print (py "[ERROR] Failed to store conversation example: "
                    ++ exn_str e) then
         ret (Some e)) in
  (* Generate ShaggothRL response with conversation history *)
  let* '(shaggoth_response, processing_error) :=
    try_except
      (let* r := generate_chatbot_response current_message message_history in
       run print (py "[ShaggothRL] Generated: " ++ py_prefix 100 r
                  ++ py "...") then
       ret (Some r, processing_error))
      (fun e =>
         run print (py "[ShaggothRL] Error: " ++ exn_str e) then
         ret (None, Some e)) in
  (* Persist conversation examples to Redis *)
  let* w := get_world in
  let* processing_error :=
    if run_redis w then
      try_except
        (run save_redis_conversation_examples then ret processing_error)
        (fun e =>
           run print (py "[ERROR] Failed to save conversation examples: "
                      ++ exn_str e) then
           ret (Some e))
    else ret processing_error in
  (* Log comprehensive data with all inputs, outputs, and results *)
  run log_comprehensive_data chat_request full_response current_message
        message_history shaggoth_response processing_error then
  ret full_response.

(** The handler once the upstream is chosen, up to the point where it
    returns the response object or raises. The generator inside the
    response has not run by then. *)
Definition forward (upstream_url : pystr) (request : Request)
  (up : result upstream_stream) : M StreamingResponse :=
  run print (py "upstream_url  " ++ upstream_url) then
  let* raw_body := lift (request_json request) in
  let* chat_request := lift (ChatCompletionRequest_new raw_body) in
  (* Extract current message and history early for logging *)
  let '(current_message, message_history) :=
    extract_current_message_and_history (messages chat_request) in
  (* Log request to JSONL *)
  run write_record (py "request") raw_body then
  let full_response : pystr := [] in
  fun w =>
    let '(outcome, processing_error, w1) :=
      match try_block upstream_url raw_body up w with
      | (Ok r, w1) => (Ok r, None, w1)
      | (Raise e, w1) =>
        let '(r, w2) :=
          except_block chat_request full_response current_message
            message_history e w1 in
        (r, Some e, w2)
      end in
    match finally_block chat_request current_message message_history
            full_response processing_error w1 with
    | (Ok full_response, w2) =>
      (result_bind outcome (fun r =>
         Ok {| full_response_cell := full_response;
               upstream_response := r |}), w2)
    | (Raise e, w2) => (Raise e, w2)
    end.

(** [proxy_chat_completions] *)
Definition proxy_chat_completions (request : Request)
  (up : result upstream_stream) : M StreamingResponse :=
  let* upstream_url := lift (select_upstream request) in
  forward upstream_url request up.

Fixpoint emit_all (es : list event) : M unit :=
  match es with
  | [] => ret tt
  | e :: r => run emit e then emit_all r
  end.

(** The framework sending the response: it iterates the generator, which
    only now runs. *)
Definition send_body (resp : StreamingResponse) : M (list bytes * pystr) :=
  let '(yielded, final) :=
    generate_stream (full_response_cell resp)
      (aiter_bytes (upstream_response resp)) in
  run emit_all (map EvYield yielded) then
  match aiter_fault (upstream_response resp) with
  | Some e => raise e
  | None => ret (yielded, final)
  end.

(** One request from arrival to the end of the response body: the bytes
    the caller received and the final value of [full_response]. *)
Definition serve (request : Request) (up : result upstream_stream)
  : M (list bytes * pystr) :=
  let* resp := proxy_chat_completions request up in
  send_body resp.

(** [on_startup] *)
Definition on_startup : M unit :=
  try_except
    (run (fun w => (Ok tt, set_run_redis true w)) then
     run redis_ping then
     run load_redis_conversation_examples then
     let* w := get_world in
     print (py "[Startup] Loaded "
            ++ str_of_nat (length (dq_items (run_store w)))
            ++ py " conversation examples from Redis."))
    (fun e => print (py "[Startup] Redis unavailable: " ++ exn_str e)).

End Program.

(** ** Binary64 floats as CPython prints and reads them

    [float.__repr__] gives the shortest decimal text that reads back as the
    same float: the digits of [_Py_dg_dtoa] in mode 0, laid out by
    [format_float_short] for the format code ['r']. [float(text)] gives the
    float nearest to the decimal value, ties going to the even mantissa. *)

Module Float64.

Local Open Scope Z_scope.

Definition negative (f : float64) : bool := N.testbit f 63.

Definition biased_exponent (f : float64) : Z :=
  Z.of_N (N.land (N.shiftr f 52) 0x7FF).

Definition fraction (f : float64) : Z := Z.of_N (N.land f 0xFFFFFFFFFFFFF).

Definition is_nan (f : float64) : bool :=
  (biased_exponent f =? 2047) && negb (fraction f =? 0).

Definition is_inf (f : float64) : bool :=
  (biased_exponent f =? 2047) && (fraction f =? 0).

(** The absolute value of a finite float is [mantissa * 2^exponent]. *)
Definition mantissa (f : float64) : Z :=
  if biased_exponent f =? 0 then fraction f else 2 ^ 52 + fraction f.

Definition exponent (f : float64) : Z :=
  if biased_exponent f =? 0 then -1074 else biased_exponent f - 1075.

Definition NAN : float64 := 0x7FF8000000000000%N.
Definition INFINITY : float64 := 0x7FF0000000000000%N.
Definition SIGN : N := 0x8000000000000000%N.

(** [num / den < 10^k] *)
Definition below_power_of_ten (num den k : Z) : bool :=
  if 0 <=? k then num <? den * 10 ^ k else num * 10 ^ (- k) <? den.

(** The [k] with [10^k <= num / den < 10^(k+1)], looked for from a first
    guess that is off by one at most. *)
Fixpoint floor_log10 (fuel : nat) (num den k : Z) : Z :=
  match fuel with
  | O => k
  | S fuel =>
    if below_power_of_ten num den k then floor_log10 fuel num den (k - 1)
    else if below_power_of_ten num den (k + 1) then k
    else floor_log10 fuel num den (k + 1)
  end.

(** [roundoff]: the trailing nines go and the digit before them goes up by
    one; [None] when every digit was a nine. The digits are in reverse. *)
Fixpoint roundoff (rev_digits : list Z) : option (list Z) :=
  match rev_digits with
  | [] => None
  | d :: r => if d =? 9 then roundoff r else Some (d + 1 :: r)
  end.

Definition is_lt (c : comparison) : bool :=
  match c with Lt => true | _ => false end.
Definition is_eq (c : comparison) : bool :=
  match c with Eq => true | _ => false end.
Definition is_gt (c : comparison) : bool :=
  match c with Gt => true | _ => false end.

(** The digit loop of [_Py_dg_dtoa] in mode 0. What is left of the value
    is [b / s] (times the weight of the next digit), [mlo / s] and
    [mhi / s] are half the distances to the floats below and above, and
    [even] says that the mantissa is even, so that a text half way between
    two floats reads back as this one. *)
Fixpoint generate (fuel : nat) (even : bool) (b s mlo mhi : Z)
  (rev_digits : list Z) : option (list Z) :=
  match fuel with
  | O => Some rev_digits
  | S fuel =>
    let dig := b / s in
    let b := b mod s in
    let j := b ?= mlo in
    let j1 := b + mhi ?= s in
    let round_9_up := roundoff (9 :: rev_digits) in
    if is_eq j1 && even then
      if dig =? 9 then round_9_up
      else Some ((if is_gt j then dig + 1 else dig) :: rev_digits)
    else if is_lt j || (is_eq j && even) then
      if b =? 0 then Some (dig :: rev_digits)
      else if is_gt j1 && ((s <? 2 * b) || ((2 * b =? s) && Z.odd dig)) then
        if dig =? 9 then round_9_up else Some (dig + 1 :: rev_digits)
      else Some (dig :: rev_digits)
    else if is_gt j1 then
      if dig =? 9 then round_9_up else Some (dig + 1 :: rev_digits)
    else generate fuel even (10 * b) s (10 * mlo) (10 * mhi) (dig :: rev_digits)
  end.

(** The digits and [decpt] of the absolute value of a finite float, which
    is [0.d1d2... * 10^decpt]. The float just below a power of two (of a
    normal float that is not the smallest) is half as far away as the one
    above. At most 17 digits come out; the loop would stop by itself after
    the 767 digits of the exact value of the smallest float. *)
Definition dtoa (f : float64) : list Z * Z :=
  let m := mantissa f in
  let e := exponent f in
  if m =? 0 then ([0], 1)
  else
    let unit := if 2 <=? e then 2 ^ (e - 2) else 1 in
    let den := if 2 <=? e then 1 else 2 ^ (2 - e) in
    let b := 4 * m * unit in
    let mhi := 2 * unit in
    let mlo :=
      if (fraction f =? 0) && (2 <=? biased_exponent f) then unit
      else 2 * unit in
    let k :=
      floor_log10 8 b den ((Z.log2 b - Z.log2 den) * 30103 / 100000) in
    let p := 10 ^ Z.abs k in
    let generated :=
      if 0 <=? k then generate 800 (Z.even m) b (den * p) mlo mhi []
      else generate 800 (Z.even m) (b * p) den (mlo * p) (mhi * p) [] in
    match generated with
    | Some rev_digits => (rev rev_digits, k + 1)
    | None => ([1], k + 2)
    end.

Definition digit_char (d : Z) : N := (48 + Z.to_N d)%N.

Definition zeros (n : Z) : pystr := repeat 48%N (Z.to_nat n).

(** [format_float_short] for ['r'] with [Py_DTSF_ADD_DOT_0]: an exponent
    when [decpt <= -4] or [decpt > 16], written with a sign and two digits
    at least. *)
Definition format_float_short (digits : list Z) (decpt : Z) : pystr :=
  let ds := map digit_char digits in
  let len := Z.of_nat (length ds) in
  if (decpt <=? -4) || (16 <? decpt) then
    let exp := decpt - 1 in
    match ds with
    | d1 :: (_ :: _) as r => d1 :: py "." ++ r
    | _ => ds
    end
    ++ py "e" ++ (if exp <? 0 then py "-" else py "+")
    ++ (if Z.abs exp <? 10 then py "0" else [])
    ++ str_of_nat (Z.to_nat (Z.abs exp))
  else if decpt <=? 0 then py "0." ++ zeros (- decpt) ++ ds
  else if decpt <? len then
    take (Z.to_nat decpt) ds ++ py "." ++ drop (Z.to_nat decpt) ds
  else ds ++ zeros (decpt - len) ++ py ".0".

(** [float.__repr__] *)
Definition repr (f : float64) : pystr :=
  if is_nan f then py "nan"
  else
    (if negative f then py "-" else [])
    ++ (if is_inf f then py "inf"
        else let '(digits, decpt) := dtoa f in format_float_short digits decpt).

(** The float nearest to [num / den], for [num] and [den] above zero: ties
    go to the even mantissa, and what is beyond the largest float becomes
    infinity. *)
Definition nearest (num den : Z) : float64 :=
  let l0 := Z.log2 num - Z.log2 den in
  let at_least :=
    if 0 <=? l0 then den * 2 ^ l0 <=? num else den <=? num * 2 ^ (- l0) in
  let l := if at_least then l0 else l0 - 1 in
  let e := Z.max (l - 52) (-1074) in
  let n := if 0 <=? e then num else num * 2 ^ (- e) in
  let d := if 0 <=? e then den * 2 ^ e else den in
  let q := n / d in
  let r := n mod d in
  let m := if (d <? 2 * r) || ((2 * r =? d) && Z.odd q) then q + 1 else q in
  let e := if m =? 2 ^ 53 then e + 1 else e in
  let m := if m =? 2 ^ 53 then 2 ^ 52 else m in
  if 971 <? e then INFINITY
  else if m <? 2 ^ 52 then Z.to_N m
  else Z.to_N ((e + 1075) * 2 ^ 52 + (m - 2 ^ 52)).

(** [float(n)] for an [int] *)
Definition of_int (n : Z) : float64 :=
  if n =? 0 then 0%N
  else if n <? 0 then N.lor SIGN (nearest (- n) 1)
  else nearest n 1.

(** [float(text)] for the text of a JSON number: [digits * 10^exp10], with
    its sign. *)
Definition of_decimal (negative : bool) (digits : N) (exp10 : Z) : float64 :=
  let magnitude :=
    if (digits =? 0)%N then 0%N
    else if 0 <=? exp10 then nearest (Z.of_N digits * 10 ^ exp10) 1
    else nearest (Z.of_N digits) (10 ^ (- exp10)) in
  if negative then N.lor SIGN magnitude else magnitude.

End Float64.

(** ** An instance of the [json] module

    [json.dumps] with its defaults ([ensure_ascii], [allow_nan], separators
    [", "] and [": "]) and [json.loads] with its defaults. *)

Module Json.

Local Open Scope N_scope.

Definition hex_char (d : N) : N := if d <? 10 then 48 + d else 87 + d.

(** ['{0:04x}'.format(n)] *)
Definition hex4 (n : N) : pystr :=
  [hex_char (n / 4096 mod 16); hex_char (n / 256 mod 16);
   hex_char (n / 16 mod 16); hex_char (n mod 16)].

Definition escape_char (c : N) : pystr :=
  if c =? 34 then py "\" ++ [34]
  else if c =? 92 then py "\\"
  else if c =? 10 then py "\n"
  else if c =? 13 then py "\r"
  else if c =? 9 then py "\t"
  else if c =? 8 then py "\b"
  else if c =? 12 then py "\f"
  else if (0x20 <=? c) && (c <=? 0x7E) then [c]
  else if c <? 0x10000 then py "\u" ++ hex4 c
  else
    let n := c - 0x10000 in
    py "\u" ++ hex4 (N.lor 0xD800 (N.land (N.shiftr n 10) 0x3FF))
    ++ py "\u" ++ hex4 (N.lor 0xDC00 (N.land n 0x3FF)).

Definition encode_string (s : pystr) : pystr :=
  [34] ++ flat_map escape_char s ++ [34].

Definition encode_int (z : Z) : pystr :=
  py (NilEmpty.string_of_int (Z.to_int z)).

(** [floatstr] of the encoder *)
Definition floatstr (f : float64) : pystr :=
  if Float64.is_nan f then py "NaN"
  else if Float64.is_inf f then
    if Float64.negative f then py "-Infinity" else py "Infinity"
  else Float64.repr f.

Fixpoint join (sep : pystr) (parts : list pystr) : pystr :=
  match parts with
  | [] => []
  | [p] => p
  | p :: r => p ++ sep ++ join sep r
  end.

Fixpoint dumps (v : pyval) : result pystr :=
  match v with
  | PNone => Ok (py "null")
  | PBool true => Ok (py "true")
  | PBool false => Ok (py "false")
  | PInt z => Ok (encode_int z)
  | PFloat f => Ok (floatstr f)
  | PStr s => Ok (encode_string s)
  | PList xs =>
    result_bind
      ((fix elements (xs : list pyval) : result (list pystr) :=
          match xs with
          | [] => Ok []
          | x :: r =>
            result_bind (dumps x) (fun t =>
            result_bind (elements r) (fun ts => Ok (t :: ts)))
          end) xs)
      (fun ts => Ok (py "[" ++ join (py ", ") ts ++ py "]"))
  | PDict items =>
    result_bind
      ((fix members (items : list (pystr * pyval)) : result (list pystr) :=
          match items with
          | [] => Ok []
          | (k, x) :: r =>
            result_bind (dumps x) (fun t =>
            result_bind (members r) (fun ts =>
            Ok ((encode_string k ++ py ": " ++ t) :: ts)))
          end) items)
      (fun ts => Ok (py "{" ++ join (py ", ") ts ++ py "}"))
  end.

Definition is_ws (c : N) : bool :=
  (c =? 32) || (c =? 9) || (c =? 10) || (c =? 13).

Fixpoint skip_ws (s : pystr) : pystr :=
  match s with
  | c :: r => if is_ws c then skip_ws r else s
  | [] => []
  end.

Definition hex_digit (c : N) : option N :=
  if (48 <=? c) && (c <=? 57) then Some (c - 48)
  else if (97 <=? c) && (c <=? 102) then Some (c - 87)
  else if (65 <=? c) && (c <=? 70) then Some (c - 55)
  else None.

Definition scan_hex4 (a b c d : N) : option N :=
  match hex_digit a, hex_digit b, hex_digit c, hex_digit d with
  | Some a, Some b, Some c, Some d => Some (((a * 16 + b) * 16 + c) * 16 + d)
  | _, _, _, _ => None
  end.

Definition bad {A} (msg : string) : result A := Raise (JSONDecodeError (py msg)).

Definition push (c : N) (r : result (pystr * pystr)) : result (pystr * pystr) :=
  result_bind r (fun '(str, rest) => Ok (c :: str, rest)).

(** The body of a string, from just after the opening quote: its value
    and the text after the closing quote. *)
Fixpoint scanstring (s : pystr) : result (pystr * pystr) :=
  match s with
  | [] => bad "Unterminated string"
  | c :: r =>
    if c =? 34 then Ok ([], r)
    else if c =? 92 then
      match r with
      | [] => bad "Unterminated string"
      | e :: r1 =>
        if e =? 117 then
          match r1 with
          | h1 :: h2 :: h3 :: h4 :: r2 =>
            match scan_hex4 h1 h2 h3 h4 with
            | None => bad "Invalid \uXXXX escape"
            | Some uni =>
              if (0xD800 <=? uni) && (uni <=? 0xDBFF) then
                match r2 with
                | b :: u :: g1 :: g2 :: g3 :: g4 :: r3 =>
                  if (b =? 92) && (u =? 117) then
                    match scan_hex4 g1 g2 g3 g4 with
                    | None => bad "Invalid \uXXXX escape"
                    | Some uni2 =>
                      if (0xDC00 <=? uni2) && (uni2 <=? 0xDFFF)
                      then push (0x10000 + N.lor (N.shiftl (uni - 0xD800) 10)
                                                 (uni2 - 0xDC00))
                                (scanstring r3)
                      else push uni (scanstring r2)
                    end
                  else push uni (scanstring r2)
                | _ => push uni (scanstring r2)
                end
              else push uni (scanstring r2)
            end
          | _ => bad "Invalid \uXXXX escape"
          end
        else if e =? 34 then push 34 (scanstring r1)
        else if e =? 92 then push 92 (scanstring r1)
        else if e =? 47 then push 47 (scanstring r1)
        else if e =? 98 then push 8 (scanstring r1)
        else if e =? 102 then push 12 (scanstring r1)
        else if e =? 110 then push 10 (scanstring r1)
        else if e =? 114 then push 13 (scanstring r1)
        else if e =? 116 then push 9 (scanstring r1)
        else bad "Invalid \escape"
      end
    else if c <? 0x20 then bad "Invalid control character"
    else push c (scanstring r)
  end.

Definition is_digit (c : N) : bool := (48 <=? c) && (c <=? 57).

(** The digits at the front of [s]: how many they are, the number they
    write after the digits of [acc], and the rest of the text. *)
Fixpoint scan_digits (count : nat) (acc : N) (s : pystr) : nat * N * pystr :=
  match s with
  | c :: r =>
    if is_digit c then scan_digits (S count) (acc * 10 + (c - 48)) r
    else (count, acc, s)
  | [] => (count, acc, [])
  end.

(** A fraction, a point and one digit at least: its digits, appended to
    those of [acc]. *)
Definition scan_fraction (acc : N) (s : pystr) : option (nat * N * pystr) :=
  match s with
  | dot :: d :: r =>
    if (dot =? 46) && is_digit d then Some (scan_digits 0 acc (d :: r))
    else None
  | _ => None
  end.

(** An exponent: [e] or [E], a sign or none, and one digit at least. *)
Definition scan_exponent (s : pystr) : option (Z * pystr) :=
  match s with
  | e :: r =>
    if (e =? 101) || (e =? 69) then
      let '(negative, r1) :=
        match r with
        | sign :: r' =>
          if sign =? 45 then (true, r')
          else if sign =? 43 then (false, r')
          else (false, r)
        | [] => (false, [])
        end in
      match r1 with
      | d :: _ =>
        if is_digit d then
          let '(_, n, rest) := scan_digits 0 0 r1 in
          Some (if negative then Z.opp (Z.of_N n) else Z.of_N n, rest)
        else None
      | [] => None
      end
    else None
  | [] => None
  end.

(** [NUMBER_RE]: an optional minus sign and either a zero or digits that
    do not start with a zero, then a fraction if there is one, then an
    exponent if there is one. A number with a fraction or an exponent is a
    [float], any other an [int]. *)
Definition scan_number (s : pystr) : result (pyval * pystr) :=
  let '(negative, s1) :=
    match s with
    | c :: r => if c =? 45 then (true, r) else (false, s)
    | [] => (false, [])
    end in
  match s1 with
  | c :: r =>
    if is_digit c then
      let '(_, n, rest) := if c =? 48 then (O, 0, r) else scan_digits 0 (c - 48) r in
      let '(places, digits, rest1) :=
        match scan_fraction n rest with
        | Some found => found
        | None => (O, n, rest)
        end in
      let '(exp, rest2) :=
        match scan_exponent rest1 with
        | Some (e, rest2) => (Some e, rest2)
        | None => (None, rest1)
        end in
      match scan_fraction n rest, exp with
      | None, None =>
        Ok (PInt (if negative then Z.opp (Z.of_N n) else Z.of_N n), rest)
      | _, _ =>
        Ok (PFloat (Float64.of_decimal negative digits
                      (default 0%Z exp - Z.of_nat places)), rest2)
      end
    else bad "Expecting value"
  | [] => bad "Expecting value"
  end.

(** [d[k] = v] on the items of a dict *)
Fixpoint dict_set (items : list (pystr * pyval)) (k : pystr) (v : pyval)
  : list (pystr * pyval) :=
  match items with
  | [] => [(k, v)]
  | (k', v') :: r =>
    if bool_decide (k' = k) then (k, v) :: r else (k', v') :: dict_set r k v
  end.

(** [dict(pairs)] *)
Definition dict_of_pairs (pairs : list (pystr * pyval)) : list (pystr * pyval) :=
  fold_left (fun d kv => dict_set d (fst kv) (snd kv)) pairs [].

Fixpoint strip_prefix (p s : pystr) : option pystr :=
  match p, s with
  | [], _ => Some s
  | a :: p', b :: s' => if a =? b then strip_prefix p' s' else None
  | _ :: _, [] => None
  end.

(** The names [scan_once] looks for before it looks for a number. *)
Definition CONSTANTS : list (pystr * pyval) :=
  [(py "null", PNone); (py "true", PBool true); (py "false", PBool false);
   (py "NaN", PFloat Float64.NAN); (py "Infinity", PFloat Float64.INFINITY);
   (py "-Infinity", PFloat (N.lor Float64.SIGN Float64.INFINITY))].

Fixpoint scan_constant (table : list (pystr * pyval)) (s : pystr)
  : option (pyval * pystr) :=
  match table with
  | [] => None
  | (name, v) :: table =>
    match strip_prefix name s with
    | Some rest => Some (v, rest)
    | None => scan_constant table s
    end
  end.

(** [scan_once], and the loops of [JSONArray] and [JSONObject] after the
    opening bracket. [fuel] bounds the depth of the calls. *)
Fixpoint scan_once (fuel : nat) (s : pystr) : result (pyval * pystr) :=
  match fuel with
  | O => Raise (ValueError (py "maximum recursion depth exceeded"))
  | S fuel =>
    match s with
    | [] => bad "Expecting value"
    | c :: r =>
      if c =? 34 then
        result_bind (scanstring r) (fun '(str, rest) => Ok (PStr str, rest))
      else if c =? 123 then
        match skip_ws r with
        | c' :: r' =>
          if c' =? 125 then Ok (PDict [], r')
          else result_bind (scan_members fuel (c' :: r')) (fun '(pairs, rest) =>
               Ok (PDict (dict_of_pairs pairs), rest))
        | [] => bad "Expecting property name enclosed in double quotes"
        end
      else if c =? 91 then
        match skip_ws r with
        | c' :: r' =>
          if c' =? 93 then Ok (PList [], r')
          else result_bind (scan_elements fuel (c' :: r')) (fun '(xs, rest) =>
               Ok (PList xs, rest))
        | [] => bad "Expecting value"
        end
      else
        match scan_constant CONSTANTS s with
        | Some found => Ok found
        | None => scan_number s
        end
    end
  end
with scan_elements (fuel : nat) (s : pystr) : result (list pyval * pystr) :=
  match fuel with
  | O => Raise (ValueError (py "maximum recursion depth exceeded"))
  | S fuel =>
    result_bind (scan_once fuel s) (fun '(v, rest) =>
    match skip_ws rest with
    | c :: r =>
      if c =? 93 then Ok ([v], r)
      else if c =? 44 then
        result_bind (scan_elements fuel (skip_ws r)) (fun '(vs, rest') =>
        Ok (v :: vs, rest'))
      else bad "Expecting ',' delimiter"
    | [] => bad "Expecting ',' delimiter"
    end)
  end
with scan_members (fuel : nat) (s : pystr)
  : result (list (pystr * pyval) * pystr) :=
  match fuel with
  | O => Raise (ValueError (py "maximum recursion depth exceeded"))
  | S fuel =>
    match s with
    | c :: r =>
      if c =? 34 then
        result_bind (scanstring r) (fun '(key, rest) =>
        match skip_ws rest with
        | c1 :: r1 =>
          if c1 =? 58 then
            result_bind (scan_once fuel (skip_ws r1)) (fun '(v, rest1) =>
            match skip_ws rest1 with
            | c2 :: r2 =>
              if c2 =? 125 then Ok ([(key, v)], r2)
              else if c2 =? 44 then
                result_bind (scan_members fuel (skip_ws r2))
                  (fun '(kvs, rest2) => Ok ((key, v) :: kvs, rest2))
              else bad "Expecting ',' delimiter"
            | [] => bad "Expecting ',' delimiter"
            end)
          else bad "Expecting ':' delimiter"
        | [] => bad "Expecting ':' delimiter"
        end)
      else bad "Expecting property name enclosed in double quotes"
    | [] => bad "Expecting property name enclosed in double quotes"
    end
  end.

(** [json.loads] *)
Definition loads (s : pystr) : result pyval :=
  result_bind (scan_once (2 * length s + 2) (skip_ws s)) (fun '(v, rest) =>
  match skip_ws rest with
  | [] => Ok v
  | _ => bad "Extra data"
  end).

End Json.

(** ** An instance of the construction of a [ChatCompletionRequest]

    The declared fields, with their defaults, read strictly: each value has
    to have the declared type already, but for an [int] given where a
    [float] is declared, and keys that are not fields are ignored. A body
    this instance accepts is one pydantic accepts without converting a
    value. *)

Module Strict.

Definition get_str (v : pyval) : result pystr :=
  match v with
  | PStr s => Ok s
  | _ => Raise (ValidationError (py "str type expected"))
  end.

Definition Message_new (v : pyval) : result Message :=
  match v with
  | PDict items =>
    match dict_get items (py "role"), dict_get items (py "content") with
    | Some r, Some c =>
      result_bind (get_str r) (fun r =>
      result_bind (get_str c) (fun c => Ok {| role := r; content := c |}))
    | _, _ => Raise (ValidationError (py "field required"))
    end
  | _ => Raise (ValidationError (py "value is not a valid dict"))
  end.

(** [temperature: float = 0.7] *)
Definition DEFAULT_TEMPERATURE : float64 := 0x3FE6666666666666%N.

Definition ChatCompletionRequest_new (raw_body : pyval)
  : result ChatCompletionRequest :=
  match raw_body with
  | PDict items =>
    match dict_get items (py "model"), dict_get items (py "messages") with
    | Some m, Some (PList ms) =>
      result_bind (get_str m) (fun m =>
      result_bind (comprehension Message_new ms) (fun ms =>
      result_bind
        match dict_get items (py "stream") with
        | None => Ok false
        | Some (PBool b) => Ok b
        | Some _ => Raise (ValidationError (py "value could not be parsed to a boolean"))
        end (fun st =>
      result_bind
        match dict_get items (py "temperature") with
        | None => Ok DEFAULT_TEMPERATURE
        | Some (PFloat f) => Ok f
        | Some (PInt n) =>
          if Float64.is_inf (Float64.of_int n)
          then Raise (ValidationError (py "value is not a valid float"))
          else Ok (Float64.of_int n)
        | Some _ => Raise (ValidationError (py "value is not a valid float"))
        end (fun t =>
      result_bind
        match dict_get items (py "max_tokens") with
        | None => Ok 4000%Z
        | Some (PInt z) => Ok z
        | Some _ => Raise (ValidationError (py "value is not a valid integer"))
        end (fun mt =>
      Ok {| model := m; messages := ms; stream := st; temperature := t;
            max_tokens := mt |})))))
    | Some _, Some _ => Raise (ValidationError (py "value is not a valid list"))
    | _, _ => Raise (ValidationError (py "field required"))
    end
  | _ => Raise (TypeError (py "argument after ** must be a mapping"))
  end.

End Strict.

(** ** Literals used in the statements below *)

(** A literal written with ['] where the text has a double quote. *)
Definition requote (s : string) : string :=
  string_of_list_ascii
    (map (fun a => if Ascii.eqb a "'" then ascii_of_nat 34 else a)
         (list_ascii_of_string s)).

Definition LF : string := String (ascii_of_nat 10) EmptyString.

(** The two chunks of the relay example: one content event, then the
    terminal marker. *)
Definition hi_event : string :=
  (requote "data: {'choices':[{'delta':{'content':'Hi'}}]}" ++ LF)%string.
Definition done_event : string := ("data: [DONE]" ++ LF)%string.
Definition relay_chunks : list bytes := [pyb hi_event; pyb done_event].

(** Sample messages. *)
Definition user_hello : Message := {| role := py "user"; content := py "hello" |}.
Definition assistant_hi : Message :=
  {| role := py "assistant"; content := py "hi there" |}.
Definition system_prompt : Message :=
  {| role := py "system"; content := py "be brief" |}.

(** ** Vocabulary of the statements *)

(** Both module globals name an object that exists. *)
Definition world_ok (w : world) : Prop :=
  utils_conversation_examples w < length (heap w)
  /\ run_conversation_examples w < length (heap w).

(** Events that stay inside the process or go to the collaborator: neither
    an upstream call nor a chunk sent to the caller. *)
Definition is_bookkeeping (ev : event) : Prop :=
  match ev with
  | EvPrint _ | EvChatbot _ _ => True
  | EvUpstreamSend _ _ | EvYield _ => False
  end.

Definition is_upstream_send (ev : event) : Prop :=
  match ev with
  | EvUpstreamSend _ _ => True
  | _ => False
  end.

Definition is_yield (ev : event) : Prop :=
  match ev with
  | EvYield _ => True
  | _ => False
  end.

(** From [w] to [w']: the module globals are bound as before, the heap has
    gone through [f], and the trace has grown by events that satisfy [P]. *)
Definition evolves (f : list deque -> list deque) (P : event -> Prop)
  (w w' : world) : Prop :=
  heap w' = f (heap w)
  /\ utils_conversation_examples w' = utils_conversation_examples w
  /\ run_conversation_examples w' = run_conversation_examples w
  /\ run_redis w' = run_redis w
  /\ exists added, trace w' = trace w ++ added /\ Forall P added.

(** The heap after [append(x)] on the deque at location [l]. *)
Definition heap_append (l : nat) (x : ConversationExample)
  (h : list deque) : list deque :=
  <[l := deque_append x (default (deque_empty CAPACITY) (h !! l))]> h.

(** The example the handler stores for a request. *)
Definition stored_example (chat_request : ChatCompletionRequest)
  (response : pystr) : ConversationExample :=
  {| ce_messages := PList (map message_dict (messages chat_request));
     ce_response := PStr response |}.

(** Instances used to run the program on examples. *)
Definition canned_chatbot (current_message : pystr)
  (history : list (pystr * pystr)) : result pystr :=
  Ok (py "Noted: " ++ current_message).

Definition STORAGE_KEY : pystr := py "examples:shaggothrl".

(** ** Sample requests, streams and worlds *)

Definition sample_body : pyval :=
  PDict [(py "model", PStr (py "m"));
         (py "messages", PList [message_dict user_hello])].

Definition sample_chat_request : ChatCompletionRequest :=
  {| model := py "m"; messages := [user_hello]; stream := false;
     temperature := Strict.DEFAULT_TEMPERATURE; max_tokens := 4000 |}.

(** No [p] in the query string. *)
Definition sample_request : Request :=
  {| query_params := ∅; request_json := Ok sample_body |}.

(** [?p=] *)
Definition blank_p_request : Request :=
  {| query_params := {[ py "p" := [] ]}; request_json := Ok sample_body |}.

(** A body whose [model] is a number and that has no [messages]. *)
Definition malformed_request : Request :=
  {| query_params := ∅;
     request_json := Ok (PDict [(py "model", PInt 5)]) |}.

Definition hi_stream : upstream_stream :=
  {| aiter_bytes := [pyb "Hi"]; aiter_fault := None |}.

Definition empty_stream : upstream_stream :=
  {| aiter_bytes := []; aiter_fault := None |}.

Definition refused : exn := ConnectionError (py "All connection attempts failed").

Definition empty_redis : redis_service :=
  {| redis_data := ∅; redis_reachable := true |}.

Definition world0 : world :=
  fresh_process empty_redis [] true (py "2025-01-01T00:00:00").

Definition sample_example : ConversationExample :=
  stored_example sample_chat_request NO_RESPONSE.

(** A process with one example in its store and a Redis client. *)
Definition world1 : world :=
  {| heap := [{| dq_items := [sample_example]; dq_maxlen := CAPACITY |}];
     utils_conversation_examples := 0;
     run_conversation_examples := 0;
     run_redis := true; redis_server := empty_redis;
     logfile := []; logfile_writable := true;
     clock := py "2025-01-01T00:00:00"; trace := [] |}.

(** What [json.dumps] makes of the store of [world1]. *)
Definition sample_snapshot : pystr :=
  py (requote "[{'messages': [{'role': 'user', 'content': 'hello'}], 'response': '[No response from upstream]'}]").

(** A snapshot whose only element has no [response]. *)
Definition broken_snapshot : pystr := py (requote "[{'messages': []}]").

Definition world_with_broken_snapshot : world :=
  set_redis_server
    (redis_store empty_redis (STORAGE_KEY ++ py ":conversations") broken_snapshot)
    world1.

(** An example whose texts need every kind of escape: a quote, a
    backslash, control characters, DEL, U+00E9, U+2028 and U+1F600. *)
Definition awkward_example : ConversationExample :=
  {| ce_messages :=
       PList [message_dict
                {| role := py "user";
                   content := py "say " ++ [34; 92; 10; 1; 127; 0xE9; 0x2028;
                                             0x1F600]%N |}];
     ce_response := PStr ([9; 0x1F600; 34]%N ++ py "ok") |}.

(** A process with two examples in its store; Redis is out of reach when
    [up] is [false]. *)
Definition world2 (up : bool) : world :=
  {| heap := [{| dq_items := [sample_example; awkward_example];
                 dq_maxlen := CAPACITY |}];
     utils_conversation_examples := 0;
     run_conversation_examples := 0;
     run_redis := true;
     redis_server := {| redis_data := ∅; redis_reachable := up |};
     logfile := []; logfile_writable := true;
     clock := py "2025-01-01T00:00:00"; trace := [] |}.

Definition numbered_examples (n : nat) : list ConversationExample :=
  map (fun i => {| ce_messages := PList []; ce_response := PInt (Z.of_nat i) |})
      (seq 0 n).

(** ** More of [shoggoth_utils.py] *)

(** [len(obj)] *)
Definition py_len (obj : pyval) : result nat :=
  match obj with
  | PStr s => Ok (length s)
  | PList xs => Ok (length xs)
  | PDict items => Ok (length items)
  | _ => Raise (TypeError (py "object has no len()"))
  end.

(** The truth value of an object. *)
Definition py_truthy (obj : pyval) : bool :=
  match obj with
  | PNone => false
  | PBool b => b
  | PInt z => negb (z =? 0)%Z
  | PFloat f => negb ((f =? 0)%N || (f =? 0x8000000000000000)%N)
  | PStr s => str_truthy s
  | PList xs => match xs with [] => false | _ => true end
  | PDict items => match items with [] => false | _ => true end
  end.

(** [obj[-1]] *)
Definition py_getitem_last (obj : pyval) : result pyval :=
  match obj with
  | PList xs =>
    match last xs with
    | Some x => Ok x
    | None => Raise (IndexError (py "list index out of range"))
    end
  | PStr s =>
    match last s with
    | Some c => Ok (PStr [c])
    | None => Raise (IndexError (py "string index out of range"))
    end
  | PDict _ => Raise (KeyError (py "-1"))
  | _ => Raise (TypeError (py "object is not subscriptable"))
  end.

(** [obj[:n] + "..."] *)
Definition py_preview (n : nat) (obj : pyval) : result pyval :=
  match obj with
  | PStr s => Ok (PStr (take n s ++ py "..."))
  | PList _ => Raise (TypeError (py "can only concatenate list (not str) to list"))
  | _ => Raise (TypeError (py "object is not subscriptable"))
  end.

(** [xs[start:]] for a list *)
Definition py_slice_from {A} (start : Z) (xs : list A) : list A :=
  if (start <? 0)%Z then drop (length xs - Z.to_nat (- start)) xs
  else drop (Z.to_nat start) xs.

(** One entry of [get_recent_conversations]. *)
Definition recent_entry (ex : ConversationExample) : result pyval :=
  result_bind (py_len (ce_messages ex)) (fun message_count =>
  result_bind (if py_truthy (ce_messages ex)
               then py_getitem_last (ce_messages ex) else Ok PNone)
    (fun last_message =>
  result_bind (py_len (ce_response ex)) (fun response_length =>
  result_bind (if 100 <? response_length
               then py_preview 100 (ce_response ex) else Ok (ce_response ex))
    (fun response_preview =>
  Ok (PDict [(py "message_count", PInt (Z.of_nat message_count));
             (py "last_message", last_message);
             (py "response_preview", response_preview)]))))).

(** [get_recent_conversations(limit)] *)
Definition get_recent_conversations (limit : Z) : M (list pyval) :=
  let* w := get_world in
  let recent := py_slice_from (- limit) (dq_items (utils_store w)) in
  lift (comprehension recent_entry recent).

(** [conversation_examples.append(x)] inside [shoggoth_utils.py]: on the
    object the module's own global names. *)
Definition utils_conversation_examples_append (x : ConversationExample)
  : M unit :=
  fun w =>
    let l := utils_conversation_examples w in
    (Ok tt, set_heap (<[l := deque_append x (deref w l)]> (heap w)) w).

(** [add_conversation_example(messages, response)] *)
Definition add_conversation_example (messages response : pyval) : M bool :=
  try_except
    (let conversation_example :=
       {| ce_messages := messages; ce_response := response |} in
     run utils_conversation_examples_append conversation_example then
     ret true)
    (fun e =>
       run print (py "[ERROR] Failed to store conversation example: "
                  ++ exn_str e) then
       ret false).

(** ** More vocabulary *)

(** A dialogue: each pair is a user message and the assistant's reply. *)
Definition dialogue (pairs : list (pystr * pystr)) : list Message :=
  flat_map (fun qa => [ {| role := py "user"; content := fst qa |};
                        {| role := py "assistant"; content := snd qa |} ])
           pairs.

(** An example as the handler builds it: a list of messages and a text. *)
Definition well_formed_example (x : ConversationExample) : Prop :=
  exists ms r, ce_messages x = PList ms /\ ce_response x = PStr r.

(** The preview of a response text: the text itself up to 100 characters,
    else its first 100 followed by three dots. *)
Definition preview_text (r : pystr) : pystr :=
  if 100 <? length r then take 100 r ++ py "..." else r.

(** The entry [get_recent_conversations] makes of an example with messages
    [ms] and response text [r]. *)
Definition entry_of (ms : list pyval) (r : pystr) : pyval :=
  PDict [(py "message_count", PInt (Z.of_nat (length ms)));
         (py "last_message", default PNone (last ms));
         (py "response_preview", PStr (preview_text r))].

(** The trace without what was printed. *)
Definition observable (t : list event) : list event :=
  List.filter (fun ev => match ev with EvPrint _ => false | _ => true end) t.

Definition ends_with_newline (line : pystr) : Prop :=
  exists text, line = text ++ NL.

(** What the value stored at location [l] of heap [h] serializes from. *)
Definition snapshot_of (h : list deque) (l : nat) : pyval :=
  PList (map to_dict (dq_items (default (deque_empty CAPACITY) (h !! l)))).

(** From [w] to [w']: the heap has gone through [f] and the Redis service
    through [g]; the names, the client, the clock and the log's writability
    are as before; the trace has grown by events of which [obs] are not
    prints; the log file has grown by at most [n] lines, each ended by a
    newline. *)
Record steps (f : list deque -> list deque)
  (g : redis_service -> redis_service) (obs : list event) (n : nat)
  (w w' : world) : Prop := {
  st_heap : heap w' = f (heap w);
  st_redis : redis_server w' = g (redis_server w);
  st_utils : utils_conversation_examples w' = utils_conversation_examples w;
  st_run : run_conversation_examples w' = run_conversation_examples w;
  st_run_redis : run_redis w' = run_redis w;
  st_writable : logfile_writable w' = logfile_writable w;
  st_clock : clock w' = clock w;
  st_trace : exists added, trace w' = trace w ++ added
                           /\ observable added = obs;
  st_log : exists lines, logfile w' = logfile w ++ lines
                         /\ length lines <= n
                         /\ Forall ends_with_newline lines }.

Section Composition.

Variable json_dumps : pyval -> result pystr.
Variable json_loads : pystr -> result pyval.
Variable ChatCompletionRequest_new : pyval -> result ChatCompletionRequest.
Variable shaggoth_chatbot : pystr -> list (pystr * pystr) -> result pystr.
Variable EXAMPLE_STORAGE_KEY : pystr.

(** What [save_redis_conversation_examples] does to the Redis service when
    the heap is [h] and [shoggoth_utils.conversation_examples] is at [l]. *)
Definition save_effect (h : list deque) (l : nat) (srv : redis_service)
  : redis_service :=
  if redis_reachable srv then
    match json_dumps (snapshot_of h l) with
    | Ok text => redis_store srv (EXAMPLE_STORAGE_KEY ++ py ":conversations") text
    | Raise _ => srv
    end
  else srv.

(** Requests handled one after the other, each to the end of its response
    body. *)
Fixpoint serve_all (requests : list (Request * result upstream_stream))
  (w : world) : world :=
  match requests with
  | [] => w
  | (request, up) :: rest =>
    serve_all rest
      (snd (serve json_dumps ChatCompletionRequest_new shaggoth_chatbot
              EXAMPLE_STORAGE_KEY request up w))
  end.

End Composition.

(** ** More samples *)

(** The text [Json.dumps] gives for a value, empty when it raises. *)
Definition dumped (v : pyval) : pystr :=
  match Json.dumps v with
  | Ok text => text
  | Raise _ => []
  end.

Definition SNAPSHOT_KEY : pystr := STORAGE_KEY ++ py ":conversations".

(** A new process beside a Redis that holds [sample_snapshot]. *)
Definition world_with_snapshot : world :=
  fresh_process (redis_store empty_redis SNAPSHOT_KEY sample_snapshot)
    [] true (py "2025-01-02T00:00:00").

(** The same process once startup has loaded the snapshot: the loaded
    deque is a second object, and only [shoggoth_utils] names it. *)
Definition world_restarted : world :=
  {| heap := [deque_empty CAPACITY;
              {| dq_items := [sample_example]; dq_maxlen := 1000 |}];
     utils_conversation_examples := 1;
     run_conversation_examples := 0;
     run_redis := true;
     redis_server := redis_store empty_redis SNAPSHOT_KEY sample_snapshot;
     logfile := []; logfile_writable := true;
     clock := py "2025-01-02T00:00:00"; trace := [] |}.

(** A process whose store holds an example with [None] for messages, as a
    snapshot with ["messages": null] would leave it. *)
Definition world_with_null_messages : world :=
  {| heap := [{| dq_items :=
                   [sample_example;
                    {| ce_messages := PNone; ce_response := PStr (py "ok") |}];
                 dq_maxlen := CAPACITY |}];
     utils_conversation_examples := 0;
     run_conversation_examples := 0;
     run_redis := true; redis_server := empty_redis;
     logfile := []; logfile_writable := true;
     clock := py "2025-01-01T00:00:00"; trace := [] |}.

Definition sample_pairs : list (pystr * pystr) :=
  [(py "hello", py "hi there"); (py "how are you", py "fine")].

(** * Properties *)

(** ** UTF-8 decoding, on examples *)

Example decode_ascii : utf8_decode_replace (pyb "Hi") = py "Hi".
Proof. reflexivity. Qed.

(** U+00E9, U+20AC and U+1F600. *)
Example decode_multibyte :
  utf8_decode_replace [xc3; xa9; xe2; x82; xac; xf0; x9f; x98; x80]
  = [0xE9; 0x20AC; 0x1F600]%N.
Proof. reflexivity. Qed.

(** A lone continuation byte, an overlong form, an encoded surrogate and a
    sequence cut off by the end of the data. *)
Example decode_malformed :
  utf8_decode_replace [x80; x41; xc0; xaf; xed; xa0; x80; xe2; x82]
  = [0xFFFD; 0x41; 0xFFFD; 0xFFFD; 0xFFFD; 0xFFFD; 0xFFFD; 0xFFFD]%N.
Proof. reflexivity. Qed.

(** On ASCII bytes the decoder is the identity. *)
Lemma utf8_decode_replace_ascii (s : bytes) :
  Forall (fun b => (code b < 0x80)%N) s ->
  utf8_decode_replace s = map code s.
Proof.
  induction 1 as [|b r Hb _ IH]; [reflexivity|].
  cbn [utf8_decode_replace map].
  destruct (N.ltb_spec (code b) 0x80) as [_|Hge]; [|lia].
  by rewrite IH.
Qed.

(** ** The relay generator *)

Lemma generate_stream_yields (acc : pystr) (chunks : list bytes) :
  fst (generate_stream acc chunks) = chunks.
Proof.
  revert acc. induction chunks as [|c r IH]; intros acc; [reflexivity|].
  cbn [generate_stream]. specialize (IH (acc ++ utf8_decode_replace c)).
  destruct (generate_stream _ r) as [ys fin]. cbn in *. by rewrite IH.
Qed.

Lemma generate_stream_accumulates (acc : pystr) (chunks : list bytes) :
  snd (generate_stream acc chunks)
  = acc ++ concat (map utf8_decode_replace chunks).
Proof.
  revert acc. induction chunks as [|c r IH]; intros acc.
  - cbn. by rewrite app_nil_r.
  - cbn [generate_stream map concat].
    specialize (IH (acc ++ utf8_decode_replace c)).
    destruct (generate_stream _ r) as [ys fin]. cbn in *.
    by rewrite IH, app_assoc.
Qed.

(** C2, as amended. For the two chunks of the relay example, the generator
    yields exactly the two chunks, in order, and whatever [full_response]
    held when it started, it ends holding that followed by the decoded text
    of both chunks, framing included. *)
Theorem relay_cycle_yields_chunks_and_accumulates_raw_text (acc : pystr) :
  generate_stream acc relay_chunks
  = (relay_chunks, acc ++ py hi_event ++ py done_event).
Proof.
  rewrite (surjective_pairing (generate_stream acc relay_chunks)).
  rewrite generate_stream_yields, generate_stream_accumulates.
  reflexivity.
Qed.

(** C2 as stated fails: the text accumulated over the two chunks, from the
    empty [full_response] the handler starts with, is not ["Hi"]. *)
Lemma relay_cycle_accumulated_text_is_not_Hi :
  ~ (fst (generate_stream [] relay_chunks) = relay_chunks
     /\ snd (generate_stream [] relay_chunks) = py "Hi").
Proof. intros [_ H]. vm_compute in H. discriminate H. Qed.

(** ** The bounded deque *)

Lemma deque_append_maxlen (x : ConversationExample) (d : deque) :
  dq_maxlen (deque_append x d) = dq_maxlen d.
Proof. reflexivity. Qed.

Lemma deque_extend_maxlen (xs : list ConversationExample) (d : deque) :
  dq_maxlen (deque_extend xs d) = dq_maxlen d.
Proof.
  revert d. induction xs as [|x r IH]; intros d; [reflexivity|].
  unfold deque_extend in *. cbn [fold_left]. by rewrite IH.
Qed.

(** One append onto a deque within its bound: the new item at the right,
    the leftmost item dropped if that made it too long. *)
Lemma deque_append_items (x : ConversationExample) (d : deque) :
  length (dq_items d) <= dq_maxlen d ->
  dq_items (deque_append x d)
  = drop (length (dq_items d) + 1 - dq_maxlen d) (dq_items d ++ [x]).
Proof.
  intros Hlen. unfold deque_append. cbn [dq_items].
  rewrite length_app. cbn [length].
  destruct (Nat.ltb_spec (dq_maxlen d) (length (dq_items d) + 1)) as [Hlt|Hge].
  - replace (length (dq_items d) + 1 - dq_maxlen d) with 1 by lia.
    by destruct (dq_items d ++ [x]).
  - by replace (length (dq_items d) + 1 - dq_maxlen d) with 0 by lia.
Qed.

Lemma deque_append_bounded (x : ConversationExample) (d : deque) :
  length (dq_items d) <= dq_maxlen d ->
  length (dq_items (deque_append x d)) <= dq_maxlen d.
Proof.
  intros Hlen. rewrite deque_append_items by done.
  rewrite length_drop, length_app. cbn [length]. lia.
Qed.

(** What was appended is the last item, unless the deque holds nothing at
    all ([maxlen=0]). *)
Lemma deque_append_last (x : ConversationExample) (d : deque) :
  0 < dq_maxlen d ->
  last (dq_items (deque_append x d)) = Some x.
Proof.
  intros Hpos. unfold deque_append. cbn [dq_items].
  destruct (Nat.ltb_spec (dq_maxlen d) (length (dq_items d ++ [x])))
    as [Hlt|_]; [|apply last_snoc].
  rewrite length_app in Hlt. cbn [length] in Hlt.
  destruct (dq_items d) as [|y r]; [cbn [length] in Hlt; lia|].
  cbn [app tail]. apply last_snoc.
Qed.

(** An append onto a deque with room left drops nothing. *)
Lemma deque_append_room (x : ConversationExample) (d : deque) :
  length (dq_items d) < dq_maxlen d ->
  dq_items (deque_append x d) = dq_items d ++ [x].
Proof.
  intros Hlen. unfold deque_append. cbn [dq_items].
  rewrite length_app. cbn [length].
  destruct (Nat.ltb_spec (dq_maxlen d) (length (dq_items d) + 1)); [lia|done].
Qed.

(** A run of appends keeps the last [maxlen] of everything that was ever in
    the deque, in order. *)
Lemma deque_extend_items (xs : list ConversationExample) (d : deque) :
  length (dq_items d) <= dq_maxlen d ->
  dq_items (deque_extend xs d)
  = drop (length (dq_items d ++ xs) - dq_maxlen d) (dq_items d ++ xs).
Proof.
  revert d. induction xs as [|x r IH]; intros d Hlen.
  - cbn. rewrite app_nil_r.
    by replace (length (dq_items d) - dq_maxlen d) with 0 by lia.
  - change (deque_extend (x :: r) d) with (deque_extend r (deque_append x d)).
    rewrite IH by (rewrite deque_append_maxlen; by apply deque_append_bounded).
    rewrite deque_append_maxlen, deque_append_items by done.
    set (k := length (dq_items d) + 1 - dq_maxlen d).
    assert (Hk : k <= length (dq_items d ++ [x]))
      by (rewrite length_app; cbn [length]; lia).
    rewrite <- (drop_app_le _ r) by exact Hk.
    rewrite <- app_assoc. cbn [app].
    rewrite drop_drop. f_equal.
    rewrite length_drop, !length_app. cbn [length]. lia.
Qed.

Lemma deque_extend_bounded (xs : list ConversationExample) (d : deque) :
  length (dq_items d) <= dq_maxlen d ->
  length (dq_items (deque_extend xs d)) <= dq_maxlen d.
Proof.
  intros Hlen. rewrite deque_extend_items by done.
  rewrite length_drop. lia.
Qed.


(** C4. A store of capacity 1000 within its bound stays within it through
    every run of appends, at every step of the run; and after more than 1000
    appends it holds exactly 1000 examples, the last 1000 appended, in the
    order they were appended. *)
Theorem example_store_bounded_fifo
  (d : deque) (xs : list ConversationExample) :
  dq_maxlen d = CAPACITY ->
  length (dq_items d) <= CAPACITY ->
  (forall k, length (dq_items (deque_extend (take k xs) d)) <= CAPACITY)
  /\ (CAPACITY < length xs ->
      length (dq_items (deque_extend xs d)) = CAPACITY
      /\ dq_items (deque_extend xs d) = drop (length xs - CAPACITY) xs).
Proof.
  intros Hmax Hlen. rewrite <- Hmax in *. split.
  - intros k. by apply deque_extend_bounded.
  - intros Hmore.
    assert (Hitems : dq_items (deque_extend xs d)
                     = drop (length xs - dq_maxlen d) xs).
    { rewrite deque_extend_items by done.
      rewrite length_app.
      replace (length (dq_items d) + length xs - dq_maxlen d)
        with (length (dq_items d) + (length xs - dq_maxlen d)) by lia.
      by rewrite drop_app_add. }
    split; [|exact Hitems].
    rewrite Hitems, length_drop. lia.
Qed.

(** ** History extraction *)

(** C5. The last-message extractor gives [("", [])] on the empty sequence,
    and on a sequence ending in [x] it gives the content of [x] and all the
    messages before [x], in order. *)
Theorem extract_last_message_and_preceding_history :
  extract_current_message_and_history [] = ([], [])
  /\ forall (history : list Message) (x : Message),
       extract_current_message_and_history (history ++ [x])
       = (content x, history).
Proof.
  split; [reflexivity|]. intros history x.
  unfold extract_current_message_and_history.
  destruct (history ++ [x]) as [|m0 r] eqn:E.
  - by destruct history.
  - rewrite <- E. rewrite last_last.
    rewrite length_app. cbn [length].
    replace (length history + 1 - 1) with (length history) by lia.
    by rewrite take_app_length.
Qed.

Lemma message_dict_role (m : Message) :
  py_getitem (message_dict m) (py "role") = Ok (PStr (role m)).
Proof. reflexivity. Qed.

Lemma message_dict_content (m : Message) :
  py_getitem (message_dict m) (py "content") = Ok (PStr (content m)).
Proof. reflexivity. Qed.

(** The backwards scan passes over messages that are not from the user. *)
Lemma find_last_user_none (ms : list Message) (n : nat) :
  Forall (fun m => role m <> py "user") ms ->
  n <= length ms ->
  find_last_user (map message_dict ms) n = Ok (PNone, []).
Proof.
  intros Hno. induction n as [|i IH]; intros Hn; [reflexivity|].
  cbn [find_last_user]. rewrite list_lookup_fmap.
  destruct (ms !! i) as [m|] eqn:Hm.
  - cbn [fmap option_fmap option_map]. rewrite message_dict_role.
    cbn [result_bind py_eq_str].
    assert (Hr : role m <> py "user").
    { eapply (proj1 (Forall_forall _ _) Hno), list_elem_of_lookup_2, Hm. }
    rewrite bool_decide_eq_false_2 by exact Hr.
    apply IH. lia.
  - apply lookup_ge_None in Hm. lia.
Qed.

(** The backwards scan stops at the last message from the user. *)
Lemma find_last_user_found (pre post : list Message) (u : Message) (k : nat) :
  role u = py "user" ->
  Forall (fun m => role m <> py "user") post ->
  k <= length post ->
  find_last_user (map message_dict (pre ++ u :: post)) (length pre + 1 + k)
  = Ok (PStr (content u), map message_dict pre).
Proof.
  intros Hu Hpost. induction k as [|k IH]; intros Hk.
  - replace (length pre + 1 + 0) with (S (length pre)) by lia.
    cbn [find_last_user]. rewrite list_lookup_fmap, list_lookup_middle by done.
    cbn [fmap option_fmap option_map]. rewrite message_dict_role.
    cbn [result_bind py_eq_str].
    rewrite bool_decide_eq_true_2 by exact Hu.
    rewrite message_dict_content. cbn [result_bind].
    rewrite <- fmap_take, take_app_length. reflexivity.
  - replace (length pre + 1 + S k) with (S (length pre + 1 + k)) by lia.
    cbn [find_last_user]. rewrite list_lookup_fmap.
    destruct (post !! k) as [m|] eqn:Hm.
    + assert (Hl : (pre ++ u :: post) !! (length pre + 1 + k) = Some m).
      { replace (length pre + 1 + k) with (length pre + S k) by lia.
        rewrite lookup_app_r by lia.
        replace (length pre + S k - length pre) with (S k) by lia.
        exact Hm. }
      rewrite Hl. cbn [fmap option_fmap option_map].
      rewrite message_dict_role. cbn [result_bind py_eq_str].
      assert (Hr : role m <> py "user").
      { eapply (proj1 (Forall_forall _ _) Hpost), list_elem_of_lookup_2, Hm. }
      rewrite bool_decide_eq_false_2 by exact Hr.
      apply IH. lia.
    + apply lookup_ge_None in Hm. lia.
Qed.

(** C6. On messages as [run.py] stores them (a dict with a role and a
    content): when some message has role ["user"], the alternate extractor
    gives the content of the last such message and the messages strictly
    before it, in order; when none has, it gives [""] and the whole
    sequence. *)
Theorem extract_last_user_message_and_preceding_history :
  (forall (pre post : list Message) (u : Message),
     role u = py "user" ->
     Forall (fun m => role m <> py "user") post ->
     extract_current_message_and_history_from_messages
       (map message_dict (pre ++ u :: post))
     = Ok (PStr (content u), map message_dict pre))
  /\ (forall ms : list Message,
        Forall (fun m => role m <> py "user") ms ->
        extract_current_message_and_history_from_messages
          (map message_dict ms)
        = Ok (PStr [], map message_dict ms)).
Proof.
  split.
  - intros pre post u Hu Hpost.
    unfold extract_current_message_and_history_from_messages.
    destruct (map message_dict (pre ++ u :: post)) as [|d0 r] eqn:E.
    { by destruct pre. }
    rewrite <- E. rewrite length_map, length_app. cbn [length].
    replace (length pre + S (length post))
      with (length pre + 1 + length post) by lia.
    rewrite (find_last_user_found pre post u (length post)) by done.
    reflexivity.
  - intros ms Hno.
    unfold extract_current_message_and_history_from_messages.
    destruct (map message_dict ms) as [|d0 r] eqn:E; [reflexivity|].
    rewrite <- E. rewrite length_map.
    rewrite (find_last_user_none ms (length ms)) by done.
    reflexivity.
Qed.

Lemma extract_last_user_message_witness :
  extract_current_message_and_history_from_messages
    (map message_dict ([system_prompt] ++ user_hello :: [assistant_hi]))
  = Ok (PStr (py "hello"), map message_dict [system_prompt])
  /\ extract_current_message_and_history_from_messages
       (map message_dict [system_prompt; assistant_hi])
     = Ok (PStr [], map message_dict [system_prompt; assistant_hi]).
Proof.
  split.
  - apply (proj1 extract_last_user_message_and_preceding_history
             [system_prompt] [assistant_hi] user_hello).
    + reflexivity.
    + repeat constructor; vm_compute; discriminate.
  - apply (proj2 extract_last_user_message_and_preceding_history
             [system_prompt; assistant_hi]).
    repeat constructor; vm_compute; discriminate.
Defined.

(** ** The monad *)

Lemma bind_ok {A B} (m : M A) (k : A -> M B) (w w1 : world) (a : A) :
  m w = (Ok a, w1) -> bind m k w = k a w1.
Proof. intros E. unfold bind. by rewrite E. Qed.

Lemma bind_raise {A B} (m : M A) (k : A -> M B) (w w1 : world) (e : exn) :
  m w = (Raise e, w1) -> bind m k w = (Raise e, w1).
Proof. intros E. unfold bind. by rewrite E. Qed.

Lemma try_except_ok {A} (body : M A) (h : exn -> M A) (w w1 : world) (a : A) :
  body w = (Ok a, w1) -> try_except body h w = (Ok a, w1).
Proof. intros E. unfold try_except. by rewrite E. Qed.

Lemma try_except_raise {A} (body : M A) (h : exn -> M A) (w w1 : world)
  (e : exn) :
  body w = (Raise e, w1) -> try_except body h w = h e w1.
Proof. intros E. unfold try_except. by rewrite E. Qed.

(** ** How the world evolves *)

Lemma evolves_refl (P : event -> Prop) (w : world) : evolves id P w w.
Proof.
  repeat split. exists []. split; [by rewrite app_nil_r | constructor].
Qed.

Lemma evolves_trans (f g : list deque -> list deque) (P : event -> Prop)
  (w w1 w2 : world) :
  evolves f P w w1 -> evolves g P w1 w2 -> evolves (fun h => g (f h)) P w w2.
Proof.
  intros (Hh & Hu & Hr & Hc & a1 & Ht1 & Hp1) (Hh' & Hu' & Hr' & Hc' & a2 & Ht2 & Hp2).
  repeat split; try congruence.
  exists (a1 ++ a2). split.
  - rewrite Ht2, Ht1. by rewrite app_assoc.
  - by apply Forall_app.
Qed.

Lemma evolves_weaken (f : list deque -> list deque) (P Q : event -> Prop)
  (w w' : world) :
  (forall ev, P ev -> Q ev) -> evolves f P w w' -> evolves f Q w w'.
Proof.
  intros HPQ (Hh & Hu & Hr & Hc & a & Ht & Hp).
  repeat split; try done. exists a. split; [done|].
  eapply Forall_impl; eauto.
Qed.

Lemma emit_evolves (P : event -> Prop) (ev : event) (w : world) :
  P ev -> evolves id P w (set_trace (trace w ++ [ev]) w).
Proof.
  intros Hev. repeat split. exists [ev]. split; [done|]. by constructor.
Qed.

Lemma print_spec (text : pystr) (w : world) :
  exists w', print text w = (Ok tt, w') /\ evolves id is_bookkeeping w w'.
Proof. eexists. split; [reflexivity|]. by apply emit_evolves. Qed.

Lemma set_logfile_evolves (P : event -> Prop) (f : list pystr) (w : world) :
  evolves id P w (set_logfile f w).
Proof.
  repeat split. exists []. split; [by rewrite app_nil_r | constructor].
Qed.

Lemma set_redis_server_evolves (P : event -> Prop) (r : redis_service)
  (w : world) :
  evolves id P w (set_redis_server r w).
Proof.
  repeat split. exists []. split; [by rewrite app_nil_r | constructor].
Qed.

Lemma redis_lookup_store (srv : redis_service) (key value : pystr) :
  redis_lookup (redis_store srv key value) key = Some value.
Proof. unfold redis_lookup, redis_store. cbn. apply lookup_insert_eq. Qed.

Lemma not_yield_of_bookkeeping (ev : event) :
  is_bookkeeping ev -> ~ is_yield ev.
Proof. destruct ev; cbn; tauto. Qed.

Lemma not_upstream_send_of_bookkeeping (ev : event) :
  is_bookkeeping ev -> ~ is_upstream_send ev.
Proof. destruct ev; cbn; tauto. Qed.

Section Properties.

Set Default Proof Using "Type".

Variable json_dumps : pyval -> result pystr.
Variable json_loads : pystr -> result pyval.
Variable ChatCompletionRequest_new : pyval -> result ChatCompletionRequest.
Variable shaggoth_chatbot : pystr -> list (pystr * pystr) -> result pystr.
Variable EXAMPLE_STORAGE_KEY : pystr.

Local Abbreviation KEY := (EXAMPLE_STORAGE_KEY ++ py ":conversations").
Local Abbreviation save := (save_redis_conversation_examples json_dumps EXAMPLE_STORAGE_KEY).
Local Abbreviation load := (load_redis_conversation_examples json_loads EXAMPLE_STORAGE_KEY).
Local Abbreviation load_try := (load_redis_conversation_examples_try json_loads EXAMPLE_STORAGE_KEY).
Local Abbreviation handler :=
  (proxy_chat_completions json_dumps ChatCompletionRequest_new
     shaggoth_chatbot EXAMPLE_STORAGE_KEY).
Local Abbreviation forward_to :=
  (forward json_dumps ChatCompletionRequest_new shaggoth_chatbot
     EXAMPLE_STORAGE_KEY).
Local Abbreviation serve_request :=
  (serve json_dumps ChatCompletionRequest_new shaggoth_chatbot
     EXAMPLE_STORAGE_KEY).

(** *** Bookkeeping steps never raise and leave the store alone *)

Lemma write_jsonl_line_spec (data : pyval) (w : world) :
  exists w', write_jsonl_line json_dumps data w = (Ok tt, w')
             /\ evolves id is_bookkeeping w w'.
Proof.
  unfold write_jsonl_line, try_except.
  destruct (logfile_writable w).
  - destruct (json_dumps data) as [line|e].
    + eexists. split; [reflexivity|]. apply set_logfile_evolves.
    + apply print_spec.
  - apply print_spec.
Qed.

Lemma write_record_spec (kind : pystr) (data : pyval) (w : world) :
  exists w', write_record json_dumps kind data w = (Ok tt, w')
             /\ evolves id is_bookkeeping w w'.
Proof. unfold write_record, bind, get_world. apply write_jsonl_line_spec. Qed.

Lemma log_comprehensive_data_spec (cr : ChatCompletionRequest)
  (fr cm : pystr) (mh : list Message) (sr : option pystr) (err : option exn)
  (w : world) :
  exists w', log_comprehensive_data json_dumps cr fr cm mh sr err w = (Ok tt, w')
             /\ evolves id is_bookkeeping w w'.
Proof.
  unfold log_comprehensive_data, bind, get_world. apply write_jsonl_line_spec.
Qed.

Lemma generate_chatbot_response_spec (cm : pystr) (mh : list Message)
  (w : world) :
  exists r w', generate_chatbot_response shaggoth_chatbot cm mh w = (Ok r, w')
               /\ evolves id is_bookkeeping w w'.
Proof.
  unfold generate_chatbot_response, try_except, bind, lift, emit, print, ret.
  destruct (shaggoth_chatbot cm _) as [r|e].
  - do 2 eexists. split; [reflexivity|]. by apply emit_evolves.
  - do 2 eexists. split; [reflexivity|].
    eapply (evolves_trans id id); [|by apply emit_evolves].
    by apply emit_evolves.
Qed.

Lemma save_spec (w : world) :
  exists w', save w = (Ok tt, w') /\ evolves id is_bookkeeping w w'.
Proof.
  unfold save_redis_conversation_examples, try_except, bind, get_world, lift,
    redis_set.
  destruct (json_dumps _) as [text|e].
  - destruct (redis_reachable (redis_server w)).
    + eexists. split; [reflexivity|].
      eapply (evolves_trans id id); [apply set_redis_server_evolves|].
      by apply emit_evolves.
    + apply print_spec.
  - apply print_spec.
Qed.

(** *** The [finally] block *)

Lemma evolves_ext (f g : list deque -> list deque) (P : event -> Prop)
  (w w' : world) :
  (forall h, f h = g h) -> evolves f P w w' -> evolves g P w w'.
Proof.
  intros Hfg (Hh & Hrest). split; [|exact Hrest]. by rewrite <- Hfg.
Qed.

Lemma append_evolves (P : event -> Prop) (x : ConversationExample)
  (w : world) :
  exists w', run_conversation_examples_append x w = (Ok tt, w')
             /\ evolves (heap_append (run_conversation_examples w) x) P w w'.
Proof.
  eexists. split; [reflexivity|]. repeat split.
  exists []. split; [by rewrite app_nil_r | constructor].
Qed.

(** The [finally] block never raises. It decides the response text to
    record, appends one example with that text to the deque [run.py]
    names, and otherwise only logs, calls the collaborator and saves. *)
Lemma finally_block_spec (cr : ChatCompletionRequest) (cm : pystr)
  (mh : list Message) (fr : pystr) (pe : option exn) (w : world) :
  let fr' := if negb (str_truthy (py_strip fr)) then NO_RESPONSE else fr in
  exists w',
    finally_block json_dumps shaggoth_chatbot EXAMPLE_STORAGE_KEY
      cr cm mh fr pe w = (Ok fr', w')
    /\ evolves (heap_append (run_conversation_examples w)
                  (stored_example cr fr'))
         is_bookkeeping w w'.
Proof.
  intros fr'. unfold finally_block. fold fr'.
  destruct (write_record_spec (py "response") (PStr fr') w) as (w1 & E1 & H1).
  rewrite (bind_ok _ _ _ _ _ E1).
  destruct (append_evolves is_bookkeeping (stored_example cr fr') w1)
    as (w2 & E2 & H2).
  unfold stored_example in E2.
  rewrite (bind_ok _ _ _ w2 pe)
    by (apply try_except_ok; by rewrite (bind_ok _ _ _ _ _ E2)).
  destruct (generate_chatbot_response_spec cm mh w2) as (r & w3 & E3 & H3).
  destruct (print_spec (py "[ShaggothRL] Generated: " ++ py_prefix 100 r
                        ++ py "...") w3) as (w4 & E4 & H4).
  rewrite (bind_ok _ _ _ w4 (Some r, pe))
    by (apply try_except_ok; rewrite (bind_ok _ _ _ _ _ E3);
        by rewrite (bind_ok _ _ _ _ _ E4)).
  unfold get_world at 1. unfold bind at 1.
  assert (exists w5,
    (if run_redis w4
     then try_except
            (run save then ret pe)
            (fun e =>
               run print (py "[ERROR] Failed to save conversation examples: "
                          ++ exn_str e) then ret (Some e))
     else ret pe) w4 = (Ok pe, w5)
    /\ evolves id is_bookkeeping w4 w5) as (w5 & E5 & H5).
  { destruct (run_redis w4).
    - destruct (save_spec w4) as (w5 & E5 & H5). exists w5. split; [|done].
      apply try_except_ok. by rewrite (bind_ok _ _ _ _ _ E5).
    - exists w4. split; [reflexivity | apply evolves_refl]. }
  rewrite (bind_ok _ _ _ _ _ E5).
  destruct (log_comprehensive_data_spec cr fr' cm mh (Some r) pe w5)
    as (w6 & E6 & H6).
  rewrite (bind_ok _ _ _ _ _ E6).
  exists w6. split; [reflexivity|].
  assert (Hl : run_conversation_examples w1 = run_conversation_examples w)
    by apply H1.
  rewrite Hl in H2.
  eapply evolves_ext;
    [|exact (evolves_trans _ _ _ _ _ _
               (evolves_trans _ _ _ _ _ _
                  (evolves_trans _ _ _ _ _ _
                     (evolves_trans _ _ _ _ _ _
                        (evolves_trans _ _ _ _ _ _ H1 H2) H3) H4) H5) H6)].
  reflexivity.
Qed.

(** *** The handler on a well-formed request *)

(** What [forward] does with a request whose body parses and validates:
    it returns the response object when the upstream call succeeded and
    raises a 500 when it failed, and either way the [finally] block has
    run on a [full_response] that is still empty. *)
Lemma forward_spec (url : pystr) (request : Request)
  (up : result upstream_stream) (body : pyval) (cr : ChatCompletionRequest)
  (w : world) :
  request_json request = Ok body ->
  ChatCompletionRequest_new body = Ok cr ->
  exists w',
    forward_to url request up w
    = (match up with
       | Ok stream => Ok {| full_response_cell := NO_RESPONSE;
                            upstream_response := stream |}
       | Raise e => Raise (HTTPException 500 (exn_str e))
       end, w')
    /\ evolves (heap_append (run_conversation_examples w)
                  (stored_example cr NO_RESPONSE))
         (fun ev => ~ is_yield ev) w w'.
Proof.
  intros Hbody Hcr. unfold forward.
  destruct (print_spec (py "upstream_url  " ++ url) w) as (w1 & E1 & H1).
  rewrite (bind_ok _ _ _ _ _ E1).
  rewrite Hbody. unfold lift at 1. unfold bind at 1.
  rewrite Hcr. unfold lift at 1. unfold bind at 1.
  destruct (extract_current_message_and_history (messages cr)) as [cm mh].
  destruct (write_record_spec (py "request") body w1) as (w2 & E2 & H2).
  rewrite (bind_ok _ _ _ _ _ E2).
  apply (evolves_weaken _ _ _ _ _ not_yield_of_bookkeeping) in H1, H2.
  set (w3 := set_trace (trace w2 ++ [EvUpstreamSend (url ++ py "/chat/completions") body]) w2).
  assert (H3 : evolves id (fun ev => ~ is_yield ev) w2 w3)
    by (apply emit_evolves; intros []).
  assert (Hl : run_conversation_examples w3 = run_conversation_examples w)
    by (transitivity (run_conversation_examples w1); [apply H2 | apply H1]).
  destruct up as [stream|e].
  - change (try_block url body (Ok stream) w2) with (Ok stream, w3).
    destruct (finally_block_spec cr cm mh [] None w3) as (w4 & E4 & H4).
    cbn in E4. rewrite E4. cbn [result_bind].
    exists w4. split; [reflexivity|].
    apply (evolves_weaken _ _ _ _ _ not_yield_of_bookkeeping) in H4.
    rewrite Hl in H4. cbn in H4.
    eapply evolves_ext;
      [|exact (evolves_trans _ _ _ _ _ _
                 (evolves_trans _ _ _ _ _ _
                    (evolves_trans _ _ _ _ _ _ H1 H2) H3) H4)].
    reflexivity.
  - change (try_block url body (Raise e) w2) with (@Raise upstream_stream e, w3).
    unfold except_block. cbn [str_truthy].
    destruct (write_record_spec (py "error") (PStr (exn_str e)) w3)
      as (w4 & E4 & H4).
    rewrite (bind_ok _ _ _ _ _ E4).
    destruct (log_comprehensive_data_spec cr
                (py "[Error: No response received]") cm mh None (Some e) w4)
      as (w5 & E5 & H5).
    rewrite (bind_ok _ _ _ _ _ E5). unfold raise.
    destruct (finally_block_spec cr cm mh [] (Some e) w5) as (w6 & E6 & H6).
    cbn in E6. rewrite E6. cbn [result_bind].
    exists w6. split; [reflexivity|].
    apply (evolves_weaken _ _ _ _ _ not_yield_of_bookkeeping) in H4, H5, H6.
    assert (Hl5 : run_conversation_examples w5 = run_conversation_examples w).
    { rewrite <- Hl. transitivity (run_conversation_examples w4);
        [apply H5 | apply H4]. }
    rewrite Hl5 in H6. cbn in H6.
    eapply evolves_ext;
      [|exact (evolves_trans _ _ _ _ _ _
                 (evolves_trans _ _ _ _ _ _
                    (evolves_trans _ _ _ _ _ _
                       (evolves_trans _ _ _ _ _ _
                          (evolves_trans _ _ _ _ _ _ H1 H2) H3) H4) H5) H6)].
    reflexivity.
Qed.

Lemma heap_append_deref (l : nat) (x : ConversationExample) (w w' : world) :
  l < length (heap w) ->
  heap w' = heap_append l x (heap w) ->
  deref w' l = deque_append x (deref w l).
Proof.
  intros Hl Hh. unfold deref. rewrite Hh. unfold heap_append.
  by rewrite list_lookup_insert_eq.
Qed.

Lemma emit_all_yields (chunks : list bytes) (w : world) :
  exists w', emit_all (map EvYield chunks) w = (Ok tt, w')
             /\ heap w' = heap w
             /\ utils_conversation_examples w' = utils_conversation_examples w
             /\ run_conversation_examples w' = run_conversation_examples w
             /\ trace w' = trace w ++ map EvYield chunks.
Proof.
  revert w. induction chunks as [|c r IH]; intros w.
  - exists w. cbn. by rewrite app_nil_r.
  - cbn [map emit_all]. unfold bind, emit.
    destruct (IH (set_trace (trace w ++ [EvYield c]) w))
      as (w' & E & Hh & Hu & Hr & Ht).
    exists w'. rewrite E. repeat split; try done.
    rewrite Ht. cbn. by rewrite <- app_assoc.
Qed.

Lemma send_body_spec (resp : StreamingResponse) (w : world) :
  exists w',
    send_body resp w
    = (match aiter_fault (upstream_response resp) with
       | Some e => Raise e
       | None =>
         Ok (aiter_bytes (upstream_response resp),
             full_response_cell resp
             ++ concat (map utf8_decode_replace
                          (aiter_bytes (upstream_response resp))))
       end, w')
    /\ heap w' = heap w
    /\ utils_conversation_examples w' = utils_conversation_examples w
    /\ run_conversation_examples w' = run_conversation_examples w
    /\ trace w' = trace w ++ map EvYield (aiter_bytes (upstream_response resp)).
Proof.
  unfold send_body.
  pose proof (generate_stream_yields (full_response_cell resp)
                (aiter_bytes (upstream_response resp))) as Hy.
  pose proof (generate_stream_accumulates (full_response_cell resp)
                (aiter_bytes (upstream_response resp))) as Ha.
  destruct (generate_stream _ _) as [yielded final]. cbn in Hy, Ha. subst.
  destruct (emit_all_yields (aiter_bytes (upstream_response resp)) w)
    as (w' & E & Hh & Hu & Hr & Ht).
  exists w'. rewrite (bind_ok _ _ _ _ _ E).
  split; [|done]. by destruct (aiter_fault _).
Qed.

(** Whatever the upstream does, a request that validates leaves one more
    example in the store, and its response is the sentinel. *)
Lemma serve_stores_sentinel (request : Request) (up : result upstream_stream)
  (url : pystr) (body : pyval) (cr : ChatCompletionRequest) (w : world) :
  select_upstream request = Ok url ->
  request_json request = Ok body ->
  ChatCompletionRequest_new body = Ok cr ->
  world_ok w ->
  exists r w',
    serve_request request up w = (r, w')
    /\ run_store w'
       = deque_append (stored_example cr NO_RESPONSE) (run_store w).
Proof.
  intros Hurl Hbody Hcr [_ Hrun].
  unfold serve, proxy_chat_completions. rewrite Hurl.
  unfold lift at 1. unfold bind at 2.
  destruct (forward_spec url request up body cr w Hbody Hcr)
    as (w1 & E1 & Hh & Hu & Hr & _).
  assert (Hstore : run_store w1
                   = deque_append (stored_example cr NO_RESPONSE) (run_store w)).
  { unfold run_store. rewrite Hr. by apply heap_append_deref. }
  destruct up as [stream|e].
  - rewrite (bind_ok _ _ _ _ _ E1).
    destruct (send_body_spec {| full_response_cell := NO_RESPONSE;
                                upstream_response := stream |} w1)
      as (w2 & E2 & Hh2 & Hu2 & Hr2 & _).
    do 2 eexists. split; [exact E2|].
    rewrite <- Hstore. unfold run_store, deref. by rewrite Hh2, Hr2.
  - rewrite (bind_raise _ _ _ _ _ E1). by do 2 eexists.
Qed.

(** C1, as the code has it. For a request that validates and an upstream
    stream that completes, the handler has already appended the example
    when it returns the response object, before any chunk is relayed, and
    the response it stored is the sentinel, not the text of the stream;
    relaying the stream afterwards sends every chunk and leaves the store
    as it was. *)
Theorem example_is_stored_before_the_stream_is_relayed
  (request : Request) (stream : upstream_stream) (url : pystr)
  (body : pyval) (cr : ChatCompletionRequest) (w : world) :
  select_upstream request = Ok url ->
  request_json request = Ok body ->
  ChatCompletionRequest_new body = Ok cr ->
  aiter_fault stream = None ->
  world_ok w ->
  exists resp w1 w2,
    handler request (Ok stream) w = (Ok resp, w1)
    /\ (exists added, trace w1 = trace w ++ added
                      /\ Forall (fun ev => ~ is_yield ev) added)
    /\ run_store w1
       = deque_append (stored_example cr NO_RESPONSE) (run_store w)
    /\ send_body resp w1
       = (Ok (aiter_bytes stream,
              NO_RESPONSE
              ++ concat (map utf8_decode_replace (aiter_bytes stream))), w2)
    /\ trace w2 = trace w1 ++ map EvYield (aiter_bytes stream)
    /\ run_store w2 = run_store w1.
Proof.
  intros Hurl Hbody Hcr Hfault [_ Hrun].
  unfold proxy_chat_completions. rewrite Hurl.
  unfold lift at 1. unfold bind at 1.
  destruct (forward_spec url request (Ok stream) body cr w Hbody Hcr)
    as (w1 & E1 & Hh & Hu & Hr & Hc & Ht).
  destruct (send_body_spec {| full_response_cell := NO_RESPONSE;
                              upstream_response := stream |} w1)
    as (w2 & E2 & Hh2 & Hu2 & Hr2 & Ht2).
  cbn [upstream_response full_response_cell] in E2, Ht2.
  rewrite Hfault in E2.
  exists {| full_response_cell := NO_RESPONSE; upstream_response := stream |},
    w1, w2.
  repeat split; try done.
  - unfold run_store. rewrite Hr. by apply heap_append_deref.
  - unfold run_store, deref. by rewrite Hh2, Hr2.
Qed.

(** C3. When the upstream call fails, and when the stream completes with
    no text at all, the example stored for the request has the sentinel as
    its response, and the sentinel is not the empty string. The example is
    in the store afterwards: it is the last item of the store (of any store
    that holds items at all, as one made with [maxlen=1000] does), and it
    comes behind everything the store held when there was room left. *)
Theorem failed_or_empty_upstream_stores_the_sentinel
  (request : Request) (up : result upstream_stream) (url : pystr)
  (body : pyval) (cr : ChatCompletionRequest) (w : world) :
  select_upstream request = Ok url ->
  request_json request = Ok body ->
  ChatCompletionRequest_new body = Ok cr ->
  world_ok w ->
  ((exists e, up = Raise e)
   \/ (exists stream,
         up = Ok stream /\ aiter_fault stream = None
         /\ concat (map utf8_decode_replace (aiter_bytes stream)) = [])) ->
  exists r w' stored,
    serve_request request up w = (r, w')
    /\ run_store w' = deque_append stored (run_store w)
    /\ ce_messages stored = PList (map message_dict (messages cr))
    /\ ce_response stored = PStr NO_RESPONSE
    /\ NO_RESPONSE <> []
    /\ (0 < dq_maxlen (run_store w) ->
        last (dq_items (run_store w')) = Some stored)
    /\ (length (dq_items (run_store w)) < dq_maxlen (run_store w) ->
        dq_items (run_store w') = dq_items (run_store w) ++ [stored]).
Proof.
  intros Hurl Hbody Hcr Hok _.
  destruct (serve_stores_sentinel request up url body cr w Hurl Hbody Hcr Hok)
    as (r & w' & E & Hstore).
  exists r, w', (stored_example cr NO_RESPONSE).
  repeat split; try done.
  - intros Hpos. rewrite Hstore. by apply deque_append_last.
  - intros Hroom. rewrite Hstore. by apply deque_append_room.
Qed.

(** C8. A request whose body is not JSON, or whose body does not validate
    as a [ChatCompletionRequest], makes the handler raise, and nothing it
    did before raising is an upstream call. *)
Theorem malformed_request_raises_before_any_upstream_call
  (request : Request) (up : result upstream_stream) (e : exn) (w : world) :
  (request_json request = Raise e
   \/ exists body, request_json request = Ok body
                   /\ ChatCompletionRequest_new body = Raise e) ->
  exists e' w',
    serve_request request up w = (Raise e', w')
    /\ (exists added, trace w' = trace w ++ added
                      /\ Forall (fun ev => ~ is_upstream_send ev) added)
    /\ heap w' = heap w.
Proof.
  intros Hbad. unfold serve, proxy_chat_completions.
  destruct (select_upstream request) as [url|e400].
  - unfold lift at 1. unfold bind at 2. unfold forward.
    destruct (print_spec (py "upstream_url  " ++ url) w)
      as (w1 & E1 & Hh & _ & _ & _ & Ht).
    assert (Hadded : exists added, trace w1 = trace w ++ added
              /\ Forall (fun ev => ~ is_upstream_send ev) added).
    { destruct Ht as (added & Ht & HP). exists added. split; [done|].
      eapply Forall_impl; [exact HP|].
      apply not_upstream_send_of_bookkeeping. }
    exists e, w1. split; [|by split].
    apply bind_raise. rewrite (bind_ok _ _ _ _ _ E1).
    destruct Hbad as [Hjson|(body & Hjson & Hcr)].
    + rewrite Hjson. reflexivity.
    + rewrite Hjson. unfold lift at 1. unfold bind at 1.
      rewrite Hcr. reflexivity.
  - exists e400, w. split; [reflexivity|]. split; [|done].
    exists []. split; [by rewrite app_nil_r | constructor].
Qed.

(** C9, as amended. A request without [p] is handled with the default
    upstream base URL: it is not refused with the 400 error. That error
    is raised for a request that gives [p] an empty value, and for no
    other. *)
Theorem omitted_p_selects_the_default_upstream :
  (forall request : Request,
     query_get request (py "p") = None ->
     select_upstream request = Ok DEFAULT_UPSTREAM
     /\ forall up, handler request up = forward_to DEFAULT_UPSTREAM request up)
  /\ (forall (request : Request) (e : exn),
        select_upstream request = Raise e ->
        query_get request (py "p") = Some []
        /\ e = HTTPException 400 (py "Missing proxy 'p' parameter"))
  /\ (forall (request : Request),
        query_get request (py "p") = Some [] ->
        forall up w,
          handler request up w
          = (Raise (HTTPException 400 (py "Missing proxy 'p' parameter")), w)).
Proof.
  split; [|split].
  - intros request Hp.
    assert (Hsel : select_upstream request = Ok DEFAULT_UPSTREAM)
      by (unfold select_upstream; by rewrite Hp).
    split; [exact Hsel|]. intros up.
    unfold proxy_chat_completions. by rewrite Hsel.
  - intros request e. unfold select_upstream.
    destruct (query_get request (py "p")) as [[|c u]|]; cbn.
    + intros [= <-]. done.
    + discriminate.
    + discriminate.
  - intros request Hp up w.
    unfold proxy_chat_completions, select_upstream. by rewrite Hp.
Qed.

(** *** Saving and loading the store *)



(** A save that reaches Redis writes the serialized snapshot under the
    key and changes nothing else there. *)
Lemma save_writes_snapshot (w : world) (text : pystr) :
  redis_reachable (redis_server w) = true ->
  json_dumps (PList (map to_dict (dq_items (utils_store w)))) = Ok text ->
  exists w1,
    save w = (Ok tt, w1)
    /\ redis_server w1 = redis_store (redis_server w) KEY text
    /\ heap w1 = heap w.
Proof.
  intros Hup Hdumps.
  unfold save_redis_conversation_examples, try_except, bind, get_world, lift,
    redis_set.
  rewrite Hdumps, Hup. by eexists.
Qed.

(** A load that finds a snapshot and can read all of it binds
    [shoggoth_utils.conversation_examples] to a new deque holding what it
    read; the objects that existed are untouched, and so is the name
    [run.py] imported. *)
Lemma load_reads_snapshot (w : world) (text : pystr) (v : pyval)
  (items : list pyval) (examples : list ConversationExample) :
  redis_reachable (redis_server w) = true ->
  redis_lookup (redis_server w) KEY = Some text ->
  text <> [] ->
  json_loads text = Ok v ->
  py_iter v = Ok items ->
  comprehension from_dict items = Ok examples ->
  exists w',
    load w = (Ok tt, w')
    /\ heap w' = heap w ++ [deque_of examples 1000]
    /\ utils_conversation_examples w' = length (heap w)
    /\ run_conversation_examples w' = run_conversation_examples w
    /\ utils_store w' = deque_of examples 1000.
Proof.
  intros Hup Hget Htext Hloads Hiter Hcomp.
  unfold load_redis_conversation_examples, load_redis_conversation_examples_try.
  unfold try_except, bind, redis_get. rewrite Hup, Hget.
  destruct text as [|c t]; [done|]. cbn [opt_truthy str_truthy from_option id].
  unfold lift. rewrite Hloads, Hiter, Hcomp.
  eexists. split; [reflexivity|]. cbn. repeat split.
  unfold utils_store, deref. cbn.
  by rewrite list_lookup_middle.
Qed.


(** The [try] block of the load raises only before it has changed
    anything. *)
Lemma load_try_raises_early (w w1 : world) (e : exn) :
  load_try w = (Raise e, w1) -> w1 = w.
Proof.
  unfold load_redis_conversation_examples_try, bind, redis_get, lift.
  destruct (redis_reachable (redis_server w)); [|by intros [= _ <-]].
  destruct (opt_truthy _); [|discriminate].
  destruct (json_loads _) as [v|e1]; [|by intros [= _ <-]].
  destruct (py_iter v) as [items|e2]; [|by intros [= _ <-]].
  destruct (comprehension from_dict items) as [examples|e3];
    [|by intros [= _ <-]].
  discriminate.
Qed.

(** Every way the load can fail makes its [try] block raise: Redis out of
    reach, a snapshot that is not JSON, a snapshot that cannot be
    iterated, an element that is not a dictionary with both keys. *)
Lemma load_try_raises_on_failure (w : world) (text : pystr) :
  (redis_reachable (redis_server w) = false ->
   exists e, load_try w = (Raise e, w))
  /\ (redis_reachable (redis_server w) = true ->
      redis_lookup (redis_server w) KEY = Some text ->
      text <> [] ->
      forall e,
        (json_loads text = Raise e
         \/ (exists v, json_loads text = Ok v /\ py_iter v = Raise e)
         \/ (exists v items, json_loads text = Ok v /\ py_iter v = Ok items
                             /\ comprehension from_dict items = Raise e)) ->
        load_try w = (Raise e, w)).
Proof.
  unfold load_redis_conversation_examples_try, bind, redis_get, lift.
  split.
  - intros ->. by eexists.
  - intros -> -> Htext e Hfail.
    destruct text as [|c t]; [done|]. cbn [opt_truthy str_truthy from_option id].
    destruct Hfail as [->|[(v & -> & ->)|(v & items & -> & -> & ->)]];
      reflexivity.
Qed.

(** C10. If the load fails at any point, it returns normally and the
    store is as it was: the same objects with the same contents, under
    the same names. *)
Theorem load_failure_leaves_the_store_unchanged
  (w w1 : world) (e : exn) :
  load_try w = (Raise e, w1) ->
  exists w',
    load w = (Ok tt, w')
    /\ heap w' = heap w
    /\ utils_conversation_examples w' = utils_conversation_examples w
    /\ run_conversation_examples w' = run_conversation_examples w
    /\ utils_store w' = utils_store w
    /\ run_store w' = run_store w.
Proof.
  intros Hfail. pose proof (load_try_raises_early _ _ _ Hfail) as ->.
  unfold load_redis_conversation_examples.
  rewrite (try_except_raise _ _ _ _ _ Hfail).
  by eexists.
Qed.

(** After a load that read a snapshot, the name [run.py] imported still
    refers to the deque that existed before: the handler appends to that
    one, and the save reads the other. *)
Lemma load_leaves_the_imported_name_behind (w : world) (text : pystr)
  (v : pyval) (items : list pyval) (examples : list ConversationExample) :
  world_ok w ->
  redis_reachable (redis_server w) = true ->
  redis_lookup (redis_server w) KEY = Some text ->
  text <> [] ->
  json_loads text = Ok v ->
  py_iter v = Ok items ->
  comprehension from_dict items = Ok examples ->
  exists w',
    load w = (Ok tt, w')
    /\ run_store w' = run_store w
    /\ utils_store w' = deque_of examples 1000
    /\ utils_conversation_examples w' <> run_conversation_examples w'.
Proof.
  intros [_ Hrun] Hup Hget Htext Hloads Hiter Hcomp.
  destruct (load_reads_snapshot w text v items examples)
    as (w' & E & Hh & Hu & Hr & Hstore); try done.
  exists w'. repeat split; try done.
  - unfold run_store, deref. rewrite Hh, Hr. by rewrite lookup_app_l.
  - lia.
Qed.

End Properties.

(** ** The program on examples *)

Lemma example_store_bounded_fifo_witness :
  (forall k, length (dq_items (deque_extend (take k (numbered_examples 1003))
                                 (deque_empty CAPACITY))) <= CAPACITY)
  /\ (length (dq_items (deque_extend (numbered_examples 1003)
                          (deque_empty CAPACITY))) = CAPACITY
      /\ dq_items (deque_extend (numbered_examples 1003) (deque_empty CAPACITY))
         = drop (length (numbered_examples 1003) - CAPACITY)
             (numbered_examples 1003)).
Proof.
  destruct (example_store_bounded_fifo (deque_empty CAPACITY)
              (numbered_examples 1003)) as [Hbound Hfifo].
  - reflexivity.
  - cbn. lia.
  - split; [exact Hbound|]. apply Hfifo.
    unfold numbered_examples. rewrite length_map, length_seq.
    unfold CAPACITY. lia.
Defined.

(** The oldest three of 1003 numbered examples are gone, the rest are
    there from number 3 on. *)
Example store_after_1003_appends :
  map ce_response
    (take 2 (dq_items (deque_extend (numbered_examples 1003)
                         (deque_empty CAPACITY))))
  = [PInt 3; PInt 4].
Proof. vm_compute. reflexivity. Qed.

Lemma sample_request_validates :
  Strict.ChatCompletionRequest_new sample_body = Ok sample_chat_request.
Proof. vm_compute. reflexivity. Qed.

Lemma sample_request_upstream :
  select_upstream sample_request = Ok DEFAULT_UPSTREAM.
Proof. reflexivity. Qed.

Lemma world0_ok : world_ok world0.
Proof. split; cbn; lia. Qed.

Lemma example_is_stored_before_the_stream_is_relayed_witness :
  exists resp w1 w2,
    proxy_chat_completions Json.dumps Strict.ChatCompletionRequest_new
      canned_chatbot STORAGE_KEY sample_request (Ok hi_stream) world0
    = (Ok resp, w1)
    /\ (exists added, trace w1 = trace world0 ++ added
                      /\ Forall (fun ev => ~ is_yield ev) added)
    /\ run_store w1
       = deque_append (stored_example sample_chat_request NO_RESPONSE)
           (run_store world0)
    /\ send_body resp w1
       = (Ok (aiter_bytes hi_stream,
              NO_RESPONSE
              ++ concat (map utf8_decode_replace (aiter_bytes hi_stream))), w2)
    /\ trace w2 = trace w1 ++ map EvYield (aiter_bytes hi_stream)
    /\ run_store w2 = run_store w1.
Proof.
  apply (example_is_stored_before_the_stream_is_relayed
           Json.dumps Strict.ChatCompletionRequest_new canned_chatbot
           STORAGE_KEY sample_request hi_stream DEFAULT_UPSTREAM sample_body
           sample_chat_request world0).
  - reflexivity.
  - reflexivity.
  - vm_compute. reflexivity.
  - reflexivity.
  - split; cbn; lia.
Defined.

(** C1 at a concrete request. The upstream streams ["Hi"] and the stream
    completes; the caller receives ["Hi"]; the one example in the store
    afterwards has the sentinel as its response, which is not the text of
    the stream. *)
Example stored_response_is_not_the_streamed_text :
  let '(r, w') :=
    serve Json.dumps Strict.ChatCompletionRequest_new canned_chatbot
      STORAGE_KEY sample_request (Ok hi_stream) world0 in
  r = Ok ([pyb "Hi"], NO_RESPONSE ++ py "Hi")
  /\ map ce_response (dq_items (run_store w')) = [PStr NO_RESPONSE]
  /\ PStr NO_RESPONSE <> PStr (py "Hi")
  /\ List.filter (fun ev => match ev with EvPrint _ => false | _ => true end)
       (trace w')
     = [EvUpstreamSend (DEFAULT_UPSTREAM ++ py "/chat/completions") sample_body;
        EvChatbot (py "hello") [];
        EvYield (pyb "Hi")].
Proof. vm_compute. repeat split. discriminate. Qed.

Lemma failed_or_empty_upstream_stores_the_sentinel_witness :
  (exists r w' stored,
     serve Json.dumps Strict.ChatCompletionRequest_new canned_chatbot
       STORAGE_KEY sample_request (Raise refused) world0 = (r, w')
     /\ run_store w' = deque_append stored (run_store world0)
     /\ ce_messages stored
        = PList (map message_dict (messages sample_chat_request))
     /\ ce_response stored = PStr NO_RESPONSE
     /\ NO_RESPONSE <> []
     /\ last (dq_items (run_store w')) = Some stored
     /\ dq_items (run_store w') = [stored])
  /\ (exists r w' stored,
        serve Json.dumps Strict.ChatCompletionRequest_new canned_chatbot
          STORAGE_KEY sample_request (Ok empty_stream) world1 = (r, w')
        /\ run_store w' = deque_append stored (run_store world1)
        /\ ce_messages stored
           = PList (map message_dict (messages sample_chat_request))
        /\ ce_response stored = PStr NO_RESPONSE
        /\ NO_RESPONSE <> []
        /\ last (dq_items (run_store w')) = Some stored
        /\ dq_items (run_store w') = [sample_example; stored]).
Proof.
  split.
  - destruct (failed_or_empty_upstream_stores_the_sentinel
                Json.dumps Strict.ChatCompletionRequest_new canned_chatbot
                STORAGE_KEY sample_request (Raise refused) DEFAULT_UPSTREAM
                sample_body sample_chat_request world0)
      as (r & w' & stored & E & Hstore & Hm & Hr & Hne & Hlast & Hroom).
    + reflexivity.
    + reflexivity.
    + vm_compute. reflexivity.
    + split; cbn; lia.
    + left. by exists refused.
    + exists r, w', stored. repeat split; try done.
      * apply Hlast. change (0 < 1000). lia.
      * apply Hroom. change (0 < 1000). lia.
  - destruct (failed_or_empty_upstream_stores_the_sentinel
                Json.dumps Strict.ChatCompletionRequest_new canned_chatbot
                STORAGE_KEY sample_request (Ok empty_stream) DEFAULT_UPSTREAM
                sample_body sample_chat_request world1)
      as (r & w' & stored & E & Hstore & Hm & Hr & Hne & Hlast & Hroom).
    + reflexivity.
    + reflexivity.
    + vm_compute. reflexivity.
    + split; cbn; lia.
    + right. exists empty_stream. repeat split.
    + exists r, w', stored. repeat split; try done.
      * apply Hlast. change (0 < 1000). lia.
      * apply Hroom. change (1 < 1000). lia.
Defined.

(** The failed upstream call at the concrete request: the caller gets a
    500, and the store has the example with the sentinel. *)
Example failed_upstream_at_sample_request :
  let '(r, w') :=
    serve Json.dumps Strict.ChatCompletionRequest_new canned_chatbot
      STORAGE_KEY sample_request (Raise refused) world0 in
  r = Raise (HTTPException 500 (py "All connection attempts failed"))
  /\ dq_items (run_store w') = [sample_example].
Proof. vm_compute. by split. Qed.

Lemma malformed_request_raises_before_any_upstream_call_witness :
  exists e' w',
    serve Json.dumps Strict.ChatCompletionRequest_new canned_chatbot
      STORAGE_KEY malformed_request (Ok hi_stream) world0 = (Raise e', w')
    /\ (exists added, trace w' = trace world0 ++ added
                      /\ Forall (fun ev => ~ is_upstream_send ev) added)
    /\ heap w' = heap world0.
Proof.
  apply (malformed_request_raises_before_any_upstream_call
           Json.dumps Strict.ChatCompletionRequest_new canned_chatbot
           STORAGE_KEY malformed_request (Ok hi_stream)
           (ValidationError (py "field required")) world0).
  right. exists (PDict [(py "model", PInt 5)]). split.
  - reflexivity.
  - vm_compute. reflexivity.
Defined.

(** C9 as stated fails: a request with [?p=] reaches the 400 error. *)
Lemma blank_p_reaches_the_missing_p_error :
  fst (proxy_chat_completions Json.dumps Strict.ChatCompletionRequest_new
         canned_chatbot STORAGE_KEY blank_p_request (Ok hi_stream) world0)
  = Raise (HTTPException 400 (py "Missing proxy 'p' parameter")).
Proof. vm_compute. reflexivity. Qed.

Lemma omitted_p_selects_the_default_upstream_witness :
  (select_upstream sample_request = Ok DEFAULT_UPSTREAM
   /\ forall up,
        proxy_chat_completions Json.dumps Strict.ChatCompletionRequest_new
          canned_chatbot STORAGE_KEY sample_request up
        = forward Json.dumps Strict.ChatCompletionRequest_new canned_chatbot
            STORAGE_KEY DEFAULT_UPSTREAM sample_request up)
  /\ (query_get blank_p_request (py "p") = Some []
      /\ HTTPException 400 (py "Missing proxy 'p' parameter")
         = HTTPException 400 (py "Missing proxy 'p' parameter"))
  /\ (forall up w,
        proxy_chat_completions Json.dumps Strict.ChatCompletionRequest_new
          canned_chatbot STORAGE_KEY blank_p_request up w
        = (Raise (HTTPException 400 (py "Missing proxy 'p' parameter")), w)).
Proof.
  pose proof (omitted_p_selects_the_default_upstream
                Json.dumps Strict.ChatCompletionRequest_new canned_chatbot
                STORAGE_KEY) as (Hdefault & Honly & Hblank).
  split; [|split].
  - apply (Hdefault sample_request). reflexivity.
  - apply (Honly blank_p_request). reflexivity.
  - apply (Hblank blank_p_request). reflexivity.
Defined.


(** The round trip run end to end: save in one process, load in a new
    one. *)
Example save_then_load_in_a_new_process :
  let '(_, w1) :=
    save_redis_conversation_examples Json.dumps STORAGE_KEY world1 in
  redis_lookup (redis_server w1) (STORAGE_KEY ++ py ":conversations")
  = Some sample_snapshot
  /\ let '(r, w3) :=
       load_redis_conversation_examples Json.loads STORAGE_KEY
         (fresh_process (redis_server w1) [] true (py "2025-01-02T00:00:00")) in
     r = Ok tt /\ dq_items (utils_store w3) = [sample_example].
Proof. vm_compute. repeat split. Qed.

(** The same with texts that need escaping, and with an empty store. *)
Example save_then_load_awkward_texts :
  let '(_, w1) :=
    save_redis_conversation_examples Json.dumps STORAGE_KEY (world2 true) in
  let '(r, w3) :=
    load_redis_conversation_examples Json.loads STORAGE_KEY
      (fresh_process (redis_server w1) [] true (py "2025-01-02T00:00:00")) in
  r = Ok tt /\ dq_items (utils_store w3) = [sample_example; awkward_example].
Proof. vm_compute. repeat split. Qed.

Example save_then_load_empty_store :
  let '(_, w1) :=
    save_redis_conversation_examples Json.dumps STORAGE_KEY
      (set_run_redis true world0) in
  redis_lookup (redis_server w1) (STORAGE_KEY ++ py ":conversations")
  = Some (py "[]")
  /\ let '(r, w3) :=
       load_redis_conversation_examples Json.loads STORAGE_KEY
         (fresh_process (redis_server w1) [] true (py "2025-01-02T00:00:00")) in
     r = Ok tt /\ dq_items (utils_store w3) = []
     /\ utils_conversation_examples w3 = 1.
Proof. vm_compute. repeat split. Qed.

Lemma load_failure_leaves_the_store_unchanged_witness :
  exists w',
    load_redis_conversation_examples Json.loads STORAGE_KEY
      world_with_broken_snapshot = (Ok tt, w')
    /\ heap w' = heap world_with_broken_snapshot
    /\ utils_conversation_examples w'
       = utils_conversation_examples world_with_broken_snapshot
    /\ run_conversation_examples w'
       = run_conversation_examples world_with_broken_snapshot
    /\ utils_store w' = utils_store world_with_broken_snapshot
    /\ run_store w' = run_store world_with_broken_snapshot.
Proof.
  apply (load_failure_leaves_the_store_unchanged Json.loads STORAGE_KEY
           world_with_broken_snapshot world_with_broken_snapshot
           (KeyError (py "response"))).
  vm_compute. reflexivity.
Defined.

(** The failed load run end to end: the element without a response makes
    [from_dict] raise, the load prints the error and the store keeps its
    one example. *)
Example load_of_a_broken_snapshot :
  let '(r, w') :=
    load_redis_conversation_examples Json.loads STORAGE_KEY
      world_with_broken_snapshot in
  r = Ok tt
  /\ dq_items (utils_store w') = [sample_example]
  /\ trace w' = [EvPrint (py "Error loading conversation examples: 'response'")].
Proof. vm_compute. repeat split. Qed.

(** After a restart that finds a snapshot, the handler appends to the deque
    [run.py] imported while the save serializes the one the load created:
    the new example is in the first and not in the snapshot. *)
Example example_after_restart_is_not_saved :
  let '(_, w1) :=
    save_redis_conversation_examples Json.dumps STORAGE_KEY world1 in
  let '(_, w2) :=
    on_startup Json.loads STORAGE_KEY
      (fresh_process (redis_server w1) [] true (py "2025-01-02T00:00:00")) in
  let '(_, w3) :=
    serve Json.dumps Strict.ChatCompletionRequest_new canned_chatbot
      STORAGE_KEY sample_request (Ok hi_stream) w2 in
  length (dq_items (run_store w3)) = 1
  /\ length (dq_items (utils_store w3)) = 1
  /\ run_conversation_examples w3 <> utils_conversation_examples w3
  /\ redis_lookup (redis_server w3) (STORAGE_KEY ++ py ":conversations")
     = Some sample_snapshot.
Proof. vm_compute. repeat split. discriminate. Qed.

(** A load with Redis out of reach: the fetch raises, the load prints the
    error and the store keeps its two examples. *)
Example load_with_redis_out_of_reach :
  let '(r, w') :=
    load_redis_conversation_examples Json.loads STORAGE_KEY (world2 false) in
  r = Ok tt
  /\ dq_items (utils_store w') = [sample_example; awkward_example]
  /\ trace w'
     = [EvPrint (py "Error loading conversation examples: Error connecting to Redis")].
Proof. vm_compute. repeat split. Qed.

(** * Further properties *)

(** ** Steps of the world *)

Lemma observable_app (t1 t2 : list event) :
  observable (t1 ++ t2) = observable t1 ++ observable t2.
Proof. unfold observable. apply List.filter_app. Qed.

Lemma observable_yields (chunks : list bytes) :
  observable (map EvYield chunks) = map EvYield chunks.
Proof. induction chunks as [|c r IH]; [done|]. cbn. by rewrite <- IH at 2. Qed.

Lemma steps_refl (w : world) : steps id id [] 0 w w.
Proof.
  split; try done.
  - exists []. by rewrite app_nil_r.
  - exists []. rewrite app_nil_r. repeat split; [cbn; lia | constructor].
Qed.

Lemma steps_trans (f1 f2 : list deque -> list deque)
  (g1 g2 : redis_service -> redis_service) (o1 o2 : list event) (n1 n2 : nat)
  (w w1 w2 : world) :
  steps f1 g1 o1 n1 w w1 -> steps f2 g2 o2 n2 w1 w2 ->
  steps (fun h => f2 (f1 h)) (fun s => g2 (g1 s)) (o1 ++ o2) (n1 + n2) w w2.
Proof.
  intros [Hh Hs Hu Hr Hc Hw Hk (a1 & Ht1 & Ho1) (l1 & Hl1 & Hn1 & Hf1)]
         [Hh' Hs' Hu' Hr' Hc' Hw' Hk' (a2 & Ht2 & Ho2) (l2 & Hl2 & Hn2 & Hf2)].
  split; try congruence.
  - exists (a1 ++ a2). split.
    + rewrite Ht2, Ht1. by rewrite app_assoc.
    + rewrite observable_app. congruence.
  - exists (l1 ++ l2). repeat split.
    + rewrite Hl2, Hl1. by rewrite app_assoc.
    + rewrite length_app. lia.
    + by apply Forall_app.
Qed.

Lemma steps_ext (f f' : list deque -> list deque)
  (g g' : redis_service -> redis_service) (obs obs' : list event) (n n' : nat)
  (w w' : world) :
  f (heap w) = f' (heap w) -> g (redis_server w) = g' (redis_server w) ->
  obs = obs' -> n <= n' ->
  steps f g obs n w w' -> steps f' g' obs' n' w w'.
Proof.
  intros Hf Hg <- Hn [Hh Hs Hu Hr Hc Hw Hk Ht (l & Hl & Hlen & Hnl)].
  split; try congruence.
  exists l. repeat split; [done | lia | done].
Qed.

Lemma emit_steps (ev : event) (w : world) :
  steps id id (observable [ev]) 0 w (set_trace (trace w ++ [ev]) w).
Proof.
  split; try done.
  - by exists [ev].
  - exists []. cbn. rewrite app_nil_r. repeat split; [lia | constructor].
Qed.

Lemma print_steps (text : pystr) (w : world) :
  exists w', print text w = (Ok tt, w') /\ steps id id [] 0 w w'.
Proof. eexists. split; [reflexivity|]. apply (emit_steps (EvPrint text)). Qed.

Lemma heap_append_length (l : nat) (x : ConversationExample) (h : list deque) :
  length (heap_append l x h) = length h.
Proof. unfold heap_append. apply length_insert. Qed.

Lemma heap_append_lookup_ne (l l' : nat) (x : ConversationExample)
  (h : list deque) :
  l <> l' -> heap_append l x h !! l' = h !! l'.
Proof. intros Hne. unfold heap_append. by apply list_lookup_insert_ne. Qed.

Lemma heap_append_lookup_eq (l : nat) (x : ConversationExample)
  (h : list deque) :
  l < length h ->
  heap_append l x h !! l
  = Some (deque_append x (default (deque_empty CAPACITY) (h !! l))).
Proof. intros Hl. unfold heap_append. by apply list_lookup_insert_eq. Qed.

Lemma redis_lookup_store_ne (srv : redis_service) (key key' value : pystr) :
  key <> key' ->
  redis_lookup (redis_store srv key value) key' = redis_lookup srv key'.
Proof.
  intros Hne. unfold redis_lookup, redis_store. cbn.
  by apply lookup_insert_ne.
Qed.

Lemma snapshot_of_heap_append_eq (l : nat) (x : ConversationExample)
  (h : list deque) :
  l < length h ->
  snapshot_of (heap_append l x h) l
  = PList (map to_dict
             (dq_items (deque_append x (default (deque_empty CAPACITY) (h !! l))))).
Proof.
  intros Hl. unfold snapshot_of. by rewrite heap_append_lookup_eq.
Qed.

Lemma snapshot_of_heap_append_ne (l l' : nat) (x : ConversationExample)
  (h : list deque) :
  l <> l' -> snapshot_of (heap_append l x h) l' = snapshot_of h l'.
Proof.
  intros Hne. unfold snapshot_of. by rewrite heap_append_lookup_ne.
Qed.

Section MoreProperties.

Set Default Proof Using "Type".

Variable json_dumps : pyval -> result pystr.
Variable json_loads : pystr -> result pyval.
Variable ChatCompletionRequest_new : pyval -> result ChatCompletionRequest.
Variable shaggoth_chatbot : pystr -> list (pystr * pystr) -> result pystr.
Variable EXAMPLE_STORAGE_KEY : pystr.

Local Abbreviation KEY := (EXAMPLE_STORAGE_KEY ++ py ":conversations").
Local Abbreviation save :=
  (save_redis_conversation_examples json_dumps EXAMPLE_STORAGE_KEY).
Local Abbreviation load :=
  (load_redis_conversation_examples json_loads EXAMPLE_STORAGE_KEY).
Local Abbreviation handler :=
  (proxy_chat_completions json_dumps ChatCompletionRequest_new
     shaggoth_chatbot EXAMPLE_STORAGE_KEY).
Local Abbreviation forward_to :=
  (forward json_dumps ChatCompletionRequest_new shaggoth_chatbot
     EXAMPLE_STORAGE_KEY).
Local Abbreviation serve_request :=
  (serve json_dumps ChatCompletionRequest_new shaggoth_chatbot
     EXAMPLE_STORAGE_KEY).
Local Abbreviation saved := (save_effect json_dumps EXAMPLE_STORAGE_KEY).

(** The reply [generate_chatbot_response] gives: the collaborator's, or a
    text made from its error. *)
Local Abbreviation reply_of cm mh :=
  (match shaggoth_chatbot cm (fastapi_messages_to_dspy_history mh) with
   | Ok r => r
   | Raise e => py "Error generating response: " ++ exn_str e
   end).

Lemma write_jsonl_line_steps (data : pyval) (w : world) :
  exists w', write_jsonl_line json_dumps data w = (Ok tt, w')
             /\ steps id id [] 1 w w'.
Proof.
  unfold write_jsonl_line, try_except.
  destruct (logfile_writable w).
  - destruct (json_dumps data) as [line|e].
    + eexists. split; [reflexivity|]. split; try done.
      * exists []. by rewrite app_nil_r.
      * exists [line ++ NL]. repeat split; [cbn; lia|].
        constructor; [by exists line | constructor].
    + destruct (print_steps (py "[ERROR] Failed to write log line: "
                             ++ exn_str e) w) as (w' & E & H).
      exists w'. split; [exact E|].
      eapply steps_ext; [| | | |exact H]; try done. lia.
  - destruct (print_steps (py "[ERROR] Failed to write log line: "
                           ++ exn_str (OSError (py "cannot open log file"))) w)
      as (w' & E & H).
    exists w'. split; [exact E|].
    eapply steps_ext; [| | | |exact H]; try done. lia.
Qed.

Lemma write_record_steps (kind : pystr) (data : pyval) (w : world) :
  exists w', write_record json_dumps kind data w = (Ok tt, w')
             /\ steps id id [] 1 w w'.
Proof. unfold write_record, bind, get_world. apply write_jsonl_line_steps. Qed.

Lemma log_comprehensive_data_steps (cr : ChatCompletionRequest)
  (fr cm : pystr) (mh : list Message) (sr : option pystr) (err : option exn)
  (w : world) :
  exists w', log_comprehensive_data json_dumps cr fr cm mh sr err w = (Ok tt, w')
             /\ steps id id [] 1 w w'.
Proof.
  unfold log_comprehensive_data, bind, get_world. apply write_jsonl_line_steps.
Qed.

Lemma generate_chatbot_response_steps (cm : pystr) (mh : list Message)
  (w : world) :
  exists w',
    generate_chatbot_response shaggoth_chatbot cm mh w
    = (Ok (reply_of cm mh), w')
    /\ steps id id [EvChatbot cm (fastapi_messages_to_dspy_history mh)] 0 w w'.
Proof.
  unfold generate_chatbot_response, try_except, bind, lift, emit, print, ret.
  destruct (shaggoth_chatbot cm _) as [r|e].
  - eexists. split; [reflexivity|]. apply (emit_steps (EvChatbot _ _)).
  - eexists. split; [reflexivity|].
    eapply steps_ext;
      [| | | |exact (steps_trans _ _ _ _ _ _ _ _ _ _ _
                       (emit_steps (EvChatbot _ _) w)
                       (emit_steps (EvPrint _) _))]; try done.
Qed.

Lemma save_steps (w : world) :
  exists w', save w = (Ok tt, w')
             /\ steps id (saved (heap w) (utils_conversation_examples w)) [] 0 w w'.
Proof.
  unfold save_redis_conversation_examples, try_except, bind, get_world, lift,
    redis_set.
  change (PList (map to_dict (dq_items (utils_store w))))
    with (snapshot_of (heap w) (utils_conversation_examples w)).
  destruct (json_dumps _) as [text|e] eqn:Hdumps.
  - destruct (redis_reachable (redis_server w)) eqn:Hup.
    + eexists. split; [reflexivity|]. split; try done.
      * cbn. unfold save_effect. by rewrite Hup, Hdumps.
      * eexists. split; [reflexivity|]. reflexivity.
      * exists []. cbn. rewrite app_nil_r. repeat split; [lia | constructor].
    + destruct (print_steps (py "Error saving conversation examples: "
                  ++ exn_str (ConnectionError (py "Error connecting to Redis"))) w)
        as (w' & E & H).
      exists w'. split; [exact E|].
      eapply steps_ext; [| | | |exact H]; try done.
      unfold save_effect. by rewrite Hup.
  - destruct (print_steps (py "Error saving conversation examples: "
                           ++ exn_str e) w) as (w' & E & H).
    exists w'. split; [exact E|].
    eapply steps_ext; [| | | |exact H]; try done.
    unfold save_effect. rewrite Hdumps. by destruct (redis_reachable _).
Qed.

Lemma run_append_steps (x : ConversationExample) (w : world) :
  exists w', run_conversation_examples_append x w = (Ok tt, w')
             /\ steps (heap_append (run_conversation_examples w) x) id [] 0 w w'.
Proof.
  eexists. split; [reflexivity|]. split; try done.
  - exists []. by rewrite app_nil_r.
  - exists []. cbn. rewrite app_nil_r. repeat split; [lia | constructor].
Qed.

(** The [finally] block, step by step: one log record, the append, the
    collaborator, the save when there is a Redis client, one more log
    record. *)
Lemma finally_block_steps (cr : ChatCompletionRequest) (cm : pystr)
  (mh : list Message) (fr : pystr) (pe : option exn) (w : world) :
  let fr' := if negb (str_truthy (py_strip fr)) then NO_RESPONSE else fr in
  let l := run_conversation_examples w in
  let x := stored_example cr fr' in
  exists w',
    finally_block json_dumps shaggoth_chatbot EXAMPLE_STORAGE_KEY
      cr cm mh fr pe w = (Ok fr', w')
    /\ steps (heap_append l x)
         (fun srv =>
            if run_redis w
            then saved (heap_append l x (heap w))
                   (utils_conversation_examples w) srv
            else srv)
         [EvChatbot cm (fastapi_messages_to_dspy_history mh)] 2 w w'.
Proof.
  intros fr' l x. unfold finally_block. fold fr'.
  destruct (write_record_steps (py "response") (PStr fr') w) as (w1 & E1 & H1).
  rewrite (bind_ok _ _ _ _ _ E1).
  destruct (run_append_steps x w1) as (w2 & E2 & H2).
  unfold x, stored_example in E2.
  rewrite (bind_ok _ _ _ w2 pe)
    by (apply try_except_ok; by rewrite (bind_ok _ _ _ _ _ E2)).
  destruct (generate_chatbot_response_steps cm mh w2) as (w3 & E3 & H3).
  destruct (print_steps (py "[ShaggothRL] Generated: "
                         ++ py_prefix 100 (reply_of cm mh) ++ py "...") w3)
    as (w4 & E4 & H4).
  rewrite (bind_ok _ _ _ w4 (Some (reply_of cm mh), pe))
    by (apply try_except_ok; rewrite (bind_ok _ _ _ _ _ E3);
        by rewrite (bind_ok _ _ _ _ _ E4)).
  unfold get_world at 1. unfold bind at 1.
  assert (exists w5,
    (if run_redis w4
     then try_except
            (run save then ret pe)
            (fun e =>
               run print (py "[ERROR] Failed to save conversation examples: "
                          ++ exn_str e) then ret (Some e))
     else ret pe) w4 = (Ok pe, w5)
    /\ steps id
         (fun srv => if run_redis w4
                     then saved (heap w4) (utils_conversation_examples w4) srv
                     else srv) [] 0 w4 w5) as (w5 & E5 & H5).
  { destruct (run_redis w4).
    - destruct (save_steps w4) as (w5 & E5 & H5). exists w5. split; [|done].
      apply try_except_ok. by rewrite (bind_ok _ _ _ _ _ E5).
    - exists w4. split; [reflexivity | apply steps_refl]. }
  rewrite (bind_ok _ _ _ _ _ E5).
  destruct (log_comprehensive_data_steps cr fr' cm mh (Some (reply_of cm mh))
              pe w5) as (w6 & E6 & H6).
  rewrite (bind_ok _ _ _ _ _ E6).
  exists w6. split; [reflexivity|].
  pose proof (steps_trans _ _ _ _ _ _ _ _ _ _ _ H1 H2) as H12.
  pose proof (steps_trans _ _ _ _ _ _ _ _ _ _ _ H12 H3) as H13.
  pose proof (steps_trans _ _ _ _ _ _ _ _ _ _ _ H13 H4) as H14.
  pose proof (steps_trans _ _ _ _ _ _ _ _ _ _ _
                (steps_trans _ _ _ _ _ _ _ _ _ _ _ H14 H5) H6) as H.
  eapply steps_ext; [| | | |exact H]; cbn.
  - unfold l. by rewrite (st_run _ _ _ _ _ _ H1).
  - rewrite (st_run_redis _ _ _ _ _ _ H14), (st_utils _ _ _ _ _ _ H14),
      (st_heap _ _ _ _ _ _ H14). cbn.
    unfold l. by rewrite (st_run _ _ _ _ _ _ H1).
  - reflexivity.
  - lia.
Qed.

(** [forward] on a request that validates, step by step. *)
Lemma forward_steps (url : pystr) (request : Request)
  (up : result upstream_stream) (body : pyval) (cr : ChatCompletionRequest)
  (w : world) :
  request_json request = Ok body ->
  ChatCompletionRequest_new body = Ok cr ->
  let l := run_conversation_examples w in
  let x := stored_example cr NO_RESPONSE in
  let cm := fst (extract_current_message_and_history (messages cr)) in
  let mh := snd (extract_current_message_and_history (messages cr)) in
  exists w',
    forward_to url request up w
    = (match up with
       | Ok stream => Ok {| full_response_cell := NO_RESPONSE;
                            upstream_response := stream |}
       | Raise e => Raise (HTTPException 500 (exn_str e))
       end, w')
    /\ steps (heap_append l x)
         (fun srv =>
            if run_redis w
            then saved (heap_append l x (heap w))
                   (utils_conversation_examples w) srv
            else srv)
         [EvUpstreamSend (url ++ py "/chat/completions") body;
          EvChatbot cm (fastapi_messages_to_dspy_history mh)]
         (match up with Ok _ => 3 | Raise _ => 5 end) w w'.
Proof.
  intros Hbody Hcr l x cm mh. unfold forward.
  destruct (print_steps (py "upstream_url  " ++ url) w) as (w1 & E1 & H1).
  rewrite (bind_ok _ _ _ _ _ E1).
  rewrite Hbody. unfold lift at 1. unfold bind at 1.
  rewrite Hcr. unfold lift at 1. unfold bind at 1.
  subst cm mh.
  destruct (extract_current_message_and_history (messages cr)) as [cm mh].
  cbn [fst snd].
  destruct (write_record_steps (py "request") body w1) as (w2 & E2 & H2).
  rewrite (bind_ok _ _ _ _ _ E2).
  pose proof (steps_trans _ _ _ _ _ _ _ _ _ _ _ H1 H2) as H12.
  set (w3 := set_trace (trace w2 ++ [EvUpstreamSend (url ++ py "/chat/completions") body]) w2).
  pose proof (emit_steps (EvUpstreamSend (url ++ py "/chat/completions") body) w2)
    as H3. fold w3 in H3.
  pose proof (steps_trans _ _ _ _ _ _ _ _ _ _ _ H12 H3) as H13.
  destruct up as [stream|e].
  - change (try_block url body (Ok stream) w2) with (Ok stream, w3).
    destruct (finally_block_steps cr cm mh [] None w3) as (w4 & E4 & H4).
    cbn in E4. rewrite E4. cbn [result_bind].
    exists w4. split; [reflexivity|].
    pose proof (steps_trans _ _ _ _ _ _ _ _ _ _ _ H13 H4) as H.
    pose proof (st_run _ _ _ _ _ _ H13) as Hr.
    pose proof (st_run_redis _ _ _ _ _ _ H13) as Hc.
    pose proof (st_utils _ _ _ _ _ _ H13) as Hu.
    pose proof (st_heap _ _ _ _ _ _ H13) as Hh.
    cbn in Hr, Hc, Hu, Hh.
    eapply steps_ext; [| | | |exact H]; cbn.
    + by rewrite Hr.
    + by rewrite Hc, Hu, Hh, Hr.
    + reflexivity.
    + lia.
  - change (try_block url body (Raise e) w2) with (@Raise upstream_stream e, w3).
    unfold except_block. cbn [str_truthy].
    destruct (write_record_steps (py "error") (PStr (exn_str e)) w3)
      as (w4 & E4 & H4).
    rewrite (bind_ok _ _ _ _ _ E4).
    destruct (log_comprehensive_data_steps cr
                (py "[Error: No response received]") cm mh None (Some e) w4)
      as (w5 & E5 & H5).
    rewrite (bind_ok _ _ _ _ _ E5). unfold raise.
    destruct (finally_block_steps cr cm mh [] (Some e) w5) as (w6 & E6 & H6).
    cbn in E6. rewrite E6. cbn [result_bind].
    exists w6. split; [reflexivity|].
    pose proof (steps_trans _ _ _ _ _ _ _ _ _ _ _
                  (steps_trans _ _ _ _ _ _ _ _ _ _ _ H13 H4) H5) as H15.
    pose proof (steps_trans _ _ _ _ _ _ _ _ _ _ _ H15 H6) as H.
    pose proof (st_run _ _ _ _ _ _ H15) as Hr.
    pose proof (st_run_redis _ _ _ _ _ _ H15) as Hc.
    pose proof (st_utils _ _ _ _ _ _ H15) as Hu.
    pose proof (st_heap _ _ _ _ _ _ H15) as Hh.
    cbn in Hr, Hc, Hu, Hh.
    eapply steps_ext; [| | | |exact H]; cbn.
    + by rewrite Hr.
    + by rewrite Hc, Hu, Hh, Hr.
    + reflexivity.
    + lia.
Qed.

Lemma emit_all_yields_steps (chunks : list bytes) (w : world) :
  exists w', emit_all (map EvYield chunks) w = (Ok tt, w')
             /\ steps id id (map EvYield chunks) 0 w w'.
Proof.
  revert w. induction chunks as [|c r IH]; intros w.
  - exists w. split; [reflexivity | apply steps_refl].
  - cbn [map emit_all]. unfold bind at 1. unfold emit at 1.
    destruct (IH (set_trace (trace w ++ [EvYield c]) w)) as (w' & E & H).
    exists w'. split; [exact E|].
    eapply steps_ext;
      [| | | |exact (steps_trans _ _ _ _ _ _ _ _ _ _ _
                       (emit_steps (EvYield c) w) H)]; done.
Qed.

Lemma send_body_steps (resp : StreamingResponse) (w : world) :
  exists w',
    send_body resp w
    = (match aiter_fault (upstream_response resp) with
       | Some e => Raise e
       | None =>
         Ok (aiter_bytes (upstream_response resp),
             full_response_cell resp
             ++ concat (map utf8_decode_replace
                          (aiter_bytes (upstream_response resp))))
       end, w')
    /\ steps id id (map EvYield (aiter_bytes (upstream_response resp))) 0 w w'.
Proof.
  unfold send_body.
  pose proof (generate_stream_yields (full_response_cell resp)
                (aiter_bytes (upstream_response resp))) as Hy.
  pose proof (generate_stream_accumulates (full_response_cell resp)
                (aiter_bytes (upstream_response resp))) as Ha.
  destruct (generate_stream _ _) as [yielded final]. cbn in Hy, Ha. subst.
  destruct (emit_all_yields_steps (aiter_bytes (upstream_response resp)) w)
    as (w' & E & H).
  exists w'. rewrite (bind_ok _ _ _ _ _ E).
  split; [|done]. by destruct (aiter_fault _).
Qed.

(** One request that validates, from arrival to the end of the response
    body, step by step. *)
Lemma serve_steps (request : Request) (up : result upstream_stream)
  (url : pystr) (body : pyval) (cr : ChatCompletionRequest) (w : world) :
  select_upstream request = Ok url ->
  request_json request = Ok body ->
  ChatCompletionRequest_new body = Ok cr ->
  let l := run_conversation_examples w in
  let x := stored_example cr NO_RESPONSE in
  let cm := fst (extract_current_message_and_history (messages cr)) in
  let mh := snd (extract_current_message_and_history (messages cr)) in
  exists w',
    serve_request request up w
    = (match up with
       | Raise e => Raise (HTTPException 500 (exn_str e))
       | Ok stream =>
         match aiter_fault stream with
         | Some e => Raise e
         | None =>
           Ok (aiter_bytes stream,
               NO_RESPONSE
               ++ concat (map utf8_decode_replace (aiter_bytes stream)))
         end
       end, w')
    /\ steps (heap_append l x)
         (fun srv =>
            if run_redis w
            then saved (heap_append l x (heap w))
                   (utils_conversation_examples w) srv
            else srv)
         ([EvUpstreamSend (url ++ py "/chat/completions") body;
           EvChatbot cm (fastapi_messages_to_dspy_history mh)]
          ++ match up with
             | Ok stream => map EvYield (aiter_bytes stream)
             | Raise _ => []
             end)
         (match up with Ok _ => 3 | Raise _ => 5 end) w w'.
Proof.
  intros Hurl Hbody Hcr l x cm mh.
  unfold serve, proxy_chat_completions. rewrite Hurl.
  unfold lift at 1. unfold bind at 2.
  destruct (forward_steps url request up body cr w Hbody Hcr) as (w1 & E1 & H1).
  destruct up as [stream|e].
  - rewrite (bind_ok _ _ _ _ _ E1).
    destruct (send_body_steps {| full_response_cell := NO_RESPONSE;
                                 upstream_response := stream |} w1)
      as (w2 & E2 & H2).
    cbn [upstream_response full_response_cell] in E2, H2.
    exists w2. split; [exact E2|].
    eapply steps_ext;
      [| | | |exact (steps_trans _ _ _ _ _ _ _ _ _ _ _ H1 H2)]; done.
  - rewrite (bind_raise _ _ _ _ _ E1). exists w1. split; [reflexivity|].
    eapply steps_ext; [| | | |exact H1]; try done.
Qed.

(** A request that is refused, step by step: at most one print. *)
Lemma refused_request_steps (request : Request) (up : result upstream_stream)
  (e : exn) (w : world) :
  (request_json request = Raise e
   \/ exists body, request_json request = Ok body
                   /\ ChatCompletionRequest_new body = Raise e) ->
  exists e' w',
    serve_request request up w = (Raise e', w') /\ steps id id [] 0 w w'.
Proof.
  intros Hbad. unfold serve, proxy_chat_completions.
  destruct (select_upstream request) as [url|e400].
  - unfold lift at 1. unfold bind at 2. unfold forward.
    destruct (print_steps (py "upstream_url  " ++ url) w) as (w1 & E1 & H1).
    exists e, w1. split; [|exact H1].
    apply bind_raise. rewrite (bind_ok _ _ _ _ _ E1).
    destruct Hbad as [Hjson|(body & Hjson & Hcr)].
    + rewrite Hjson. reflexivity.
    + rewrite Hjson. unfold lift at 1. unfold bind at 1.
      rewrite Hcr. reflexivity.
  - exists e400, w. split; [reflexivity | apply steps_refl].
Qed.

Lemma saved_other_keys (h : list deque) (l : nat) (srv : redis_service)
  (k : pystr) :
  k <> KEY ->
  redis_lookup (saved h l srv) k = redis_lookup srv k.
Proof.
  intros Hk. unfold save_effect.
  destruct (redis_reachable srv); [|done].
  destruct (json_dumps _); [|done].
  by apply redis_lookup_store_ne.
Qed.

Lemma saved_reachable (h : list deque) (l : nat) (srv : redis_service) :
  redis_reachable (saved h l srv) = redis_reachable srv.
Proof.
  unfold save_effect.
  destruct (redis_reachable srv) eqn:E; [|done].
  by destruct (json_dumps _).
Qed.

(** *** One request, seen from outside *)

(** X3. A request that validates ends in one of three ways: a 500 carrying
    the upstream error when the call failed, the transport fault when the
    stream broke, or the chunks of the stream. In each case, leaving prints
    aside, what the process did is: one upstream call, to the base URL
    followed by [/chat/completions] with the body exactly as received; then
    one call of the collaborator, with the content of the last message and
    the user/assistant pairs among the messages before it; then the chunks
    sent to the caller. *)
Theorem valid_request_outcome_and_effects
  (request : Request) (up : result upstream_stream) (url : pystr)
  (body : pyval) (cr : ChatCompletionRequest) (w : world) :
  select_upstream request = Ok url ->
  request_json request = Ok body ->
  ChatCompletionRequest_new body = Ok cr ->
  exists w' added,
    serve_request request up w
    = (match up with
       | Raise e => Raise (HTTPException 500 (exn_str e))
       | Ok stream =>
         match aiter_fault stream with
         | Some e => Raise e
         | None =>
           Ok (aiter_bytes stream,
               NO_RESPONSE
               ++ concat (map utf8_decode_replace (aiter_bytes stream)))
         end
       end, w')
    /\ trace w' = trace w ++ added
    /\ observable added
       = [EvUpstreamSend (url ++ py "/chat/completions") body;
          EvChatbot
            (fst (extract_current_message_and_history (messages cr)))
            (fastapi_messages_to_dspy_history
               (snd (extract_current_message_and_history (messages cr))))]
         ++ match up with
            | Ok stream => map EvYield (aiter_bytes stream)
            | Raise _ => []
            end.
Proof.
  intros Hurl Hbody Hcr.
  destruct (serve_steps request up url body cr w Hurl Hbody Hcr)
    as (w' & E & H).
  destruct (st_trace _ _ _ _ _ _ H) as (added & Ht & Ho).
  by exists w', added.
Qed.

(** X4. The JSONL log only grows while a request that validates is
    handled: the lines it had stay as they were, at most three are added
    (five when the upstream call failed, where the comprehensive record is
    written in the [except] block and again in the [finally] block), and
    each added line ends with a newline. *)
Theorem audit_log_only_grows
  (request : Request) (up : result upstream_stream) (url : pystr)
  (body : pyval) (cr : ChatCompletionRequest) (w : world) :
  select_upstream request = Ok url ->
  request_json request = Ok body ->
  ChatCompletionRequest_new body = Ok cr ->
  exists lines,
    logfile (snd (serve_request request up w)) = logfile w ++ lines
    /\ length lines <= match up with Ok _ => 3 | Raise _ => 5 end
    /\ Forall ends_with_newline lines.
Proof.
  intros Hurl Hbody Hcr.
  destruct (serve_steps request up url body cr w Hurl Hbody Hcr)
    as (w' & E & H).
  rewrite E. exact (st_log _ _ _ _ _ _ H).
Qed.

(** X5. Handling a request that validates leaves every Redis key other
    than the snapshot key as it was, and without a Redis client
    ([run.redis] is [None]) it leaves the service alone altogether. *)
Theorem handler_writes_only_its_redis_key
  (request : Request) (up : result upstream_stream) (url : pystr)
  (body : pyval) (cr : ChatCompletionRequest) (w : world) :
  select_upstream request = Ok url ->
  request_json request = Ok body ->
  ChatCompletionRequest_new body = Ok cr ->
  let w' := snd (serve_request request up w) in
  (forall k, k <> KEY ->
             redis_lookup (redis_server w') k = redis_lookup (redis_server w) k)
  /\ (run_redis w = false -> redis_server w' = redis_server w).
Proof.
  intros Hurl Hbody Hcr.
  destruct (serve_steps request up url body cr w Hurl Hbody Hcr)
    as (w' & E & H).
  rewrite E. cbn [snd]. rewrite (st_redis _ _ _ _ _ _ H). split.
  - intros k Hk. destruct (run_redis w); [|done]. by apply saved_other_keys.
  - by intros ->.
Qed.

(** X6. A request that is refused (its body is not JSON or does not
    validate) leaves nothing behind: no log record, no example, no change
    in Redis; the process has only printed. *)
Theorem refused_request_leaves_nothing_behind
  (request : Request) (up : result upstream_stream) (e : exn) (w : world) :
  (request_json request = Raise e
   \/ exists body, request_json request = Ok body
                   /\ ChatCompletionRequest_new body = Raise e) ->
  let w' := snd (serve_request request up w) in
  logfile w' = logfile w
  /\ heap w' = heap w
  /\ redis_server w' = redis_server w
  /\ exists printed, trace w' = trace w ++ printed /\ observable printed = [].
Proof.
  intros Hbad.
  destruct (refused_request_steps request up e w Hbad) as (e' & w' & E & H).
  rewrite E. cbn [snd].
  destruct (st_log _ _ _ _ _ _ H) as (lines & Hl & Hn & _).
  destruct lines; [|cbn in Hn; lia]. rewrite app_nil_r in Hl.
  repeat split; try done; apply H.
Qed.

(** X7. In a process where both modules still name the same deque (no
    snapshot was loaded), a request that validates leaves under the
    snapshot key the serialization of the store with that request's example
    appended, when there is a client, Redis is in reach and [json.dumps]
    succeeds. *)
Theorem example_is_saved_when_both_names_share_the_store
  (request : Request) (up : result upstream_stream) (url : pystr)
  (body : pyval) (cr : ChatCompletionRequest) (w : world) (text : pystr) :
  select_upstream request = Ok url ->
  request_json request = Ok body ->
  ChatCompletionRequest_new body = Ok cr ->
  world_ok w ->
  utils_conversation_examples w = run_conversation_examples w ->
  run_redis w = true ->
  redis_reachable (redis_server w) = true ->
  json_dumps
    (PList (map to_dict
              (dq_items (deque_append (stored_example cr NO_RESPONSE)
                           (run_store w))))) = Ok text ->
  redis_lookup (redis_server (snd (serve_request request up w))) KEY
  = Some text.
Proof.
  intros Hurl Hbody Hcr [_ Hrun] Hsame Hclient Hup Hdumps.
  destruct (serve_steps request up url body cr w Hurl Hbody Hcr)
    as (w' & E & H).
  rewrite E. cbn [snd]. rewrite (st_redis _ _ _ _ _ _ H), Hclient, Hsame.
  unfold save_effect. rewrite Hup.
  rewrite snapshot_of_heap_append_eq by done.
  unfold run_store, deref in Hdumps. rewrite Hdumps.
  apply redis_lookup_store.
Qed.

(** X8. In a process where the two names differ (a snapshot was loaded at
    startup), a request that validates appends its example to the deque
    [run.py] names, where it is the last item afterwards, and saves the
    other one: the snapshot written is that of the store as loaded,
    without the new example. *)
Theorem example_is_not_saved_after_a_snapshot_was_loaded
  (request : Request) (up : result upstream_stream) (url : pystr)
  (body : pyval) (cr : ChatCompletionRequest) (w : world) (text : pystr) :
  select_upstream request = Ok url ->
  request_json request = Ok body ->
  ChatCompletionRequest_new body = Ok cr ->
  world_ok w ->
  utils_conversation_examples w <> run_conversation_examples w ->
  run_redis w = true ->
  redis_reachable (redis_server w) = true ->
  json_dumps (PList (map to_dict (dq_items (utils_store w)))) = Ok text ->
  let w' := snd (serve_request request up w) in
  run_store w' = deque_append (stored_example cr NO_RESPONSE) (run_store w)
  /\ utils_store w' = utils_store w
  /\ redis_lookup (redis_server w') KEY = Some text
  /\ (0 < dq_maxlen (run_store w) ->
      last (dq_items (run_store w')) = Some (stored_example cr NO_RESPONSE)).
Proof.
  intros Hurl Hbody Hcr [_ Hrun] Hdiff Hclient Hup Hdumps.
  destruct (serve_steps request up url body cr w Hurl Hbody Hcr)
    as (w' & E & H).
  rewrite E. cbn [snd].
  assert (Hstore : run_store w'
            = deque_append (stored_example cr NO_RESPONSE) (run_store w)).
  { unfold run_store. rewrite (st_run _ _ _ _ _ _ H).
    apply heap_append_deref; [done | apply H]. }
  split; [exact Hstore|]. split; [|split].
  - unfold utils_store, deref.
    rewrite (st_utils _ _ _ _ _ _ H), (st_heap _ _ _ _ _ _ H).
    by rewrite heap_append_lookup_ne.
  - rewrite (st_redis _ _ _ _ _ _ H), Hclient.
    unfold save_effect. rewrite Hup.
    rewrite snapshot_of_heap_append_ne by done.
    unfold utils_store, deref in Hdumps. unfold snapshot_of. rewrite Hdumps.
    apply redis_lookup_store.
  - intros Hpos. rewrite Hstore. by apply deque_append_last.
Qed.

(** *** Requests one after the other *)

(** What it takes for the handler to reach its [try] block: the upstream
    is chosen, the body is JSON and validates as [cr]. *)
Local Abbreviation valid_as ru cr :=
  ((exists url, select_upstream (fst ru) = Ok url)
   /\ exists body, request_json (fst ru) = Ok body
                   /\ ChatCompletionRequest_new body = Ok cr).

Lemma serve_valid_world (request : Request) (up : result upstream_stream)
  (cr : ChatCompletionRequest) (w : world) :
  valid_as (request, up) cr ->
  world_ok w ->
  let w' := snd (serve_request request up w) in
  world_ok w'
  /\ run_store w' = deque_append (stored_example cr NO_RESPONSE) (run_store w).
Proof.
  intros [(url & Hurl) (body & Hbody & Hcr)] [Hu Hr]. cbn [fst] in *.
  destruct (serve_steps request up url body cr w Hurl Hbody Hcr)
    as (w' & E & H).
  rewrite E. cbn [snd]. split.
  - unfold world_ok.
    rewrite (st_utils _ _ _ _ _ _ H), (st_run _ _ _ _ _ _ H),
      (st_heap _ _ _ _ _ _ H), heap_append_length. by split.
  - unfold run_store. rewrite (st_run _ _ _ _ _ _ H).
    apply heap_append_deref; [done | apply H].
Qed.

(** X9. Requests that validate, handled one after the other, append their
    examples to the store in the order they were handled; so once more than
    1000 have been handled the store holds the examples of the last 1000,
    oldest first. *)
Theorem requests_append_their_examples_in_order
  (requests : list (Request * result upstream_stream))
  (crs : list ChatCompletionRequest) (w : world) :
  Forall2 (fun ru cr => valid_as ru cr) requests crs ->
  world_ok w ->
  dq_maxlen (run_store w) = CAPACITY ->
  length (dq_items (run_store w)) <= CAPACITY ->
  let stored := map (fun cr => stored_example cr NO_RESPONSE) crs in
  let w' := serve_all json_dumps ChatCompletionRequest_new shaggoth_chatbot
              EXAMPLE_STORAGE_KEY requests w in
  run_store w' = deque_extend stored (run_store w)
  /\ (CAPACITY < length requests ->
      dq_items (run_store w') = drop (length requests - CAPACITY) stored).
Proof.
  intros Hvalid Hok Hmax Hlen stored w'.
  assert (Hstore : run_store w' = deque_extend stored (run_store w)).
  { subst stored w'. clear Hmax Hlen. revert w Hok.
    induction Hvalid as [|[request up] cr requests crs Hv _ IH]; intros w Hok.
    - reflexivity.
    - cbn [serve_all map].
      destruct (serve_valid_world request up cr w Hv Hok) as [Hok' Hrun].
      rewrite (IH _ Hok'), Hrun. reflexivity. }
  split; [exact Hstore|]. intros Hmore.
  rewrite Hstore, deque_extend_items by lia.
  assert (Hn : length stored = length requests).
  { subst stored. rewrite length_map. symmetry. by eapply Forall2_length. }
  rewrite length_app, Hmax, Hn.
  replace (length (dq_items (run_store w)) + length requests - CAPACITY)
    with (length (dq_items (run_store w)) + (length requests - CAPACITY))
    by lia.
  by rewrite drop_app_add.
Qed.

(** *** The collaborator *)

(** X10. [generate_chatbot_response] never raises. When the collaborator
    fails, its error is printed and turned into the reply text
    ["Error generating response: ..."], which the handler then treats like
    any other reply. *)
Theorem collaborator_failure_becomes_the_reply
  (cm : pystr) (mh : list Message) (w : world) :
  exists w',
    generate_chatbot_response shaggoth_chatbot cm mh w
    = (Ok (match shaggoth_chatbot cm (fastapi_messages_to_dspy_history mh) with
           | Ok r => r
           | Raise e => py "Error generating response: " ++ exn_str e
           end), w')
    /\ trace w'
       = trace w
         ++ EvChatbot cm (fastapi_messages_to_dspy_history mh)
            :: match shaggoth_chatbot cm (fastapi_messages_to_dspy_history mh) with
               | Ok _ => []
               | Raise e => [EvPrint (py "[ShaggothRL] Chatbot error: "
                                      ++ exn_str e)]
               end
    /\ heap w' = heap w /\ logfile w' = logfile w
    /\ redis_server w' = redis_server w.
Proof.
  unfold generate_chatbot_response, try_except, bind, lift, emit, print, ret.
  destruct (shaggoth_chatbot cm _) as [r|e].
  - eexists. split; [reflexivity|]. done.
  - eexists. split; [reflexivity|]. cbn. by rewrite <- app_assoc.
Qed.

(** *** Loading, saving and startup *)

(** X15. With Redis in reach and nothing under the snapshot key, or the
    empty string there, the load only prints that it starts fresh: the
    store, the names and Redis are as before. *)
Theorem load_without_snapshot_changes_nothing (w : world) :
  redis_reachable (redis_server w) = true ->
  (redis_lookup (redis_server w) KEY = None
   \/ redis_lookup (redis_server w) KEY = Some []) ->
  load w
  = (Ok tt,
     set_trace
       (trace w
        ++ [EvPrint (py "[Redis] No conversation examples found, starting fresh")])
       w).
Proof.
  intros Hup Hnone.
  unfold load_redis_conversation_examples, load_redis_conversation_examples_try.
  unfold try_except, bind, redis_get. rewrite Hup.
  by destruct Hnone as [-> | ->].
Qed.

(** X16. A load that reads a snapshot replaces the store, it does not add
    to it: afterwards [shoggoth_utils.conversation_examples] holds the
    examples of the snapshot and nothing of what it held before, and of a
    snapshot with more than 1000 examples it holds the last 1000. *)
Theorem load_keeps_the_last_1000_of_a_snapshot
  (w : world) (text : pystr) (v : pyval) (items : list pyval)
  (examples : list ConversationExample) :
  redis_reachable (redis_server w) = true ->
  redis_lookup (redis_server w) KEY = Some text ->
  text <> [] ->
  json_loads text = Ok v ->
  py_iter v = Ok items ->
  comprehension from_dict items = Ok examples ->
  exists w',
    load w = (Ok tt, w')
    /\ dq_items (utils_store w') = drop (length examples - 1000) examples
    /\ dq_maxlen (utils_store w') = 1000.
Proof.
  intros Hup Hget Htext Hloads Hiter Hcomp.
  destruct (load_reads_snapshot json_loads EXAMPLE_STORAGE_KEY w text v items
              examples Hup Hget Htext Hloads Hiter Hcomp)
    as (w' & E & _ & _ & _ & Hstore).
  exists w'. split; [exact E|]. rewrite Hstore. unfold deque_of. split.
  - rewrite deque_extend_items by (cbn; lia). reflexivity.
  - by rewrite deque_extend_maxlen.
Qed.

(** X17. A snapshot that decodes to something other than a list. [null],
    a boolean or a number cannot be iterated; a non-empty object or string
    is iterated key by key or character by character, and [from_dict]
    rejects each of these. In all these cases the [try] block raises a
    [TypeError] having changed nothing. An empty object or string is read
    as a snapshot without examples. *)
Theorem load_of_a_snapshot_that_is_not_a_list
  (w : world) (text : pystr) (v : pyval) :
  redis_reachable (redis_server w) = true ->
  redis_lookup (redis_server w) KEY = Some text ->
  text <> [] ->
  json_loads text = Ok v ->
  match v with
  | PList _ => True
  | PDict [] | PStr [] =>
    exists w', load w = (Ok tt, w') /\ dq_items (utils_store w') = []
  | _ =>
    exists msg,
      load_redis_conversation_examples_try json_loads EXAMPLE_STORAGE_KEY w
      = (Raise (TypeError msg), w)
  end.
Proof.
  intros Hup Hget Htext Hloads.
  assert (Hempty : py_iter v = Ok [] ->
            exists w', load w = (Ok tt, w') /\ dq_items (utils_store w') = []).
  { intros Hiter.
    destruct (load_reads_snapshot json_loads EXAMPLE_STORAGE_KEY w text v []
                [] Hup Hget Htext Hloads Hiter eq_refl)
      as (w' & E & _ & _ & _ & Hstore).
    exists w'. split; [exact E|]. by rewrite Hstore. }
  assert (Hfail : forall msg,
            (py_iter v = Raise (TypeError msg)
             \/ exists items, py_iter v = Ok items
                  /\ comprehension from_dict items = Raise (TypeError msg)) ->
            load_redis_conversation_examples_try json_loads EXAMPLE_STORAGE_KEY w
            = (Raise (TypeError msg), w)).
  { intros msg Hcase.
    apply (proj2 (load_try_raises_on_failure json_loads EXAMPLE_STORAGE_KEY
                    w text) Hup Hget Htext).
    right. destruct Hcase as [Hiter | (items & Hiter & Hcomp)].
    - left. by exists v.
    - right. by exists v, items. }
  destruct v as [| b | z | f | [|c s] | xs | [|[k x] items]]; try done.
  - eexists. apply Hfail. by left.
  - eexists. apply Hfail. by left.
  - eexists. apply Hfail. by left.
  - eexists. apply Hfail. by left.
  - by apply Hempty.
  - eexists. apply Hfail. right. by eexists.
  - by apply Hempty.
  - eexists. apply Hfail. right. by eexists.
Qed.

(** X18. The save never raises and leaves the store alone. It writes at
    most the snapshot key: with Redis out of reach or a [json.dumps] that
    raises, Redis is as before; otherwise the key holds the serialization
    of the whole store and every other key is as before. *)
Theorem save_never_raises_and_writes_only_its_key (w : world) :
  exists w',
    save w = (Ok tt, w')
    /\ heap w' = heap w
    /\ utils_conversation_examples w' = utils_conversation_examples w
    /\ run_conversation_examples w' = run_conversation_examples w
    /\ (forall k, k <> KEY ->
          redis_lookup (redis_server w') k = redis_lookup (redis_server w) k)
    /\ (redis_reachable (redis_server w) = false
        \/ (exists e, json_dumps (PList (map to_dict (dq_items (utils_store w))))
                      = Raise e) ->
        redis_server w' = redis_server w)
    /\ (forall text,
          redis_reachable (redis_server w) = true ->
          json_dumps (PList (map to_dict (dq_items (utils_store w)))) = Ok text ->
          redis_lookup (redis_server w') KEY = Some text).
Proof.
  destruct (save_steps w) as (w' & E & H).
  exists w'. split; [exact E|].
  pose proof (st_redis _ _ _ _ _ _ H) as Hsrv.
  repeat split; try apply H.
  - intros k Hk. rewrite Hsrv. by apply saved_other_keys.
  - intros Hfail. rewrite Hsrv. unfold save_effect.
    destruct Hfail as [-> | (e & He)]; [done|].
    unfold utils_store, deref in He. unfold snapshot_of. rewrite He.
    by destruct (redis_reachable _).
  - intros text Hup Hdumps. rewrite Hsrv. unfold save_effect. rewrite Hup.
    unfold utils_store, deref in Hdumps. unfold snapshot_of. rewrite Hdumps.
    apply redis_lookup_store.
Qed.

(** X19. Startup with Redis out of reach does not raise and does not touch
    the store; it prints that Redis is unavailable. The client was created
    before the ping, so [run.redis] stays set and every later request goes
    on to attempt a save. *)
Theorem startup_survives_an_unreachable_redis (w : world) :
  redis_reachable (redis_server w) = false ->
  on_startup json_loads EXAMPLE_STORAGE_KEY w
  = (Ok tt,
     set_trace
       (trace w
        ++ [EvPrint (py "[Startup] Redis unavailable: Error connecting to Redis")])
       (set_run_redis true w)).
Proof.
  intros Hdown. unfold on_startup, try_except, bind, redis_ping. cbn.
  by rewrite Hdown.
Qed.

(** X20. Startup that finds a snapshot binds the loaded deque to
    [shoggoth_utils.conversation_examples] only. The name [run.py] imported
    keeps the deque from before, and it is the length of that one that the
    startup line reports. *)
Theorem startup_reports_the_imported_store
  (w : world) (text : pystr) (v : pyval) (items : list pyval)
  (examples : list ConversationExample) :
  world_ok w ->
  redis_reachable (redis_server w) = true ->
  redis_lookup (redis_server w) KEY = Some text ->
  text <> [] ->
  json_loads text = Ok v ->
  py_iter v = Ok items ->
  comprehension from_dict items = Ok examples ->
  exists w',
    on_startup json_loads EXAMPLE_STORAGE_KEY w = (Ok tt, w')
    /\ run_redis w' = true
    /\ utils_store w' = deque_of examples 1000
    /\ run_store w' = run_store w
    /\ trace w'
       = trace w
         ++ [EvPrint (py "[Redis] Loaded "
                      ++ str_of_nat (length (dq_items (deque_of examples 1000)))
                      ++ py " conversation examples");
             EvPrint (py "[Startup] Loaded "
                      ++ str_of_nat (length (dq_items (run_store w)))
                      ++ py " conversation examples from Redis.")].
Proof.
  intros [_ Hrun] Hup Hget Htext Hloads Hiter Hcomp.
  unfold on_startup, load_redis_conversation_examples,
    load_redis_conversation_examples_try.
  unfold try_except, bind, redis_ping, redis_get.
  cbn -[redis_lookup str_of_nat py deque_of].
  change (redis_server (set_run_redis true w)) with (redis_server w).
  rewrite Hup. cbn -[redis_lookup str_of_nat py deque_of].
  change (redis_server (set_run_redis true w)) with (redis_server w).
  rewrite Hup, Hget.
  destruct text as [|c t]; [done|]. cbn [opt_truthy str_truthy from_option id].
  unfold lift. rewrite Hloads, Hiter, Hcomp.
  eexists. split; [reflexivity|]. cbn.
  assert (Hnew : utils_store
            (set_utils_conversation_examples (length (heap w))
               (set_heap (heap w ++ [deque_of examples 1000])
                  (set_run_redis true w)))
          = deque_of examples 1000).
  { unfold utils_store, deref. cbn. by rewrite list_lookup_middle. }
  assert (Hold : forall tr,
            run_store
              (set_trace tr
                 (set_utils_conversation_examples (length (heap w))
                    (set_heap (heap w ++ [deque_of examples 1000])
                       (set_run_redis true w))))
            = run_store w).
  { intros tr. unfold run_store, deref. cbn. by rewrite lookup_app_l. }
  repeat split.
  - exact Hnew.
  - apply Hold.
  - rewrite <- app_assoc. cbn. do 3 f_equal.
    + unfold utils_store, deref. cbn. by rewrite list_lookup_middle.
    + do 3 f_equal. unfold run_store, deref. cbn. by rewrite lookup_app_l.
Qed.

(** X21. [add_conversation_example] returns [True] and appends to the
    deque [shoggoth_utils] names, so a save right after it writes a
    snapshot that includes the new example. *)
Theorem add_then_save_persists_the_example
  (messages response : pyval) (w : world) (text : pystr) :
  world_ok w ->
  redis_reachable (redis_server w) = true ->
  json_dumps
    (PList (map to_dict
              (dq_items
                 (deque_append
                    {| ce_messages := messages; ce_response := response |}
                    (utils_store w))))) = Ok text ->
  exists w1 w2,
    add_conversation_example messages response w = (Ok true, w1)
    /\ utils_store w1
       = deque_append {| ce_messages := messages; ce_response := response |}
           (utils_store w)
    /\ save w1 = (Ok tt, w2)
    /\ redis_lookup (redis_server w2) KEY = Some text.
Proof.
  intros [Hutils _] Hup Hdumps.
  set (x := {| ce_messages := messages; ce_response := response |}) in *.
  set (w1 := set_heap
               (<[utils_conversation_examples w
                  := deque_append x (deref w (utils_conversation_examples w))]>
                  (heap w)) w).
  assert (Hstore : utils_store w1 = deque_append x (utils_store w)).
  { unfold utils_store, deref, w1. cbn. by rewrite list_lookup_insert_eq. }
  destruct (save_writes_snapshot json_dumps EXAMPLE_STORAGE_KEY w1 text)
    as (w2 & E2 & Hsrv & _).
  - exact Hup.
  - by rewrite Hstore.
  - exists w1, w2. repeat split; try done.
    rewrite Hsrv. apply redis_lookup_store.
Qed.

End MoreProperties.

(** ** The relay, for any stream *)

(** X1. The relay is lossless and ordered: whatever the chunks, the
    generator yields exactly them, in order, and leaves in [full_response]
    what it held at the start followed by the decoded text of each chunk. *)
Theorem relay_yields_every_chunk_in_order (acc : pystr) (chunks : list bytes) :
  generate_stream acc chunks
  = (chunks, acc ++ concat (map utf8_decode_replace chunks)).
Proof.
  rewrite (surjective_pairing (generate_stream acc chunks)).
  by rewrite generate_stream_yields, generate_stream_accumulates.
Qed.

Lemma all_ascii_concat (chunks : list bytes) :
  Forall (Forall (fun b => (code b < 0x80)%N)) chunks ->
  Forall (fun b => (code b < 0x80)%N) (concat chunks).
Proof.
  induction 1 as [|c r Hc _ IH]; [constructor|].
  cbn. by apply Forall_app.
Qed.

(** X2. Each chunk is decoded on its own. For a stream of ASCII bytes that
    makes no difference: the accumulated text is the text of all the bytes,
    however the upstream cut them into chunks. *)
Theorem relay_text_of_an_ascii_stream_ignores_chunking
  (acc : pystr) (chunks : list bytes) :
  Forall (Forall (fun b => (code b < 0x80)%N)) chunks ->
  snd (generate_stream acc chunks)
  = acc ++ utf8_decode_replace (concat chunks).
Proof.
  intros Hascii. rewrite generate_stream_accumulates. f_equal.
  rewrite (utf8_decode_replace_ascii (concat chunks))
    by by apply all_ascii_concat.
  induction Hascii as [|c r Hc _ IH]; [reflexivity|].
  cbn [map concat]. rewrite map_app, IH.
  by rewrite (utf8_decode_replace_ascii c).
Qed.

(** Outside ASCII it does make a difference: U+00E9 cut between its two
    bytes is accumulated as two replacement characters. *)
Example relay_text_of_a_split_character :
  snd (generate_stream [] [[xc3]; [xa9]]) = [0xFFFD; 0xFFFD]%N
  /\ snd (generate_stream [] [[xc3; xa9]]) = [0xE9]%N.
Proof. by split. Qed.

(** ** The history given to the collaborator *)

Lemma history_step (u a : Message) (rest : list Message) :
  fastapi_messages_to_dspy_history (u :: a :: rest)
  = (if bool_decide (role u = py "user")
        && bool_decide (role a = py "assistant")
     then [(content u, content a)] else [])
    ++ fastapi_messages_to_dspy_history rest.
Proof. reflexivity. Qed.

(** X11. The history of a dialogue is its pairs: user messages and replies
    in turn come out as the list of (message, reply) pairs, in order, and a
    message left without a reply at the end is dropped. *)
Theorem history_of_a_dialogue_is_its_pairs (pairs : list (pystr * pystr)) :
  fastapi_messages_to_dspy_history (dialogue pairs) = pairs
  /\ forall m, fastapi_messages_to_dspy_history (dialogue pairs ++ [m]) = pairs.
Proof.
  split; [|intros m]; induction pairs as [|[q a] r IH]; try reflexivity.
  - change (dialogue ((q, a) :: r))
      with ({| role := py "user"; content := q |}
            :: {| role := py "assistant"; content := a |} :: dialogue r).
    rewrite history_step, IH. reflexivity.
  - change (dialogue ((q, a) :: r) ++ [m])
      with ({| role := py "user"; content := q |}
            :: {| role := py "assistant"; content := a |}
            :: (dialogue r ++ [m])).
    rewrite history_step, IH. reflexivity.
Qed.

Lemma history_behind_a_message (m : Message) (pairs : list (pystr * pystr))
  (t : list Message) :
  role m <> py "user" ->
  length t <= 1 ->
  fastapi_messages_to_dspy_history (m :: dialogue pairs ++ t) = [].
Proof.
  revert m. induction pairs as [|[q a] r IH]; intros m Hm Ht.
  - destruct t as [|m' [|? ?]]; [reflexivity| |cbn in Ht; lia].
    cbn [dialogue flat_map app]. rewrite history_step.
    by rewrite (bool_decide_eq_false_2 _ Hm).
  - change (m :: dialogue ((q, a) :: r) ++ t)
      with (m :: {| role := py "user"; content := q |}
              :: ({| role := py "assistant"; content := a |}
                    :: dialogue r ++ t)).
    rewrite history_step, (bool_decide_eq_false_2 _ Hm). cbn [andb app].
    apply IH; [|done]. cbn. discriminate.
Qed.

(** X12. The pairs are taken at positions 0-1, 2-3, and so on. One message
    that is not from the user in front of a dialogue (a system prompt)
    shifts every pair, and the history comes out empty, with or without a
    last message still to be answered. *)
Theorem history_is_lost_behind_a_leading_message
  (m : Message) (pairs : list (pystr * pystr)) :
  role m <> py "user" ->
  fastapi_messages_to_dspy_history (m :: dialogue pairs) = []
  /\ forall m', fastapi_messages_to_dspy_history (m :: dialogue pairs ++ [m'])
                = [].
Proof.
  intros Hm. split.
  - rewrite <- (app_nil_r (dialogue pairs)).
    apply history_behind_a_message; [done | cbn; lia].
  - intros m'. apply history_behind_a_message; [done | cbn; lia].
Qed.

(** ** The two extractors together *)

Lemma extract_snoc (history : list Message) (x : Message) :
  extract_current_message_and_history (history ++ [x]) = (content x, history).
Proof.
  unfold extract_current_message_and_history.
  destruct (history ++ [x]) as [|m0 r] eqn:E; [by destruct history|].
  rewrite <- E, last_last, length_app. cbn [length].
  replace (length history + 1 - 1) with (length history) by lia.
  by rewrite take_app_length.
Qed.

(** X13. When the last message is from the user, the two extractors agree:
    the alternate one, on the messages as dicts, gives the same current
    message and the same history as the last-message one. *)
Theorem extractors_agree_on_a_final_user_message
  (history : list Message) (x : Message) :
  role x = py "user" ->
  extract_current_message_and_history_from_messages
    (map message_dict (history ++ [x]))
  = Ok (PStr (fst (extract_current_message_and_history (history ++ [x]))),
        map message_dict
          (snd (extract_current_message_and_history (history ++ [x])))).
Proof.
  intros Hx. rewrite extract_snoc. cbn [fst snd].
  unfold extract_current_message_and_history_from_messages.
  destruct (map message_dict (history ++ [x])) as [|d0 r] eqn:E.
  { by destruct history. }
  rewrite <- E. rewrite length_map, length_app. cbn [length].
  replace (length history + 1) with (length history + 1 + 0) by lia.
  rewrite (find_last_user_found history [] x 0) by (try done; cbn; lia).
  reflexivity.
Qed.

(** ** Examples as dictionaries *)

(** X14. [to_dict] then [from_dict] gives back the example. [from_dict]
    succeeds only on a dictionary that has both keys, takes the two values
    as they are and ignores every other key; it asks for ["messages"]
    first, so that is the key named when both are missing. *)
Theorem conversation_example_dict_round_trip :
  (forall x, from_dict (to_dict x) = Ok x)
  /\ (forall d x,
        from_dict d = Ok x ->
        exists items,
          d = PDict items
          /\ dict_get items (py "messages") = Some (ce_messages x)
          /\ dict_get items (py "response") = Some (ce_response x))
  /\ (forall items,
        dict_get items (py "messages") = None ->
        from_dict (PDict items) = Raise (KeyError (py "messages")))
  /\ (forall items m,
        dict_get items (py "messages") = Some m ->
        dict_get items (py "response") = None ->
        from_dict (PDict items) = Raise (KeyError (py "response"))).
Proof.
  repeat split.
  - intros x. by destruct x.
  - intros d x. unfold from_dict, py_getitem.
    destruct d as [| | | | | |items]; try discriminate.
    destruct (dict_get items (py "messages")) as [m|] eqn:Hm; [|discriminate].
    destruct (dict_get items (py "response")) as [r|] eqn:Hr; [|discriminate].
    cbn. intros [= <-]. by exists items.
  - intros items Hm. unfold from_dict, py_getitem. by rewrite Hm.
  - intros items m Hm Hr. unfold from_dict, py_getitem. by rewrite Hm, Hr.
Qed.

(** ** Recent conversations *)

Lemma recent_entry_well_formed (x : ConversationExample) (ms : list pyval)
  (r : pystr) :
  ce_messages x = PList ms -> ce_response x = PStr r ->
  recent_entry x = Ok (entry_of ms r).
Proof.
  intros Hm Hr. unfold recent_entry, entry_of, preview_text.
  rewrite Hm, Hr. cbn [py_len result_bind py_truthy py_getitem_last].
  destruct ms as [|m0 ms']; cbn [result_bind].
  - by destruct (100 <? length r).
  - destruct (last (m0 :: ms')) as [m|] eqn:Hlast.
    + by destruct (100 <? length r).
    + by apply last_None in Hlast.
Qed.

Lemma comprehension_recent_entry (xs : list ConversationExample) :
  Forall well_formed_example xs ->
  exists entries,
    comprehension recent_entry xs = Ok entries
    /\ Forall2 (fun x entry =>
                  exists ms r, ce_messages x = PList ms /\ ce_response x = PStr r
                               /\ entry = entry_of ms r) xs entries.
Proof.
  induction 1 as [|x r (ms & t & Hm & Hr) _ (entries & E & IH)].
  - exists []. split; [reflexivity | constructor].
  - exists (entry_of ms t :: entries). split.
    + cbn [comprehension]. rewrite (recent_entry_well_formed x ms t Hm Hr).
      cbn [result_bind]. by rewrite E.
    + constructor; [by exists ms, t | exact IH].
Qed.

Lemma preview_text_length (r : pystr) : length (preview_text r) <= 103.
Proof.
  unfold preview_text. destruct (Nat.ltb_spec 100 (length r)).
  - rewrite length_app, length_take.
    change (length (py "...")) with 3. lia.
  - lia.
Qed.

(** X22. On a store of examples as the handler builds them,
    [get_recent_conversations(limit)] does not raise and gives one entry
    for each of the last [limit] examples, oldest first, or for all of them
    when there are fewer. With [limit] 0 the slice [[-0:]] is the whole
    list, so it gives an entry for every example; a negative [limit] leaves
    out that many of the oldest. No preview is longer than 103
    characters. *)
Theorem recent_conversations_of_a_well_formed_store (limit : Z) (w : world) :
  Forall well_formed_example (dq_items (utils_store w)) ->
  exists entries,
    get_recent_conversations limit w = (Ok entries, w)
    /\ Forall2 (fun x entry =>
                  exists ms r, ce_messages x = PList ms /\ ce_response x = PStr r
                               /\ entry = entry_of ms r
                               /\ length (preview_text r) <= 103)
         (py_slice_from (- limit) (dq_items (utils_store w))) entries
    /\ length entries
       = if (0 <? limit)%Z
         then Nat.min (Z.to_nat limit) (length (dq_items (utils_store w)))
         else length (dq_items (utils_store w)) - Z.to_nat (- limit).
Proof.
  intros Hwf.
  set (items := dq_items (utils_store w)) in *.
  assert (Hslice : Forall well_formed_example (py_slice_from (- limit) items)).
  { unfold py_slice_from. destruct (- limit <? 0)%Z; by apply Forall_drop. }
  destruct (comprehension_recent_entry _ Hslice) as (entries & E & H2).
  exists entries. split; [|split].
  - unfold get_recent_conversations, bind, get_world, lift. fold items.
    by rewrite E.
  - eapply Forall2_impl; [exact H2|].
    intros x entry (ms & r & Hm & Hr & He). exists ms, r.
    repeat split; try done. apply preview_text_length.
  - rewrite <- (Forall2_length _ _ _ H2). unfold py_slice_from.
    destruct (Z.ltb_spec 0 limit) as [Hpos|Hle].
    + destruct (Z.ltb_spec (- limit) 0); [|lia].
      rewrite length_drop. replace (- - limit)%Z with limit by lia. lia.
    + destruct (Z.ltb_spec (- limit) 0); [lia|]. by rewrite length_drop.
Qed.

Lemma comprehension_raises_at (xs : list ConversationExample)
  (x : ConversationExample) (ys : list ConversationExample) (e : exn) :
  Forall well_formed_example xs ->
  recent_entry x = Raise e ->
  comprehension recent_entry (xs ++ x :: ys) = Raise e.
Proof.
  intros Hwf Hx. induction Hwf as [|x0 r (ms & t & Hm & Hr) _ IH].
  - cbn. by rewrite Hx.
  - cbn [app comprehension].
    rewrite (recent_entry_well_formed x0 ms t Hm Hr). cbn [result_bind].
    by rewrite IH.
Qed.

(** X23. [from_dict] takes the two values as they are, so it accepts an
    element whose [messages] is [null]; and [get_recent_conversations],
    which has no [try], raises a [TypeError] as soon as such an example is
    among the recent ones. *)
Theorem recent_conversations_fail_on_messages_without_a_length
  (limit : Z) (w : world) (pre post : list ConversationExample)
  (x : ConversationExample) :
  py_slice_from (- limit) (dq_items (utils_store w)) = pre ++ x :: post ->
  Forall well_formed_example pre ->
  ce_messages x = PNone ->
  from_dict (PDict [(py "messages", PNone); (py "response", ce_response x)])
  = Ok x
  /\ exists msg,
       get_recent_conversations limit w = (Raise (TypeError msg), w).
Proof.
  intros Hslice Hpre Hnone. split.
  - destruct x as [m r]. cbn in Hnone. by subst m.
  - exists (py "object has no len()").
    unfold get_recent_conversations, bind, get_world, lift.
    rewrite Hslice.
    rewrite (comprehension_raises_at pre x post
               (TypeError (py "object has no len()")) Hpre); [reflexivity|].
    unfold recent_entry. by rewrite Hnone.
Qed.

(** ** The backwards scan for the last user message *)

(** The scan passes over role/content dicts that are not from the user
    and reaches the message before them. *)
Lemma find_last_user_passes (pre : list pyval) (m : pyval)
  (post : list Message) (k : nat) :
  Forall (fun p => role p <> py "user") post ->
  k <= length post ->
  find_last_user (pre ++ m :: map message_dict post) (length pre + 1 + k)
  = find_last_user (pre ++ m :: map message_dict post) (S (length pre)).
Proof.
  intros Hpost. induction k as [|k IH]; intros Hk.
  - by replace (length pre + 1 + 0) with (S (length pre)) by lia.
  - replace (length pre + 1 + S k) with (S (length pre + 1 + k)) by lia.
    cbn [find_last_user].
    destruct (post !! k) as [p|] eqn:Hp; [|apply lookup_ge_None in Hp; lia].
    assert (Hl : (pre ++ m :: map message_dict post) !! (length pre + 1 + k)
                 = Some (message_dict p)).
    { replace (length pre + 1 + k) with (length pre + S k) by lia.
      rewrite lookup_app_r by lia.
      replace (length pre + S k - length pre) with (S k) by lia.
      change ((m :: map message_dict post) !! S k)
        with (map message_dict post !! k).
      by rewrite list_lookup_fmap, Hp. }
    rewrite Hl, message_dict_role. cbn [result_bind py_eq_str].
    assert (Hr : role p <> py "user").
    { eapply (proj1 (Forall_forall _ _) Hpost), list_elem_of_lookup_2, Hp. }
    rewrite bool_decide_eq_false_2 by exact Hr.
    apply IH. lia.
Qed.

Lemma extract_from_messages_decided_by (pre : list pyval) (m : pyval)
  (post : list Message) :
  Forall (fun p => role p <> py "user") post ->
  extract_current_message_and_history_from_messages
    (pre ++ m :: map message_dict post)
  = result_bind
      (result_bind (py_getitem m (py "role")) (fun r =>
       if py_eq_str r (py "user")
       then result_bind (py_getitem m (py "content")) (fun c => Ok (c, pre))
       else find_last_user (pre ++ m :: map message_dict post) (length pre)))
      (fun found =>
         match found with
         | (PNone, _) => Ok (PStr [], pre ++ m :: map message_dict post)
         | (current_message, history) => Ok (current_message, history)
         end).
Proof.
  intros Hpost. unfold extract_current_message_and_history_from_messages.
  destruct (pre ++ m :: map message_dict post) as [|d0 r] eqn:E.
  { by destruct pre. }
  rewrite <- E. rewrite length_app. cbn [length]. rewrite length_map.
  replace (length pre + S (length post))
    with (length pre + 1 + length post) by lia.
  rewrite (find_last_user_passes pre m post (length post)) by done.
  cbn [find_last_user]. rewrite list_lookup_middle by done.
  by rewrite take_app_length.
Qed.

(** X24. The alternate extractor looks at the messages from the end and
    stops at the first one from the user, so nothing before that message is
    ever inspected: anything may stand there. A message it does inspect
    must be a dictionary with a role, else the extraction raises; and a
    user message whose content is [None] counts as no user message at all:
    the result is then [""] with the whole sequence as history. *)
Theorem last_user_scan_outcomes (pre : list pyval) (post : list Message) :
  Forall (fun p => role p <> py "user") post ->
  (forall u : Message,
     role u = py "user" ->
     extract_current_message_and_history_from_messages
       (pre ++ message_dict u :: map message_dict post)
     = Ok (PStr (content u), pre))
  /\ (forall items,
        dict_get items (py "role") = None ->
        extract_current_message_and_history_from_messages
          (pre ++ PDict items :: map message_dict post)
        = Raise (KeyError (py "role")))
  /\ extract_current_message_and_history_from_messages
       (pre ++ PDict [(py "role", PStr (py "user")); (py "content", PNone)]
            :: map message_dict post)
     = Ok (PStr [],
           pre ++ PDict [(py "role", PStr (py "user")); (py "content", PNone)]
               :: map message_dict post).
Proof.
  intros Hpost. split; [|split].
  - intros u Hu. rewrite extract_from_messages_decided_by by done.
    rewrite message_dict_role. cbn [result_bind py_eq_str].
    rewrite bool_decide_eq_true_2 by exact Hu.
    by rewrite message_dict_content.
  - intros items Hrole. rewrite extract_from_messages_decided_by by done.
    unfold py_getitem. by rewrite Hrole.
  - by rewrite extract_from_messages_decided_by.
Qed.

(** ** The further properties on examples *)

Lemma relay_text_of_an_ascii_stream_witness :
  snd (generate_stream (py "so far: ") [pyb "Hi"; pyb " there"])
  = py "so far: " ++ utf8_decode_replace (concat [pyb "Hi"; pyb " there"]).
Proof.
  apply (relay_text_of_an_ascii_stream_ignores_chunking (py "so far: ")
           [pyb "Hi"; pyb " there"]).
  repeat constructor.
Defined.

Lemma valid_request_outcome_and_effects_witness :
  exists w' added,
    serve Json.dumps Strict.ChatCompletionRequest_new canned_chatbot
      STORAGE_KEY sample_request (Raise refused) world0
    = (Raise (HTTPException 500 (exn_str refused)), w')
    /\ trace w' = trace world0 ++ added
    /\ observable added
       = [EvUpstreamSend (DEFAULT_UPSTREAM ++ py "/chat/completions") sample_body;
          EvChatbot
            (fst (extract_current_message_and_history
                    (messages sample_chat_request)))
            (fastapi_messages_to_dspy_history
               (snd (extract_current_message_and_history
                       (messages sample_chat_request))))]
         ++ [].
Proof.
  apply (valid_request_outcome_and_effects Json.dumps
           Strict.ChatCompletionRequest_new canned_chatbot STORAGE_KEY
           sample_request (Raise refused) DEFAULT_UPSTREAM sample_body
           sample_chat_request world0).
  - reflexivity.
  - reflexivity.
  - vm_compute. reflexivity.
Defined.

Lemma audit_log_only_grows_witness :
  exists lines,
    logfile (snd (serve Json.dumps Strict.ChatCompletionRequest_new
                    canned_chatbot STORAGE_KEY sample_request (Ok hi_stream)
                    world0))
    = logfile world0 ++ lines
    /\ length lines <= 3
    /\ Forall ends_with_newline lines.
Proof.
  apply (audit_log_only_grows Json.dumps Strict.ChatCompletionRequest_new
           canned_chatbot STORAGE_KEY sample_request (Ok hi_stream)
           DEFAULT_UPSTREAM sample_body sample_chat_request world0).
  - reflexivity.
  - reflexivity.
  - vm_compute. reflexivity.
Defined.

Lemma handler_writes_only_its_redis_key_witness :
  (forall k, k <> STORAGE_KEY ++ py ":conversations" ->
     redis_lookup
       (redis_server
          (snd (serve Json.dumps Strict.ChatCompletionRequest_new
                  canned_chatbot STORAGE_KEY sample_request (Ok hi_stream)
                  world_restarted))) k
     = redis_lookup (redis_server world_restarted) k)
  /\ (run_redis world_restarted = false ->
      redis_server
        (snd (serve Json.dumps Strict.ChatCompletionRequest_new
                canned_chatbot STORAGE_KEY sample_request (Ok hi_stream)
                world_restarted))
      = redis_server world_restarted).
Proof.
  apply (handler_writes_only_its_redis_key Json.dumps
           Strict.ChatCompletionRequest_new canned_chatbot STORAGE_KEY
           sample_request (Ok hi_stream) DEFAULT_UPSTREAM sample_body
           sample_chat_request world_restarted).
  - reflexivity.
  - reflexivity.
  - vm_compute. reflexivity.
Defined.

Lemma refused_request_leaves_nothing_behind_witness :
  logfile (snd (serve Json.dumps Strict.ChatCompletionRequest_new
                  canned_chatbot STORAGE_KEY malformed_request (Ok hi_stream)
                  world1))
  = logfile world1
  /\ heap (snd (serve Json.dumps Strict.ChatCompletionRequest_new
                  canned_chatbot STORAGE_KEY malformed_request (Ok hi_stream)
                  world1))
     = heap world1
  /\ redis_server
       (snd (serve Json.dumps Strict.ChatCompletionRequest_new
               canned_chatbot STORAGE_KEY malformed_request (Ok hi_stream)
               world1))
     = redis_server world1
  /\ exists printed,
       trace (snd (serve Json.dumps Strict.ChatCompletionRequest_new
                     canned_chatbot STORAGE_KEY malformed_request
                     (Ok hi_stream) world1))
       = trace world1 ++ printed
       /\ observable printed = [].
Proof.
  apply (refused_request_leaves_nothing_behind Json.dumps
           Strict.ChatCompletionRequest_new canned_chatbot STORAGE_KEY
           malformed_request (Ok hi_stream)
           (ValidationError (py "field required")) world1).
  right. exists (PDict [(py "model", PInt 5)]). split.
  - reflexivity.
  - vm_compute. reflexivity.
Defined.

Lemma world1_ok : world_ok world1.
Proof. split; cbn; lia. Qed.

Lemma world_restarted_ok : world_ok world_restarted.
Proof. split; cbn; lia. Qed.

Lemma example_is_saved_when_both_names_share_the_store_witness :
  redis_lookup
    (redis_server
       (snd (serve Json.dumps Strict.ChatCompletionRequest_new canned_chatbot
               STORAGE_KEY sample_request (Ok hi_stream) world1)))
    (STORAGE_KEY ++ py ":conversations")
  = Some (dumped (PList [to_dict sample_example; to_dict sample_example])).
Proof.
  apply (example_is_saved_when_both_names_share_the_store Json.dumps
           Strict.ChatCompletionRequest_new canned_chatbot STORAGE_KEY
           sample_request (Ok hi_stream) DEFAULT_UPSTREAM sample_body
           sample_chat_request world1).
  - reflexivity.
  - reflexivity.
  - vm_compute. reflexivity.
  - split; cbn; lia.
  - reflexivity.
  - reflexivity.
  - reflexivity.
  - vm_compute. reflexivity.
Defined.

Lemma example_is_not_saved_after_a_snapshot_was_loaded_witness :
  run_store
    (snd (serve Json.dumps Strict.ChatCompletionRequest_new canned_chatbot
            STORAGE_KEY sample_request (Ok hi_stream) world_restarted))
  = deque_append (stored_example sample_chat_request NO_RESPONSE)
      (run_store world_restarted)
  /\ utils_store
       (snd (serve Json.dumps Strict.ChatCompletionRequest_new canned_chatbot
               STORAGE_KEY sample_request (Ok hi_stream) world_restarted))
     = utils_store world_restarted
  /\ redis_lookup
       (redis_server
          (snd (serve Json.dumps Strict.ChatCompletionRequest_new
                  canned_chatbot STORAGE_KEY sample_request (Ok hi_stream)
                  world_restarted)))
       (STORAGE_KEY ++ py ":conversations")
     = Some sample_snapshot
  /\ last (dq_items
             (run_store
                (snd (serve Json.dumps Strict.ChatCompletionRequest_new
                        canned_chatbot STORAGE_KEY sample_request
                        (Ok hi_stream) world_restarted))))
     = Some (stored_example sample_chat_request NO_RESPONSE).
Proof.
  destruct (example_is_not_saved_after_a_snapshot_was_loaded Json.dumps
              Strict.ChatCompletionRequest_new canned_chatbot STORAGE_KEY
              sample_request (Ok hi_stream) DEFAULT_UPSTREAM sample_body
              sample_chat_request world_restarted sample_snapshot)
    as (Hrun & Hutils & Hsaved & Hlast).
  - reflexivity.
  - reflexivity.
  - vm_compute. reflexivity.
  - split; cbn; lia.
  - cbn. lia.
  - reflexivity.
  - reflexivity.
  - vm_compute. reflexivity.
  - split; [exact Hrun|]. split; [exact Hutils|]. split; [exact Hsaved|].
    apply Hlast. change (0 < 1000). lia.
Defined.

Lemma requests_append_their_examples_in_order_witness :
  run_store
    (serve_all Json.dumps Strict.ChatCompletionRequest_new canned_chatbot
       STORAGE_KEY
       [(sample_request, Ok hi_stream); (sample_request, Raise refused)]
       world0)
  = deque_extend
      (map (fun cr => stored_example cr NO_RESPONSE)
           [sample_chat_request; sample_chat_request])
      (run_store world0)
  /\ (CAPACITY
      < length [(sample_request, Ok hi_stream); (sample_request, Raise refused)] ->
      dq_items
        (run_store
           (serve_all Json.dumps Strict.ChatCompletionRequest_new
              canned_chatbot STORAGE_KEY
              [(sample_request, Ok hi_stream); (sample_request, Raise refused)]
              world0))
      = drop (length [(sample_request, Ok hi_stream);
                      (sample_request, Raise refused)] - CAPACITY)
          (map (fun cr => stored_example cr NO_RESPONSE)
               [sample_chat_request; sample_chat_request])).
Proof.
  apply (requests_append_their_examples_in_order Json.dumps
           Strict.ChatCompletionRequest_new canned_chatbot STORAGE_KEY
           [(sample_request, Ok hi_stream); (sample_request, Raise refused)]
           [sample_chat_request; sample_chat_request] world0).
  - repeat constructor.
    + by exists DEFAULT_UPSTREAM.
    + exists sample_body. split; [reflexivity | vm_compute; reflexivity].
    + by exists DEFAULT_UPSTREAM.
    + exists sample_body. split; [reflexivity | vm_compute; reflexivity].
  - split; cbn; lia.
  - reflexivity.
  - cbn. lia.
Defined.

Lemma history_is_lost_behind_a_leading_message_witness :
  fastapi_messages_to_dspy_history (system_prompt :: dialogue sample_pairs) = []
  /\ forall m',
       fastapi_messages_to_dspy_history
         (system_prompt :: dialogue sample_pairs ++ [m']) = [].
Proof.
  apply (history_is_lost_behind_a_leading_message system_prompt sample_pairs).
  vm_compute. discriminate.
Defined.

Lemma extractors_agree_on_a_final_user_message_witness :
  extract_current_message_and_history_from_messages
    (map message_dict ([system_prompt; assistant_hi] ++ [user_hello]))
  = Ok (PStr (fst (extract_current_message_and_history
                     ([system_prompt; assistant_hi] ++ [user_hello]))),
        map message_dict
          (snd (extract_current_message_and_history
                  ([system_prompt; assistant_hi] ++ [user_hello])))).
Proof.
  apply (extractors_agree_on_a_final_user_message
           [system_prompt; assistant_hi] user_hello).
  reflexivity.
Defined.

Lemma load_without_snapshot_changes_nothing_witness :
  load_redis_conversation_examples Json.loads STORAGE_KEY world1
  = (Ok tt,
     set_trace
       (trace world1
        ++ [EvPrint (py "[Redis] No conversation examples found, starting fresh")])
       world1).
Proof.
  apply (load_without_snapshot_changes_nothing Json.loads STORAGE_KEY world1).
  - reflexivity.
  - left. reflexivity.
Defined.

Lemma load_keeps_the_last_1000_of_a_snapshot_witness :
  exists w',
    load_redis_conversation_examples Json.loads STORAGE_KEY world_restarted
    = (Ok tt, w')
    /\ dq_items (utils_store w')
       = drop (length [sample_example] - 1000) [sample_example]
    /\ dq_maxlen (utils_store w') = 1000.
Proof.
  apply (load_keeps_the_last_1000_of_a_snapshot Json.loads STORAGE_KEY
           world_restarted sample_snapshot (PList [to_dict sample_example])
           [to_dict sample_example] [sample_example]).
  - reflexivity.
  - vm_compute. reflexivity.
  - discriminate.
  - vm_compute. reflexivity.
  - reflexivity.
  - reflexivity.
Defined.

Lemma load_of_a_snapshot_that_is_not_a_list_witness :
  exists msg,
    load_redis_conversation_examples_try Json.loads STORAGE_KEY
      (set_redis_server (redis_store empty_redis SNAPSHOT_KEY (py "null"))
         world1)
    = (Raise (TypeError msg),
       set_redis_server (redis_store empty_redis SNAPSHOT_KEY (py "null"))
         world1).
Proof.
  apply (load_of_a_snapshot_that_is_not_a_list Json.loads STORAGE_KEY
           (set_redis_server (redis_store empty_redis SNAPSHOT_KEY (py "null"))
              world1)
           (py "null") PNone).
  - reflexivity.
  - vm_compute. reflexivity.
  - discriminate.
  - vm_compute. reflexivity.
Defined.

(** The empty object as a snapshot: the store of two examples is replaced
    by an empty one. *)
Example load_of_an_empty_object_snapshot :
  let '(r, w') :=
    load_redis_conversation_examples Json.loads STORAGE_KEY
      (set_redis_server (redis_store empty_redis SNAPSHOT_KEY (py "{}"))
         (world2 true)) in
  r = Ok tt /\ dq_items (utils_store w') = []
  /\ length (dq_items (run_store w')) = 2.
Proof. vm_compute. repeat split. Qed.

Lemma startup_survives_an_unreachable_redis_witness :
  on_startup Json.loads STORAGE_KEY (world2 false)
  = (Ok tt,
     set_trace
       (trace (world2 false)
        ++ [EvPrint (py "[Startup] Redis unavailable: Error connecting to Redis")])
       (set_run_redis true (world2 false))).
Proof.
  apply (startup_survives_an_unreachable_redis Json.loads STORAGE_KEY
           (world2 false)).
  reflexivity.
Defined.

Lemma startup_reports_the_imported_store_witness :
  exists w',
    on_startup Json.loads STORAGE_KEY world_with_snapshot = (Ok tt, w')
    /\ run_redis w' = true
    /\ utils_store w' = deque_of [sample_example] 1000
    /\ run_store w' = run_store world_with_snapshot
    /\ trace w'
       = trace world_with_snapshot
         ++ [EvPrint (py "[Redis] Loaded "
                      ++ str_of_nat
                           (length (dq_items (deque_of [sample_example] 1000)))
                      ++ py " conversation examples");
             EvPrint (py "[Startup] Loaded "
                      ++ str_of_nat
                           (length (dq_items (run_store world_with_snapshot)))
                      ++ py " conversation examples from Redis.")].
Proof.
  apply (startup_reports_the_imported_store Json.loads STORAGE_KEY
           world_with_snapshot sample_snapshot (PList [to_dict sample_example])
           [to_dict sample_example] [sample_example]).
  - split; cbn; lia.
  - reflexivity.
  - vm_compute. reflexivity.
  - discriminate.
  - vm_compute. reflexivity.
  - reflexivity.
  - reflexivity.
Defined.

(** The two lines startup prints in that process: one example loaded, none
    reported. *)
Example startup_lines_after_a_snapshot :
  trace (snd (on_startup Json.loads STORAGE_KEY world_with_snapshot))
  = [EvPrint (py "[Redis] Loaded 1 conversation examples");
     EvPrint (py "[Startup] Loaded 0 conversation examples from Redis.")].
Proof. vm_compute. reflexivity. Qed.

Lemma add_then_save_persists_the_example_witness :
  exists w1 w2,
    add_conversation_example (PList [message_dict user_hello])
      (PStr (py "hi there")) world1 = (Ok true, w1)
    /\ utils_store w1
       = deque_append
           {| ce_messages := PList [message_dict user_hello];
              ce_response := PStr (py "hi there") |}
           (utils_store world1)
    /\ save_redis_conversation_examples Json.dumps STORAGE_KEY w1 = (Ok tt, w2)
    /\ redis_lookup (redis_server w2) (STORAGE_KEY ++ py ":conversations")
       = Some (dumped
                 (PList [to_dict sample_example;
                         to_dict
                           {| ce_messages := PList [message_dict user_hello];
                              ce_response := PStr (py "hi there") |}])).
Proof.
  apply (add_then_save_persists_the_example Json.dumps STORAGE_KEY
           (PList [message_dict user_hello]) (PStr (py "hi there")) world1).
  - split; cbn; lia.
  - reflexivity.
  - vm_compute. reflexivity.
Defined.

Lemma recent_conversations_of_a_well_formed_store_witness :
  exists entries,
    get_recent_conversations 0 (world2 true) = (Ok entries, world2 true)
    /\ Forall2 (fun x entry =>
                  exists ms r, ce_messages x = PList ms /\ ce_response x = PStr r
                               /\ entry = entry_of ms r
                               /\ length (preview_text r) <= 103)
         (py_slice_from (- 0) (dq_items (utils_store (world2 true)))) entries
    /\ length entries
       = if (0 <? 0)%Z
         then Nat.min (Z.to_nat 0) (length (dq_items (utils_store (world2 true))))
         else length (dq_items (utils_store (world2 true))) - Z.to_nat (- 0).
Proof.
  apply (recent_conversations_of_a_well_formed_store 0 (world2 true)).
  repeat constructor; by do 2 eexists.
Defined.

(** With [limit] 0 both examples of the store come back; with 1, the
    newer one. *)
Example recent_conversations_with_limit_0_and_1 :
  (exists e1 e2, fst (get_recent_conversations 0 (world2 true)) = Ok [e1; e2])
  /\ fst (get_recent_conversations 1 (world2 true))
     = Ok [PDict [(py "message_count", PInt 1);
                  (py "last_message",
                   message_dict
                     {| role := py "user";
                        content := py "say " ++ [34; 92; 10; 1; 127; 0xE9;
                                                  0x2028; 0x1F600]%N |});
                  (py "response_preview",
                   PStr ([9; 0x1F600; 34]%N ++ py "ok"))]].
Proof. split; [by do 2 eexists | vm_compute; reflexivity]. Qed.

Lemma recent_conversations_fail_on_messages_without_a_length_witness :
  from_dict (PDict [(py "messages", PNone); (py "response", PStr (py "ok"))])
  = Ok {| ce_messages := PNone; ce_response := PStr (py "ok") |}
  /\ exists msg,
       get_recent_conversations 5 world_with_null_messages
       = (Raise (TypeError msg), world_with_null_messages).
Proof.
  apply (recent_conversations_fail_on_messages_without_a_length 5
           world_with_null_messages [sample_example] []
           {| ce_messages := PNone; ce_response := PStr (py "ok") |}).
  - reflexivity.
  - repeat constructor. by do 2 eexists.
  - reflexivity.
Defined.

Lemma last_user_scan_outcomes_witness :
  (forall u : Message,
     role u = py "user" ->
     extract_current_message_and_history_from_messages
       ([PInt 7; PNone] ++ message_dict u :: map message_dict [assistant_hi])
     = Ok (PStr (content u), [PInt 7; PNone]))
  /\ (forall items,
        dict_get items (py "role") = None ->
        extract_current_message_and_history_from_messages
          ([PInt 7; PNone] ++ PDict items :: map message_dict [assistant_hi])
        = Raise (KeyError (py "role")))
  /\ extract_current_message_and_history_from_messages
       ([PInt 7; PNone]
        ++ PDict [(py "role", PStr (py "user")); (py "content", PNone)]
           :: map message_dict [assistant_hi])
     = Ok (PStr [],
           [PInt 7; PNone]
           ++ PDict [(py "role", PStr (py "user")); (py "content", PNone)]
              :: map message_dict [assistant_hi]).
Proof.
  apply (last_user_scan_outcomes [PInt 7; PNone] [assistant_hi]).
  repeat constructor. vm_compute. discriminate.
Defined.

(** ** Floats in JSON and in the log *)

(** [json.dumps] writes a float as the shortest text that reads back as
    the same float, with an exponent from [1e+16] on and below [0.0001]. *)
Example json_dumps_of_floats :
  Json.dumps
    (PList [PFloat Strict.DEFAULT_TEMPERATURE; PFloat 0%N;
            PFloat 0x8000000000000000%N; PFloat 0x4341C37937E08000%N;
            PFloat 0x3EE4F8B588E368F1%N; PFloat 0x3F1A36E2EB1C432D%N;
            PFloat 0x7FEFFFFFFFFFFFFF%N; PFloat 1%N;
            PFloat Float64.NAN; PFloat Float64.INFINITY; PInt (-5)])
  = Ok (py "[0.7, 0.0, -0.0, 1e+16, 1e-05, 0.0001, 1.7976931348623157e+308, 5e-324, NaN, Infinity, -5]").
Proof. vm_compute. reflexivity. Qed.

(** [json.loads] reads a number with a fraction or an exponent as the
    nearest float, and any other as an [int]. *)
Example json_loads_of_numbers :
  Json.loads (py "[0.7, 1e5, -0.0, -0, 1.5E-3, 1e400, -Infinity, 7]")
  = Ok (PList [PFloat Strict.DEFAULT_TEMPERATURE; PFloat 0x40F86A0000000000%N;
               PFloat 0x8000000000000000%N; PInt 0;
               PFloat 0x3F589374BC6A7EFA%N; PFloat Float64.INFINITY;
               PFloat 0xFFF0000000000000%N; PInt 7]).
Proof. vm_compute. reflexivity. Qed.

(** The log of the request of the examples: the request, the response and
    the comprehensive record, which has the default temperature in it.
    When the upstream call fails the [except] block adds an error line and
    a comprehensive record of its own before the two of the [finally]
    block. *)
Example log_lines_of_the_sample_request :
  logfile (snd (serve Json.dumps Strict.ChatCompletionRequest_new
                  canned_chatbot STORAGE_KEY sample_request (Ok hi_stream)
                  world0))
  = [py (requote "{'type': 'request', 'timestamp': '2025-01-01T00:00:00', 'data': {'model': 'm', 'messages': [{'role': 'user', 'content': 'hello'}]}}") ++ NL;
     py (requote "{'type': 'response', 'timestamp': '2025-01-01T00:00:00', 'data': '[No response from upstream]'}") ++ NL;
     py (requote "{'type': 'comprehensive_log', 'timestamp': '2025-01-01T00:00:00', 'request_data': {'model': 'm', 'messages': [{'role': 'user', 'content': 'hello'}], 'stream': false, 'temperature': 0.7, 'max_tokens': 4000}, 'extracted_data': {'current_message': 'hello', 'message_history': []}, 'upstream_response': '[No response from upstream]', 'processing_results': {'shaggoth_response': 'Noted: hello', 'stored_examples_count': 1}}") ++ NL]
  /\ length (logfile (snd (serve Json.dumps Strict.ChatCompletionRequest_new
                             canned_chatbot STORAGE_KEY sample_request
                             (Raise refused) world0))) = 5.
Proof. vm_compute. by split. Qed.
